(** * Smart Study Planner: the data layer of [script.js]

    A shallow embedding of the task and goal operations of the planner
    (create, update, delete, toggle, progress, import) and of the values
    the dashboard derives from them (study streak, weekly progress, the
    order of the task list), with the properties of each.

    Conventions of the embedding.
    - A JavaScript number that holds an integer is a [Z]; the percentage
      of the weekly progress bar is a rational [Q].
    - A [Date] is its time value: milliseconds since the epoch, in UTC.
      The local time zone is a [JS.Zone], the offset of local time from
      UTC at every moment; where clocks change during the year a local
      day lasts 23 or 25 hours. The study streak is computed in any zone.
      The week and the calendar are stated for a zone of constant offset
      [tz] in milliseconds (local = UTC + tz).
    - A calendar day is its day number, the days since 1970-01-01. The
      string [YYYY-MM-DD] of a due date and the string [toDateString]
      prints both name one day, and stand for that number; the empty
      string of an unset date is [None].
    - [window.tasks], [window.goals], [window.settings], localStorage and
      what the user is shown (toasts, console lines) make up the [World]
      every operation transforms. Rendering of HTML is left out. *)

From Stdlib Require Import ZArith QArith Sorted Permutation Ascii.
From stdpp Require Import base tactics option list strings gmap sorting pretty.

Local Open Scope Z_scope.

(** ** JavaScript values the planner relies on *)

Module JS.

(** [1000 * 60 * 60 * 24] *)
Definition msPerDay : Z := 1000 * 60 * 60 * 24.

(** The local time zone as the language defines it: [LocalTZA(t, isUTC)]
    is the offset of local time from UTC in milliseconds, at the UTC time
    [t] when [isUTC] is true and at the local time [t] when it is false. *)
Record Zone := mkZone { LocalTZA : Z → bool → Z }.

(** [LocalTime(t)] and [UTC(t)], the two conversions every [Date] method
    that reads or sets local fields goes through. *)
Definition LocalTime (zone : Zone) (t : Z) : Z := t + LocalTZA zone t true.
Definition UTC (zone : Zone) (t : Z) : Z := t - LocalTZA zone t false.

(** The local calendar day a time value falls on, which is what
    [toDateString] prints. *)
Definition dayIn (zone : Zone) (ms : Z) : Z := LocalTime zone ms `div` msPerDay.

(** Local midnight of a day: [new Date(dateStr)] for a string printed by
    [toDateString], and [setHours(0, 0, 0, 0)]. *)
Definition midnightIn (zone : Zone) (day : Z) : Z := UTC zone (day * msPerDay).

(** A zone whose clocks never change: local time is UTC + [tz]
    throughout. *)
Definition fixedZone (tz : Z) : Zone := mkZone (λ _ _, tz).

(** [dayIn] and [midnightIn] in the zone of constant offset [tz]. *)
Definition localDay (tz ms : Z) : Z := (ms + tz) `div` msPerDay.

Definition localMidnight (tz day : Z) : Z := day * msPerDay - tz.

(** [new Date("YYYY-MM-DD")]: a date-only string is read as UTC
    midnight; the empty string gives an invalid date. *)
Definition parseDateOnly (d : option Z) : option Z :=
  (λ day, day * msPerDay) <$> d.

(** [getDay()]: 0 is Sunday; day 0 (1970-01-01) was a Thursday. *)
Definition getDay (day : Z) : Z := (day + 4) `mod` 7.

(** [Number(b)], the coercion behind [a.completed - b.completed]. *)
Definition ofBool (b : bool) : Z := if b then 1 else 0.

(** A number that may be [NaN]: the difference of two dates is [NaN]
    as soon as one of them is invalid. *)
Definition minus (a b : option Z) : option Z :=
  match a, b with
  | Some x, Some y => Some (x - y)
  | _, _ => None
  end.

(** [Array.prototype.sort(cmp)] for a consistent comparator: a stable
    sort, whose result is then the same in every engine. The comparator
    returns a number, [None] for [NaN], which the sort reads as [+0]; an
    element moves before another only when the comparator says so. Where
    the comparator is not consistent (the comparators of the task and
    goal lists are not, once a date is missing and a difference is
    [NaN]) the language leaves the order to the engine, and this
    insertion sort is one possible outcome only: every statement about a
    sorted list below assumes the dates that make its comparator
    consistent. *)
Section Sort.
Context {A : Type} (cmp : A → A → option Z).

Definition sortCompare (x y : A) : Z := default 0 (cmp x y).

Fixpoint insert (x : A) (l : list A) : list A :=
  match l with
  | [] => [x]
  | y :: l' =>
      if sortCompare x y <=? 0 then x :: y :: l' else y :: insert x l'
  end.

Definition sort (l : list A) : list A := foldr insert [] l.
End Sort.

End JS.

(** ** Tasks *)

Inductive Priority := high | medium | low.

Module Task.

Record t := mk {
  id : string;
  title : string;
  subject : string;
  description : string;
  dueDate : option Z;
  dueTime : string;
  priority : Priority;
  completed : bool;
  createdAt : option Z;
  completedAt : option Z
}.

(** The object handed to [createTask] and [updateTask]: any subset of
    the fields of a task. The task form fills the six fields of
    [ofForm]; [window.StudyPlanner] exports both functions, so that
    other callers pass what they like. *)
Record data := mkData {
  d_id : option string;
  d_title : option string;
  d_subject : option string;
  d_description : option string;
  d_dueDate : option (option Z);
  d_dueTime : option string;
  d_priority : option Priority;
  d_completed : option bool;
  d_createdAt : option (option Z);
  d_completedAt : option (option Z)
}.

Definition noData : data :=
  mkData None None None None None None None None None None.

(** [taskData] as [handleTaskSubmit] builds it. *)
Definition ofForm (title subject : string) (dueDate : option Z)
    (dueTime : string) (priority : Priority) (description : string) : data :=
  mkData None (Some title) (Some subject) (Some description) (Some dueDate)
         (Some dueTime) (Some priority) None None None.

(** [{ ...task, ...taskData }] *)
Definition spread (task : t) (d : data) : t :=
  mk (default (id task) (d_id d))
     (default (title task) (d_title d))
     (default (subject task) (d_subject d))
     (default (description task) (d_description d))
     (default (dueDate task) (d_dueDate d))
     (default (dueTime task) (d_dueTime d))
     (default (priority task) (d_priority d))
     (default (completed task) (d_completed d))
     (default (createdAt task) (d_createdAt d))
     (default (completedAt task) (d_completedAt d)).

Definition set_id (v : string) (task : t) : t :=
  mk v (title task) (subject task) (description task) (dueDate task)
     (dueTime task) (priority task) (completed task) (createdAt task)
     (completedAt task).

Definition set_createdAt (v : option Z) (task : t) : t :=
  mk (id task) (title task) (subject task) (description task) (dueDate task)
     (dueTime task) (priority task) (completed task) v (completedAt task).

Definition set_completed (v : bool) (task : t) : t :=
  mk (id task) (title task) (subject task) (description task) (dueDate task)
     (dueTime task) (priority task) v (createdAt task) (completedAt task).

Definition set_completedAt (v : option Z) (task : t) : t :=
  mk (id task) (title task) (subject task) (description task) (dueDate task)
     (dueTime task) (priority task) (completed task) (createdAt task) v.

End Task.

(** [TASK_TEMPLATE]; its [id] is [null] until [createTask] assigns one,
    which the empty string stands for here. *)
Definition TASK_TEMPLATE : Task.t :=
  Task.mk "" "" "" "" None "" medium false None None.

(** ** Goals *)

Module Goal.

Record t := mk {
  id : string;
  title : string;
  category : string;
  description : string;
  targetDate : option Z;
  targetValue : Z;
  currentValue : Z;
  unit : string;
  createdAt : option Z;
  completed : bool
}.

(** The object handed to [createGoal] and [updateGoal]. *)
Record data := mkData {
  d_id : option string;
  d_title : option string;
  d_category : option string;
  d_description : option string;
  d_targetDate : option (option Z);
  d_targetValue : option Z;
  d_currentValue : option Z;
  d_unit : option string;
  d_createdAt : option (option Z);
  d_completed : option bool
}.

(** [goalData] as [handleGoalSubmit] builds it. *)
Definition ofForm (title category : string) (targetDate : option Z)
    (targetValue : Z) (unit description : string) : data :=
  mkData None (Some title) (Some category) (Some description)
         (Some targetDate) (Some targetValue) None (Some unit) None None.

(** [{ ...goal, ...goalData }] *)
Definition spread (goal : t) (d : data) : t :=
  mk (default (id goal) (d_id d))
     (default (title goal) (d_title d))
     (default (category goal) (d_category d))
     (default (description goal) (d_description d))
     (default (targetDate goal) (d_targetDate d))
     (default (targetValue goal) (d_targetValue d))
     (default (currentValue goal) (d_currentValue d))
     (default (unit goal) (d_unit d))
     (default (createdAt goal) (d_createdAt d))
     (default (completed goal) (d_completed d)).

Definition set_id (v : string) (goal : t) : t :=
  mk v (title goal) (category goal) (description goal) (targetDate goal)
     (targetValue goal) (currentValue goal) (unit goal) (createdAt goal)
     (completed goal).

Definition set_createdAt (v : option Z) (goal : t) : t :=
  mk (id goal) (title goal) (category goal) (description goal)
     (targetDate goal) (targetValue goal) (currentValue goal) (unit goal) v
     (completed goal).

Definition set_currentValue (v : Z) (goal : t) : t :=
  mk (id goal) (title goal) (category goal) (description goal)
     (targetDate goal) (targetValue goal) v (unit goal) (createdAt goal)
     (completed goal).

Definition set_completed (v : bool) (goal : t) : t :=
  mk (id goal) (title goal) (category goal) (description goal)
     (targetDate goal) (targetValue goal) (currentValue goal) (unit goal)
     (createdAt goal) v.

End Goal.

(** [GOAL_TEMPLATE] *)
Definition GOAL_TEMPLATE : Goal.t :=
  Goal.mk "" "" "" "" None 0 0 "hours" None false.

(** ** Settings, storage and the session *)

(** [window.settings]; the object [{}] has no field at all. *)
Record Settings := mkSettings {
  theme : option string;
  notifications : option bool;
  weekStartsOn : option Z
}.

Definition defaultSettings : Settings :=
  mkSettings (Some "light") (Some true) (Some 1).

Definition emptySettings : Settings := mkSettings None None None.

(** [STORAGE_KEYS] *)
Module STORAGE_KEYS.
Definition TASKS : string := "studyPlanner_tasks".
Definition GOALS : string := "studyPlanner_goals".
Definition SETTINGS : string := "studyPlanner_settings".
Definition STATS : string := "studyPlanner_stats".
End STORAGE_KEYS.

(** What [JSON.stringify] wrote under a key, kept as the value it reads
    back to. *)
Inductive Stored :=
  | StoredTasks (l : list Task.t)
  | StoredGoals (l : list Goal.t)
  | StoredSettings (s : Settings).

Inductive ToastType := t_success | t_error | t_warning | t_info.

(** What the user or the console is shown, oldest first. *)
Inductive Event :=
  | Toast (message : string) (type : ToastType)
  | ConsoleLog (line : string)
  | ConsoleError (line : string).

Record World := mkWorld {
  tasks : list Task.t;
  goals : list Goal.t;
  settings : Settings;
  (** localStorage, and whether it still accepts a write (it throws once
      the quota is exceeded) *)
  localStorage : gmap string Stored;
  storageAccepts : bool;
  events : list Event
}.

Definition set_tasks (v : list Task.t) (w : World) : World :=
  mkWorld v (goals w) (settings w) (localStorage w) (storageAccepts w)
          (events w).

Definition set_goals (v : list Goal.t) (w : World) : World :=
  mkWorld (tasks w) v (settings w) (localStorage w) (storageAccepts w)
          (events w).

Definition set_settings (v : Settings) (w : World) : World :=
  mkWorld (tasks w) (goals w) v (localStorage w) (storageAccepts w)
          (events w).

Definition emit (e : Event) (w : World) : World :=
  mkWorld (tasks w) (goals w) (settings w) (localStorage w)
          (storageAccepts w) (events w ++ [e]).

Definition showNotification (message : string) (type : ToastType)
    (w : World) : World :=
  emit (Toast message type) w.

(** [saveToStorage(key, data)]: a failed write is caught, logged and
    shown; the session goes on with what it holds in memory. *)
Definition saveToStorage (key : string) (data : Stored) (w : World) : World :=
  if storageAccepts w then
    emit (ConsoleLog ("Data saved to localStorage: " +:+ key))
         (mkWorld (tasks w) (goals w) (settings w)
                  (<[key := data]> (localStorage w)) (storageAccepts w)
                  (events w))
  else
    showNotification "Failed to save data" t_error
      (emit (ConsoleError ("Error saving to localStorage (" +:+ key +:+ "):")) w).

(** ** Mutation operations on tasks

    [generateId()] and [new Date()] read the clock and the random source:
    the identifier [newId] and the time [now] are what they returned. *)

(** [window.tasks.find(t => t.id === taskId)] and [findIndex]: the first
    task with that id, and its index. *)
Definition findTask (taskId : string) (l : list Task.t) : option (nat * Task.t) :=
  list_find (λ t, Task.id t = taskId) l.

(** [createTask(taskData)] *)
Definition createTask (taskData : Task.data) (newId : string) (now : Z)
    (w : World) : World :=
  let task :=
    Task.set_completed false
      (Task.set_createdAt (Some now)
         (Task.set_id newId (Task.spread TASK_TEMPLATE taskData))) in
  let w := set_tasks (tasks w ++ [task]) w in
  let w := saveToStorage STORAGE_KEYS.TASKS (StoredTasks (tasks w)) w in
  emit (ConsoleLog "Task created:") w.

(** [updateTask(taskId, taskData)] *)
Definition updateTask (taskId : string) (taskData : Task.data)
    (w : World) : World :=
  match findTask taskId (tasks w) with
  | Some (taskIndex, task) =>
      let w := set_tasks (<[taskIndex := Task.spread task taskData]> (tasks w)) w in
      let w := saveToStorage STORAGE_KEYS.TASKS (StoredTasks (tasks w)) w in
      emit (ConsoleLog ("Task updated: " +:+ taskId)) w
  | None => w
  end.

(** [deleteTask(taskId)]; [confirmed] is the answer to the [confirm]
    dialog. *)
Definition deleteTask (taskId : string) (confirmed : bool) (w : World) : World :=
  if confirmed then
    let w := set_tasks (filter (λ t, Task.id t ≠ taskId) (tasks w)) w in
    let w := saveToStorage STORAGE_KEYS.TASKS (StoredTasks (tasks w)) w in
    showNotification "Task deleted successfully" t_success w
  else w.

(** [toggleTaskCompletion(taskId)]: the task found is changed in place. *)
Definition toggleTaskCompletion (taskId : string) (now : Z) (w : World) : World :=
  match findTask taskId (tasks w) with
  | Some (i, task) =>
      let task := Task.set_completed (negb (Task.completed task)) task in
      let task :=
        Task.set_completedAt
          (if Task.completed task then Some now else None) task in
      let w := set_tasks (<[i := task]> (tasks w)) w in
      let w := saveToStorage STORAGE_KEYS.TASKS (StoredTasks (tasks w)) w in
      let status := if Task.completed task then "completed" else "reopened" in
      showNotification ("Task " +:+ status) t_success w
  | None => w
  end.

(** ** Mutation operations on goals *)

Definition findGoal (goalId : string) (l : list Goal.t) : option (nat * Goal.t) :=
  list_find (λ g, Goal.id g = goalId) l.

(** [createGoal(goalData)] *)
Definition createGoal (goalData : Goal.data) (newId : string) (now : Z)
    (w : World) : World :=
  let goal :=
    Goal.set_completed false
      (Goal.set_currentValue 0
         (Goal.set_createdAt (Some now)
            (Goal.set_id newId (Goal.spread GOAL_TEMPLATE goalData)))) in
  let w := set_goals (goals w ++ [goal]) w in
  let w := saveToStorage STORAGE_KEYS.GOALS (StoredGoals (goals w)) w in
  emit (ConsoleLog "Goal created:") w.

(** [updateGoal(goalId, goalData)] *)
Definition updateGoal (goalId : string) (goalData : Goal.data)
    (w : World) : World :=
  match findGoal goalId (goals w) with
  | Some (goalIndex, goal) =>
      let w := set_goals (<[goalIndex := Goal.spread goal goalData]> (goals w)) w in
      let w := saveToStorage STORAGE_KEYS.GOALS (StoredGoals (goals w)) w in
      emit (ConsoleLog ("Goal updated: " +:+ goalId)) w
  | None => w
  end.

(** [updateGoalProgress(goalId, newValue)] *)
Definition updateGoalProgress (goalId : string) (newValue : Z)
    (w : World) : World :=
  match findGoal goalId (goals w) with
  | Some (i, goal) =>
      let goal := Goal.set_currentValue (Z.max 0 newValue) goal in
      let goal :=
        Goal.set_completed
          (bool_decide (Goal.currentValue goal >= Goal.targetValue goal)) goal in
      let w := set_goals (<[i := goal]> (goals w)) w in
      let w := saveToStorage STORAGE_KEYS.GOALS (StoredGoals (goals w)) w in
      if Goal.completed goal then
        showNotification "Congratulations! Goal completed! 🎉" t_success w
      else w
  | None => w
  end.

(** ** Import *)

(** *** A backup in the planner's own format

    A top-level field of a backup file written in the format of
    [exportData]: the key is missing, or holds [null], or holds a value
    of the type the format gives it. Files that hold anything else are
    the matter of [FileImport.onload] below. *)
Inductive Field (A : Type) :=
  | Missing
  | Null
  | Present (a : A).
Arguments Missing {A}.
Arguments Null {A}.
Arguments Present {A} a.

Record Backup := mkBackup {
  b_tasks : Field (list Task.t);
  b_goals : Field (list Goal.t);
  b_settings : Field Settings
}.

Inductive ImportError :=
  | InvalidBackupFormat   (* new Error('Invalid backup file format') *)
  | JsonSyntaxError.      (* thrown by JSON.parse *)

Inductive ImportResult :=
  | Imported (w : World)
  | Cancelled
  | Thrown (e : ImportError).

(** The body of the [try] block of [reader.onload] on such a file, when
    the five views it redraws at its end are drawn without an exception.
    [parsed] is what [JSON.parse] made of the file ([None] when it threw,
    or gave a value whose fields cannot be read), [confirmed] the answer
    to the [confirm] dialog. [FileImport.onload] is the handler on any
    file, with the redrawing; it agrees with this one where this one
    applies. *)
Definition importTry (parsed : option Backup) (confirmed : bool)
    (w : World) : ImportResult :=
  match parsed with
  | None => Thrown JsonSyntaxError
  | Some data =>
      match b_tasks data, b_goals data with
      | Present ts, Present gs =>
          if negb confirmed then Cancelled
          else
            let w := set_tasks ts w in
            let w := set_goals gs w in
            let w :=
              set_settings
                (match b_settings data with
                 | Present s => s
                 | _ => emptySettings
                 end) w in
            let w := saveToStorage STORAGE_KEYS.TASKS (StoredTasks (tasks w)) w in
            let w := saveToStorage STORAGE_KEYS.GOALS (StoredGoals (goals w)) w in
            let w :=
              saveToStorage STORAGE_KEYS.SETTINGS (StoredSettings (settings w)) w in
            Imported (showNotification "Data imported successfully" t_success w)
      | _, _ => Thrown InvalidBackupFormat   (* !data.tasks || !data.goals *)
      end
  end.

(** [importData(file)], once the file is read: the [try] block and its
    [catch]. *)
Definition importData (parsed : option Backup) (confirmed : bool)
    (w : World) : World :=
  match importTry parsed confirmed w with
  | Imported w' => w'
  | Cancelled => w
  | Thrown _ =>
      showNotification "Failed to import data. Please check the file format."
        t_error (emit (ConsoleError "Import error:") w)
  end.

(** *** A file of any content

    [JSON.parse] accepts every JSON text, and the handler checks nothing
    of [data.tasks] and [data.goals] but that they count as true. What
    it assigns to [window.tasks] and [window.goals] may therefore be a
    value that is no list, which a [World] cannot hold: the handler is
    modelled here on a [Session], whose collections hold any value. *)

Module FileImport.

(** The value under a key of the parsed file, or in a variable of the
    session: the key may be missing, and the value may be [null], a
    boolean, a number, a string, an object that is not of the type [A],
    or a value of the type [A] the file format gives the key (for
    [tasks] and [goals] an array of records, for [settings] an object of
    settings). An array is taken to hold records of the data model. *)
Inductive Value (A : Type) :=
  | Absent
  | IsNull
  | Bool (b : bool)
  | Number (n : Z)
  | Text (s : string)
  | Object
  | Holds (a : A).
Arguments Absent {A}.
Arguments IsNull {A}.
Arguments Bool {A} b.
Arguments Number {A} n.
Arguments Text {A} s.
Arguments Object {A}.
Arguments Holds {A} a.

(** Whether a value counts as true: [undefined], [null], [false], [0]
    and the empty string do not, every object and every array does. *)
Definition truthy {A} (v : Value A) : bool :=
  match v with
  | Absent | IsNull => false
  | Bool b => b
  | Number n => negb (n =? 0)
  | Text s => negb (String.eqb s "")
  | Object | Holds _ => true
  end.

Definition isHolds {A} (v : Value A) : bool :=
  match v with Holds _ => true | _ => false end.

(** What [JSON.parse] made of the file. *)
Record Payload := mkPayload {
  p_tasks : Value (list Task.t);
  p_goals : Value (list Goal.t);
  p_settings : Value Settings
}.

(** What [JSON.stringify] wrote under a key, kept as the value it reads
    back to. *)
Inductive Saved :=
  | SavedTasks (v : Value (list Task.t))
  | SavedGoals (v : Value (list Goal.t))
  | SavedSettings (v : Value Settings).

(** The session, with collections that hold any value. *)
Record Session := mkSession {
  s_tasks : Value (list Task.t);
  s_goals : Value (list Goal.t);
  s_settings : Value Settings;
  s_localStorage : gmap string Saved;
  s_storageAccepts : bool;
  s_events : list Event
}.

Definition ofStored (d : Stored) : Saved :=
  match d with
  | StoredTasks l => SavedTasks (Holds l)
  | StoredGoals l => SavedGoals (Holds l)
  | StoredSettings s => SavedSettings (Holds s)
  end.

(** A session that is within the data model. *)
Definition ofWorld (w : World) : Session :=
  mkSession (Holds (tasks w)) (Holds (goals w)) (Holds (settings w))
            (ofStored <$> localStorage w) (storageAccepts w) (events w).

Definition ofField {A} (f : Field A) : Value A :=
  match f with
  | Missing => Absent
  | Null => IsNull
  | Present a => Holds a
  end.

Definition ofBackup (data : Backup) : Payload :=
  mkPayload (ofField (b_tasks data)) (ofField (b_goals data))
            (ofField (b_settings data)).

Definition emit (e : Event) (s : Session) : Session :=
  mkSession (s_tasks s) (s_goals s) (s_settings s) (s_localStorage s)
            (s_storageAccepts s) (s_events s ++ [e]).

Definition showNotification (message : string) (type : ToastType)
    (s : Session) : Session :=
  emit (Toast message type) s.

(** [saveToStorage(key, data)] *)
Definition saveToStorage (key : string) (data : Saved) (s : Session) : Session :=
  if s_storageAccepts s then
    emit (ConsoleLog ("Data saved to localStorage: " +:+ key))
         (mkSession (s_tasks s) (s_goals s) (s_settings s)
                    (<[key := data]> (s_localStorage s)) (s_storageAccepts s)
                    (s_events s))
  else
    showNotification "Failed to save data" t_error
      (emit (ConsoleError ("Error saving to localStorage (" +:+ key +:+ "):")) s).

(** Whether [updateDashboardStats()], the first view redrawn, returns:
    it leaves at once when [window.tasks] counts as false, and calls
    [window.tasks.filter] otherwise, which only an array has; on any
    other value the call raises a [TypeError]. *)
Definition updateDashboardStats_returns (ts : Value (list Task.t)) : bool :=
  negb (truthy ts) || isHolds ts.

(** The [catch] of the handler. *)
Definition caught (s : Session) : Session :=
  showNotification "Failed to import data. Please check the file format."
    t_error (emit (ConsoleError "Import error:") s).

(** [reader.onload], the handler [importData(file)] installs, once the
    file is read. [parsed] is what [JSON.parse] made of the file ([None]
    when it threw, or gave a value whose fields cannot be read),
    [confirmed] the answer to the [confirm] dialog. [drawn] says whether
    the four views redrawn after [updateDashboardStats()]
    ([renderTasksList], [renderGoalsList], [renderWeeklyCalendar],
    [renderDailyTimeline(selectedDate)]), whose HTML is not modelled,
    returned: they raise on a value they cannot walk through and when
    [selectedDate] is not a valid date. *)
Definition onload (parsed : option Payload) (confirmed drawn : bool)
    (w : World) : Session :=
  let s := ofWorld w in
  match parsed with
  | None => caught s
  | Some data =>
      if negb (truthy (p_tasks data)) || negb (truthy (p_goals data)) then
        caught s                      (* throw new Error('Invalid backup file format') *)
      else if negb confirmed then s
      else
        let s :=
          mkSession (p_tasks data) (p_goals data)
                    (if truthy (p_settings data) then p_settings data
                     else Holds emptySettings)
                    (s_localStorage s) (s_storageAccepts s) (s_events s) in
        let s := saveToStorage STORAGE_KEYS.TASKS (SavedTasks (s_tasks s)) s in
        let s := saveToStorage STORAGE_KEYS.GOALS (SavedGoals (s_goals s)) s in
        let s :=
          saveToStorage STORAGE_KEYS.SETTINGS (SavedSettings (s_settings s)) s in
        if updateDashboardStats_returns (s_tasks s) && drawn then
          showNotification "Data imported successfully" t_success s
        else caught s
  end.

End FileImport.

(** ** Derived values of the dashboard and the task list *)

(** The key of [tasksByDate] a completed task is filed under: the local
    day of [new Date(task.completedAt)]. *)
Definition completionDay (zone : JS.Zone) (task : Task.t) : option Z :=
  JS.dayIn zone <$> Task.completedAt task.

(** [tasksByDate]: the [forEach] that files every completed task under
    its day. *)
Definition groupByDate (zone : JS.Zone) (completedTasks : list Task.t)
    : gmap Z (list Task.t) :=
  foldl (λ tasksByDate task,
           match completionDay zone task with
           | Some date =>
               <[date := default [] (tasksByDate !! date) ++ [task]]> tasksByDate
           | None => tasksByDate
           end)
        ∅ completedTasks.

(** The [for] loop of [calculateStudyStreak] over the sorted days, from
    the value [streak] has reached. [taskDate] is local midnight of the
    day, and [daysDiff] the whole spans of 24 hours between it and
    [currentDate]. *)
Fixpoint streakLoop (zone : JS.Zone) (currentDate : Z)
    (completionDates : list Z) (streak : Z) : Z :=
  match completionDates with
  | [] => streak
  | dateStr :: rest =>
      let taskDate := JS.midnightIn zone dateStr in
      let daysDiff := (currentDate - taskDate) `div` JS.msPerDay in
      if daysDiff =? streak then streakLoop zone currentDate rest (streak + 1)
      else if daysDiff >? streak then streak
      else streakLoop zone currentDate rest streak
  end.

(** [(a, b) => new Date(b) - new Date(a)], the comparator that sorts the
    days, the latest first. *)
Definition byMidnight (zone : JS.Zone) (a b : Z) : option Z :=
  JS.minus (Some (JS.midnightIn zone b)) (Some (JS.midnightIn zone a)).

(** [calculateStudyStreak()]. [Object.keys] lists the days in the order
    they were filed; the loop reads nothing of a day but its midnight,
    and the sort that follows puts the midnights in descending order
    whatever order the days came in, so the days are read off the map
    here. *)
Definition calculateStudyStreak (zone : JS.Zone) (now : Z) (w : World) : Z :=
  if bool_decide (length (tasks w) = 0%nat) then 0
  else
    let completedTasks :=
      filter (λ task, Task.completed task = true ∧ is_Some (Task.completedAt task))
             (tasks w) in
    if bool_decide (length completedTasks = 0%nat) then 0
    else
      let tasksByDate := groupByDate zone completedTasks in
      let completionDates :=
        JS.sort (byMidnight zone) (map_to_list tasksByDate).*1 in
      let currentDate := JS.midnightIn zone (JS.dayIn zone now) in
      streakLoop zone currentDate completionDates 0.

(** [getWeekStart(offset)] *)
Definition getWeekStart (tz now offset : Z) : Z :=
  let today := JS.localDay tz now in
  let dayOfWeek := JS.getDay today in
  let mondayOffset := if dayOfWeek =? 0 then -6 else 1 - dayOfWeek in
  JS.localMidnight tz (today + mondayOffset + offset * 7).

(** The tasks [updateWeeklyProgress] counts: those whose due date, read
    by [new Date], lies between the start of the week and the last
    millisecond of its seventh day. A comparison with an invalid date is
    false. *)
Definition weekTasks (tz now : Z) (l : list Task.t) : list Task.t :=
  let weekStart := getWeekStart tz now 0 in
  let weekEnd :=
    JS.localMidnight tz (JS.localDay tz weekStart + 6)
    + (23 * 3600000 + 59 * 60000 + 59 * 1000 + 999) in
  filter (λ task,
            Is_true
              match JS.parseDateOnly (Task.dueDate task) with
              | Some taskDate => (weekStart <=? taskDate) && (taskDate <=? weekEnd)
              | None => false
              end) l.

(** [updateWeeklyProgress()]: the value of [progressPercent], which
    sets the width of the progress bar. *)
Definition updateWeeklyProgress (tz now : Z) (w : World) : Q :=
  let weekTasks := weekTasks tz now (tasks w) in
  let completedWeekTasks :=
    length (filter (λ task, Task.completed task = true) weekTasks) in
  let totalWeekTasks := length weekTasks in
  if bool_decide (0 < totalWeekTasks)%nat then
    (inject_Z (Z.of_nat completedWeekTasks) / inject_Z (Z.of_nat totalWeekTasks))
    * inject_Z 100
  else 0%Q.

(** [priorityOrder] *)
Definition priorityOrder (p : Priority) : Z :=
  match p with high => 3 | medium => 2 | low => 1 end.

(** The comparator of [renderTasksList]. *)
Definition compareTasks (a b : Task.t) : option Z :=
  if bool_decide (Task.completed a ≠ Task.completed b) then
    Some (JS.ofBool (Task.completed a) - JS.ofBool (Task.completed b))
  else if bool_decide (Task.dueDate a ≠ Task.dueDate b) then
    JS.minus (JS.parseDateOnly (Task.dueDate a))
             (JS.parseDateOnly (Task.dueDate b))
  else
    Some (priorityOrder (Task.priority b) - priorityOrder (Task.priority a)).

(** [sortedTasks], the order in which [renderTasksList] lists the
    tasks. *)
Definition sortedTasks (w : World) : list Task.t :=
  JS.sort compareTasks (tasks w).

(** ** What the specification says, in its own words

    The definitions of this section follow the text of the specification,
    not the code; the theorems compare the two. *)

(** Some task of [l] is completed and has its [completedAt] on [day]. *)
Definition completedOn (zone : JS.Zone) (l : list Task.t) (day : Z) : Prop :=
  ∃ task stamp,
    task ∈ l ∧ Task.completed task = true ∧
    Task.completedAt task = Some stamp ∧ JS.dayIn zone stamp = day.

(** [n] is the length of the longest run of consecutive days, counted
    backward from [today], that all have a completion: the [n] days from
    [today] down have one, the day before them has none. *)
Definition longestRunFrom (zone : JS.Zone) (today : Z) (l : list Task.t)
    (n : Z) : Prop :=
  0 ≤ n ∧
  (∀ i, 0 ≤ i < n → completedOn zone l (today - i)) ∧
  ¬ completedOn zone l (today - n).

(** From local midnight of [day] to local midnight of [today] there are
    as many whole spans of 24 hours as there are calendar days. It is so
    in a zone whose clocks never change, and wherever no day between the
    two was shortened by a change of the clocks. *)
Definition wholeDaysApart (zone : JS.Zone) (today day : Z) : Prop :=
  (JS.midnightIn zone today - JS.midnightIn zone day) `div` JS.msPerDay
  = today - day.

(** The order of [sortedTasks()]: incomplete before completed, then the
    earlier due date, then the higher priority rank. *)
Definition dueEarlier (a b : Task.t) : Prop :=
  ∃ da db, Task.dueDate a = Some da ∧ Task.dueDate b = Some db ∧ da < db.

Definition taskOrder (a b : Task.t) : Prop :=
  (Task.completed a = false ∧ Task.completed b = true) ∨
  (Task.completed a = Task.completed b ∧
   (dueEarlier a b ∨
    (Task.dueDate a = Task.dueDate b ∧
     priorityOrder (Task.priority b) ≤ priorityOrder (Task.priority a)))).

(** The comparator lets [x] stand before [y]: it does not ask for [y]
    first. *)
Definition mayPrecede {A} (cmp : A → A → option Z) (x y : A) : Prop :=
  JS.sortCompare cmp x y ≤ 0.

(** A task with a due date, as the data model requires and the task form
    enforces. *)
Definition hasDueDate (task : Task.t) : Prop := is_Some (Task.dueDate task).

(** [x] stands somewhere before [y] in [l]. *)
Definition placedBefore {A} (x y : A) (l : list A) : Prop :=
  ∃ l1 l2 l3, l = l1 ++ x :: l2 ++ y :: l3.

(** The first day of the calendar week of [today] when weeks start on
    weekday [startsOn] (0 is Sunday). *)
Definition weekStartDay (startsOn today : Z) : Z :=
  today - (JS.getDay today - startsOn) `mod` 7.

(** The tasks due within the seven days of the week of [today]. *)
Definition dueInWeek (startsOn today : Z) (l : list Task.t) : list Task.t :=
  filter (λ task,
            Is_true
              match Task.dueDate task with
              | Some d =>
                  (weekStartDay startsOn today <=? d)
                  && (d <=? weekStartDay startsOn today + 6)
              | None => false
              end) l.

(** The share of completed tasks of [l], from 0 to 100; 0 for no task. *)
Definition percentCompleted (l : list Task.t) : Q :=
  match l with
  | [] => 0%Q
  | _ =>
      (100 * Z.of_nat (length (filter (λ t, Task.completed t = true) l))
       # Pos.of_nat (length l))%Q
  end.

(** [weeklyProgress()] as specified: the week starts on the day the
    [weekStartsOn] setting names, Monday when it names none. *)
Definition specWeeklyProgress (s : Settings) (today : Z) (l : list Task.t) : Q :=
  percentCompleted (dueInWeek (default 1 (weekStartsOn s)) today l).

(** The invariant of a task: [completedAt] is present exactly when
    [completed] is true. *)
Definition stampedIffCompleted (task : Task.t) : Prop :=
  is_Some (Task.completedAt task) ↔ Task.completed task = true.

(** The invariant of a goal: [completed] says whether the target is
    reached. *)
Definition completedIffReached (goal : Goal.t) : Prop :=
  Goal.completed goal = bool_decide (Goal.currentValue goal >= Goal.targetValue goal).

(** ** Sample data

    Day 19884 is Monday 2024-06-10. *)

Definition emptyWorld : World := mkWorld [] [] defaultSettings ∅ true [].

Definition readCh3 : Task.t :=
  Task.mk "t1" "Read Ch.3" "Biology" "" (Some 19884) "" high false
          (Some 1717900000000) None.

Definition solveSheet : Task.t :=
  Task.mk "t2" "Problem sheet 4" "Maths" "" (Some 19884) "10:00" medium false
          (Some 1717800000000) None.

Definition essayDone : Task.t :=
  Task.mk "t3" "Essay draft" "History" "" (Some 19880) "" low true
          (Some 1717000000000) (Some 1717500000000).

Definition studyWorld : World :=
  mkWorld [solveSheet; essayDone; readCh3] [] defaultSettings ∅ true [].

Definition readingGoal : Goal.t :=
  Goal.mk "g1" "Read 10 chapters" "Reading" "" (Some 19900) 10 5 "chapters"
          (Some 1717000000000) false.

Definition goalWorld : World :=
  mkWorld [] [readingGoal] defaultSettings ∅ true [].

(** ** The mutations of the task collection, as one type *)

Inductive TaskMutation :=
  | CreateTask (taskData : Task.data) (newId : string) (now : Z)
  | UpdateTask (taskId : string) (taskData : Task.data)
  | ToggleTaskCompletion (taskId : string) (now : Z).

Definition applyTaskMutation (m : TaskMutation) (w : World) : World :=
  match m with
  | CreateTask taskData newId now => createTask taskData newId now w
  | UpdateTask taskId taskData => updateTask taskId taskData w
  | ToggleTaskCompletion taskId now => toggleTaskCompletion taskId now w
  end.

(** The data of the mutation names neither [completed] nor
    [completedAt]; [createTask] overwrites [completed] itself. *)
Definition leavesCompletionAlone (m : TaskMutation) : Prop :=
  match m with
  | CreateTask taskData _ _ => Task.d_completedAt taskData = None
  | UpdateTask _ taskData =>
      Task.d_completed taskData = None ∧ Task.d_completedAt taskData = None
  | ToggleTaskCompletion _ _ => True
  end.

(** A patch that only marks a task completed. *)
Definition markCompleted : Task.data :=
  Task.mkData None None None None None None None (Some true) None None.

(** The goal form as submitted when the target of [readingGoal] is
    lowered from 10 to 3 chapters. *)
Definition lowerTarget : Goal.data :=
  Goal.ofForm "Read 10 chapters" "Reading" (Some 19900) 3 "chapters" "".

(** A backup file without its [goals] field, and a complete one. *)
Definition backupNoGoals : Backup :=
  mkBackup (Present [readCh3]) Missing Missing.

Definition backupEmpty : Backup :=
  mkBackup (Present []) (Present []) Missing.

(** Three days of study in a zone five and a half hours ahead of UTC:
    tasks completed on 2024-06-08, -09 and -10 (local days 19882 to
    19884), none on 2024-06-07, one on 2024-06-05. *)
Definition istOffset : Z := 19800000.

Definition completedTask (taskId : string) (stamp : Z) : Task.t :=
  Task.mk taskId "Revision" "Physics" "" (Some 19884) "" medium true
          (Some 1717000000000) (Some stamp).

Definition streakWorld : World :=
  mkWorld [ completedTask "a" 1717851600000;   (* 2024-06-08 13:00 UTC *)
            completedTask "b" 1718020800000;   (* 2024-06-10 12:00 UTC *)
            completedTask "c" 1717592400000;   (* 2024-06-05 13:00 UTC *)
            completedTask "d" 1717927200000;   (* 2024-06-09 10:00 UTC *)
            completedTask "e" 1717959600000;   (* 2024-06-09 19:00 UTC, the 10th there *)
            readCh3 ]
          [] defaultSettings ∅ true [].

(** 2024-06-10 15:00 UTC, the evening of the 10th in that zone. *)
Definition mondayEvening : Z := 1718031600000.

(** New York in 2024: five hours behind UTC, and four from 2024-03-10
    07:00 UTC, when the clocks go from 02:00 to 03:00, until 2024-11-03
    06:00 UTC, when they go from 02:00 back to 01:00. A local time the
    clocks skip is read with the offset before the change, a local time
    they show twice as the earlier of the two moments. Sunday 2024-03-10
    (day 19792) lasts 23 hours there. *)
Definition newYork : JS.Zone :=
  JS.mkZone (λ t isUTC,
    if isUTC then
      if (1710054000000 <=? t) && (t <? 1730613600000)
      then -14400000 else -18000000
    else
      if (1710039600000 <=? t) && (t <? 1730599200000)
      then -14400000 else -18000000).

(** Monday 2024-03-11 (day 19793), 12:00 in New York. *)
Definition mondayNoonNewYork : Z := 1710172800000.

(** Tasks completed in New York on Saturday 2024-03-09 and on Monday
    2024-03-11, none on the Sunday between them. *)
Definition springWorld : World :=
  mkWorld [ completedTask "sat" 1710014400000;   (* 2024-03-09 15:00 there *)
            completedTask "mon" 1710165600000 ]  (* 2024-03-11 10:00 there *)
          [] defaultSettings ∅ true [].

(** One task, completed there on Sunday 2024-03-10 at 14:00. *)
Definition sundayOnlyWorld : World :=
  mkWorld [completedTask "sun" 1710093600000] [] defaultSettings ∅ true [].

(** The file [{"tasks": 5, "goals": []}], parsed. *)
Definition payloadTasksFive : FileImport.Payload :=
  FileImport.mkPayload (FileImport.Number 5) (FileImport.Holds [])
                       FileImport.Absent.

(** A user who has set weeks to start on Sunday, with one task, done,
    that was due on Sunday 2024-06-09 (day 19883). *)
Definition sundaySettings : Settings := mkSettings (Some "light") (Some true) (Some 0).

Definition sundayTask : Task.t :=
  Task.mk "s1" "Flash cards" "French" "" (Some 19883) "" medium true
          (Some 1717000000000) (Some 1717930000000).

Definition sundayWorld : World :=
  mkWorld [sundayTask] [] sundaySettings ∅ true [].

(** Wednesday 2024-06-12, 12:00 UTC. *)
Definition wednesdayNoon : Z := 1718193600000.

(** A zone five hours behind UTC, and Monday 2024-06-10, 12:00 there. *)
Definition estOffset : Z := -18000000.
Definition mondayNoonEst : Z := 1718038800000.

(** * The rest of the data layer

    The operations and views of [script.js] beside those above: the goal
    side of deletion, loading and unloading, export, the task form, the
    labels of the task and goal cards, the calendar columns, the reminder
    and the HTML escaping. *)

(** ** Goals, loading, unloading, export *)

(** [deleteGoal(goalId)]; [confirmed] is the answer to the [confirm]
    dialog. *)
Definition deleteGoal (goalId : string) (confirmed : bool) (w : World) : World :=
  if confirmed then
    let w := set_goals (filter (λ g, Goal.id g ≠ goalId) (goals w)) w in
    let w := saveToStorage STORAGE_KEYS.GOALS (StoredGoals (goals w)) w in
    showNotification "Goal deleted successfully" t_success w
  else w.

(** What [localStorage.getItem] returned for a key, read at the type of
    the key: nothing, a text [JSON.parse] rejects, or a text that parses. *)
Inductive Item (A : Type) :=
  | NoItem
  | Malformed
  | Parses (a : A).
Arguments NoItem {A}.
Arguments Malformed {A}.
Arguments Parses {A} a.

(** [data ? JSON.parse(data) : fallback]; [None] when [JSON.parse]
    throws. *)
Definition parseOr {A} (fallback : A) (data : Item A) : option A :=
  match data with
  | NoItem => Some fallback
  | Malformed => None
  | Parses a => Some a
  end.

(** [loadDataFromStorage()]: the three reads share one [try] block, and
    its [catch] resets all three collections. *)
Definition loadDataFromStorage (tasksData : Item (list Task.t))
    (goalsData : Item (list Goal.t)) (settingsData : Item Settings)
    (w : World) : World :=
  match
    ts ← parseOr [] tasksData;
    gs ← parseOr [] goalsData;
    s ← parseOr defaultSettings settingsData;
    Some (ts, gs, s)
  with
  | Some (ts, gs, s) =>
      emit (ConsoleLog "Data loaded from localStorage")
           (set_settings s (set_goals gs (set_tasks ts w)))
  | None =>
      set_settings defaultSettings
        (set_goals []
           (set_tasks []
              (emit (ConsoleError "Error loading data from localStorage:") w)))
  end.

(** The [beforeunload] handler: the three collections are objects, so
    all three are saved. *)
Definition beforeUnload (w : World) : World :=
  let w := saveToStorage STORAGE_KEYS.TASKS (StoredTasks (tasks w)) w in
  let w := saveToStorage STORAGE_KEYS.GOALS (StoredGoals (goals w)) w in
  saveToStorage STORAGE_KEYS.SETTINGS (StoredSettings (settings w)) w.

(** The object [exportData()] writes to the backup file. *)
Record ExportFile := mkExport {
  e_tasks : list Task.t;
  e_goals : list Goal.t;
  e_settings : Settings;
  exportDate : Z;
  version : string
}.

(** [exportData()]: the file it offers for download, and the
    notification. *)
Definition exportData (now : Z) (w : World) : ExportFile * World :=
  (mkExport (tasks w) (goals w) (settings w) now "1.0",
   showNotification "Data exported successfully" t_success w).

(** What [JSON.parse] makes of an exported file when it is read back. *)
Definition readExport (f : ExportFile) : Backup :=
  mkBackup (Present (e_tasks f)) (Present (e_goals f)) (Present (e_settings f)).

(** ** The dashboard numbers *)

Record DashboardStats := mkStats {
  totalTasks : Z;
  completedTasks : Z;
  pendingTasks : Z;
  studyStreak : Z
}.

(** [updateDashboardStats()]: the four numbers it writes. *)
Definition updateDashboardStats (zone : JS.Zone) (now : Z) (w : World)
    : DashboardStats :=
  let totalTasks := Z.of_nat (length (tasks w)) in
  let completedTasks :=
    Z.of_nat (length (filter (λ task, Task.completed task = true) (tasks w))) in
  let pendingTasks := totalTasks - completedTasks in
  mkStats totalTasks completedTasks pendingTasks (calculateStudyStreak zone now w).

(** ** Tasks of a day and the weekly calendar *)

(** [formatDateForInput(date)]: the date part of [toISOString()], which
    is the day in UTC. *)
Definition formatDateForInput (date : Z) : Z := date `div` JS.msPerDay.

(** [getTasksForDate(date)] *)
Definition getTasksForDate (date : Z) (w : World) : list Task.t :=
  filter (λ task, Task.dueDate task = Some (formatDateForInput date)) (tasks w).

Module Calendar.

(** [currentDay] of column [i] in [renderWeeklyCalendar]: the start of
    the week moved on by [i] days with [setDate]. *)
Definition currentDay (tz now currentWeekOffset i : Z) : Z :=
  let weekStart := getWeekStart tz now currentWeekOffset in
  JS.localMidnight tz (JS.localDay tz weekStart + i).

(** The number in the header of the column, [currentDay.getDate()], as
    the day it belongs to. *)
Definition headerDay (tz now currentWeekOffset i : Z) : Z :=
  JS.localDay tz (currentDay tz now currentWeekOffset i).

(** [dayTasks] of column [i]. *)
Definition dayTasks (tz now currentWeekOffset i : Z) (w : World) : list Task.t :=
  getTasksForDate (currentDay tz now currentWeekOffset i) w.

End Calendar.

(** ** The labels of a task card *)

Module TaskHTML.

Inductive DueDateText :=
  | Formatted (dueDate : option Z)   (* formatDate(dueDate) *)
  | Today
  | Overdue.

(** [dueDate < today && !task.completed]; a comparison with an invalid
    date is false. *)
Definition isOverdue (now : Z) (task : Task.t) : bool :=
  match JS.parseDateOnly (Task.dueDate task) with
  | Some dueDate => (dueDate <? now) && negb (Task.completed task)
  | None => false
  end.

(** [dueDate.toDateString() === today.toDateString()] *)
Definition isToday (tz now : Z) (task : Task.t) : bool :=
  match JS.parseDateOnly (Task.dueDate task) with
  | Some dueDate => JS.localDay tz dueDate =? JS.localDay tz now
  | None => false
  end.

(** [dueDateText] of [createTaskHTML] *)
Definition dueDateText (tz now : Z) (task : Task.t) : DueDateText :=
  let dueDateText := Formatted (Task.dueDate task) in
  let dueDateText := if isToday tz now task then Today else dueDateText in
  if isOverdue now task then Overdue else dueDateText.

End TaskHTML.

(** ** The labels of a goal card *)

Module GoalHTML.

(** [Math.ceil(a / b)] for integers, [b] positive. *)
Definition ceilDiv (a b : Z) : Z := - ((- a) `div` b).

(** [daysRemaining]; [None] is [NaN], for a goal without target date. *)
Definition daysRemaining (now : Z) (goal : Goal.t) : option Z :=
  (λ targetDate, ceilDiv (targetDate - now) JS.msPerDay)
    <$> JS.parseDateOnly (Goal.targetDate goal).

Inductive DateStatus :=
  | Completed
  | Overdue
  | DueToday
  | DaysLeft (daysRemaining : option Z).

(** [dateStatus] of [createGoalHTML]; every comparison with [NaN] is
    false. *)
Definition dateStatus (now : Z) (goal : Goal.t) : DateStatus :=
  if Goal.completed goal then Completed
  else
    match daysRemaining now goal with
    | Some n =>
        if n <? 0 then Overdue
        else if n =? 0 then DueToday
        else DaysLeft (Some n)
    | None => DaysLeft None
    end.

End GoalHTML.

(** The comparator of [renderGoalsList]. *)
Definition compareGoals (a b : Goal.t) : option Z :=
  if bool_decide (Goal.completed a ≠ Goal.completed b) then
    Some (JS.ofBool (Goal.completed a) - JS.ofBool (Goal.completed b))
  else
    JS.minus (JS.parseDateOnly (Goal.targetDate a))
             (JS.parseDateOnly (Goal.targetDate b)).

(** [sortedGoals], the order in which [renderGoalsList] shows the
    goals. *)
Definition sortedGoals (w : World) : list Goal.t :=
  JS.sort compareGoals (goals w).

(** ** The reminder of overdue tasks *)

(** [checkOverdueTasks()]; [!window.settings?.notifications] holds for a
    settings object without that field. *)
Definition checkOverdueTasks (now : Z) (w : World) : World :=
  if negb (default false (notifications (settings w))) then w
  else
    let overdueTasks :=
      filter (λ task,
                Is_true
                  (negb (Task.completed task) &&
                   match JS.parseDateOnly (Task.dueDate task) with
                   | Some dueDate => dueDate <? now
                   | None => false
                   end)) (tasks w) in
    if bool_decide (0 < length overdueTasks)%nat then
      showNotification
        ("You have " +:+ pretty (length overdueTasks) +:+ " overdue task(s)")
        t_warning w
    else w.

(** ** The task and goal forms

    Of the form in the page only [dataset.editingId] matters to the data:
    [populateTaskForm] sets it, [handleTaskSubmit] reads it, and
    [form.reset()], which clears the fields, leaves it as it is. The
    values of the fields are given as the handler reads them (title and
    description trimmed). *)

Record TaskFormValues := mkTaskForm {
  v_title : string;
  v_subject : string;
  v_dueDate : option Z;
  v_dueTime : string;
  v_priority : Priority;
  v_description : string
}.

(** [if (id)] for an id that is a string or absent: the empty string is
    falsy. *)
Definition truthyId (id : option string) : option string :=
  match id with
  | Some s => if bool_decide (s = "") then None else Some s
  | None => None
  end.

(** [openTaskModal(taskId)]: the [editingId] of the form afterwards. *)
Definition openTaskModal (taskId : option string) (w : World)
    (editingId : option string) : option string :=
  match truthyId taskId with
  | Some taskId =>
      match findTask taskId (tasks w) with
      | Some (_, task) => Some (Task.id task)   (* populateTaskForm(task) *)
      | None => editingId
      end
  | None => editingId                            (* form.reset() *)
  end.

(** [handleTaskSubmit(e)] *)
Definition handleTaskSubmit (values : TaskFormValues) (editingId : option string)
    (newId : string) (now : Z) (w : World) : World :=
  let taskData :=
    Task.ofForm (v_title values) (v_subject values) (v_dueDate values)
                (v_dueTime values) (v_priority values) (v_description values) in
  if bool_decide (v_title values = "") || bool_decide (v_subject values = "")
     || bool_decide (v_dueDate values = None) then
    showNotification "Please fill in all required fields" t_error w
  else
    match truthyId editingId with
    | Some editingId =>
        showNotification "Task updated successfully" t_success
          (updateTask editingId taskData w)
    | None =>
        showNotification "Task created successfully" t_success
          (createTask taskData newId now w)
    end.

(** What the user does with the task form. *)
Inductive FormAction :=
  | OpenNew                           (* openTaskModal() *)
  | OpenEdit (taskId : string)        (* openTaskModal(taskId) *)
  | Close                             (* closeTaskModal() *)
  | Submit (values : TaskFormValues) (newId : string) (now : Z).

Definition formStep (a : FormAction) (s : World * option string)
    : World * option string :=
  let '(w, editingId) := s in
  match a with
  | OpenNew => (w, openTaskModal None w editingId)
  | OpenEdit taskId => (w, openTaskModal (Some taskId) w editingId)
  | Close => (w, editingId)
  | Submit values newId now => (handleTaskSubmit values editingId newId now w, editingId)
  end.

Definition formRun (actions : list FormAction) (s : World * option string)
    : World * option string :=
  foldl (λ s a, formStep a s) s actions.

Record GoalFormValues := mkGoalForm {
  g_title : string;
  g_category : string;
  g_targetDate : option Z;
  g_targetValue : option Z;    (* parseInt(...): [None] is [NaN] *)
  g_unit : string;
  g_description : string
}.

(** [handleGoalSubmit(e)]; [!goalData.targetValue] holds for [NaN] and
    for 0. *)
Definition handleGoalSubmit (values : GoalFormValues) (editingId : option string)
    (newId : string) (now : Z) (w : World) : World :=
  match g_targetValue values with
  | Some targetValue =>
      if bool_decide (g_title values = "") || bool_decide (g_category values = "")
         || bool_decide (g_targetDate values = None)
         || bool_decide (targetValue = 0) then
        showNotification "Please fill in all required fields" t_error w
      else
        let goalData :=
          Goal.ofForm (g_title values) (g_category values) (g_targetDate values)
                      targetValue (g_unit values) (g_description values) in
        match truthyId editingId with
        | Some editingId =>
            showNotification "Goal updated successfully" t_success
              (updateGoal editingId goalData w)
        | None =>
            showNotification "Goal created successfully" t_success
              (createGoal goalData newId now w)
        end
  | None => showNotification "Please fill in all required fields" t_error w
  end.

(** ** Escaping of HTML *)

Module Html.

(** The double quote, character 34. *)
Definition quot : Ascii.ascii := "034"%char.

(** [s.replace(/c/g, by)] for a single character [c] *)
Fixpoint replaceAll (c : Ascii.ascii) (by_ : string) (s : string) : string :=
  match s with
  | EmptyString => EmptyString
  | String a rest =>
      if Ascii.eqb a c then by_ +:+ replaceAll c by_ rest
      else String a (replaceAll c by_ rest)
  end.

(** [escapeHtml(unsafe)]; [None] is a value that is not a string. *)
Definition escapeHtml (unsafe : option string) : string :=
  match unsafe with
  | None => ""
  | Some unsafe =>
      replaceAll "'"%char "&#039;"
        (replaceAll quot "&quot;"
           (replaceAll ">"%char "&gt;"
              (replaceAll "<"%char "&lt;"
                 (replaceAll "&"%char "&amp;" unsafe))))
  end.

(** The characters of a string. *)
Fixpoint chars (s : string) : list Ascii.ascii :=
  match s with
  | EmptyString => []
  | String a rest => a :: chars rest
  end.

(** The entity that stands for a character, when it has one. *)
Definition entity (a : Ascii.ascii) : option string :=
  if Ascii.eqb a "&"%char then Some "&amp;"
  else if Ascii.eqb a "<"%char then Some "&lt;"
  else if Ascii.eqb a ">"%char then Some "&gt;"
  else if Ascii.eqb a quot then Some "&quot;"
  else if Ascii.eqb a "'"%char then Some "&#039;"
  else None.

(** The text that stands for a character in the escaped string. *)
Definition escaped (a : Ascii.ascii) : string :=
  default (String a EmptyString) (entity a).

(** The characters that open or close markup or an attribute value. *)
Definition markup : list Ascii.ascii := ["<"; ">"; quot; "'"]%char.

(** Reading an escaped text back: an entity becomes its character. *)
Fixpoint unescape (fuel : nat) (s : string) : string :=
  match fuel with
  | O => s
  | S fuel =>
      match s with
      | EmptyString => EmptyString
      | String a rest =>
          if Ascii.eqb a "&"%char then
            if String.prefix "amp;" rest then
              String "&"%char (unescape fuel (String.substring 4 (String.length rest - 4) rest))
            else if String.prefix "lt;" rest then
              String "<"%char (unescape fuel (String.substring 3 (String.length rest - 3) rest))
            else if String.prefix "gt;" rest then
              String ">"%char (unescape fuel (String.substring 3 (String.length rest - 3) rest))
            else if String.prefix "quot;" rest then
              String quot (unescape fuel (String.substring 5 (String.length rest - 5) rest))
            else if String.prefix "#039;" rest then
              String "'"%char (unescape fuel (String.substring 5 (String.length rest - 5) rest))
            else String a (unescape fuel rest)
          else String a (unescape fuel rest)
      end
  end.

End Html.

(** ** The operations on the session, as one type

    The operations that keep the session within the data model: goal
    progress is set to a number ([updateGoalProgress] is also reached
    from the progress prompt, which hands it [NaN] for a blank answer;
    a goal of the model has no such value), and the file imported is in
    the planner's own format, with the views redrawn ([importData]
    above; [FileImport.onload] is the handler on any file). *)

Inductive Operation :=
  | OnTasks (m : TaskMutation)
  | DeleteTask (taskId : string) (confirmed : bool)
  | SubmitTask (values : TaskFormValues) (editingId : option string)
               (newId : string) (now : Z)
  | CreateGoal (goalData : Goal.data) (newId : string) (now : Z)
  | UpdateGoal (goalId : string) (goalData : Goal.data)
  | UpdateGoalProgress (goalId : string) (newValue : Z)
  | DeleteGoal (goalId : string) (confirmed : bool)
  | SubmitGoal (values : GoalFormValues) (editingId : option string)
               (newId : string) (now : Z)
  | ImportData (parsed : option Backup) (confirmed : bool)
  | CheckOverdueTasks (now : Z)
  | BeforeUnload.

Definition perform (op : Operation) (w : World) : World :=
  match op with
  | OnTasks m => applyTaskMutation m w
  | DeleteTask taskId confirmed => deleteTask taskId confirmed w
  | SubmitTask values editingId newId now =>
      handleTaskSubmit values editingId newId now w
  | CreateGoal goalData newId now => createGoal goalData newId now w
  | UpdateGoal goalId goalData => updateGoal goalId goalData w
  | UpdateGoalProgress goalId newValue => updateGoalProgress goalId newValue w
  | DeleteGoal goalId confirmed => deleteGoal goalId confirmed w
  | SubmitGoal values editingId newId now =>
      handleGoalSubmit values editingId newId now w
  | ImportData parsed confirmed => importData parsed confirmed w
  | CheckOverdueTasks now => checkOverdueTasks now w
  | BeforeUnload => beforeUnload w
  end.

(** [localStorage.getItem] for each of the three keys, read at the type
    of the key. The operations of [Operation] write under a key only
    values of its type; a text that does not read back as one has no
    value at that type and counts as malformed. *)
Definition storedTasks (ls : gmap string Stored) : Item (list Task.t) :=
  match ls !! STORAGE_KEYS.TASKS with
  | None => NoItem
  | Some (StoredTasks l) => Parses l
  | Some _ => Malformed
  end.

Definition storedGoals (ls : gmap string Stored) : Item (list Goal.t) :=
  match ls !! STORAGE_KEYS.GOALS with
  | None => NoItem
  | Some (StoredGoals l) => Parses l
  | Some _ => Malformed
  end.

Definition storedSettings (ls : gmap string Stored) : Item Settings :=
  match ls !! STORAGE_KEYS.SETTINGS with
  | None => NoItem
  | Some (StoredSettings s) => Parses s
  | Some _ => Malformed
  end.

(** A reload of the page: [loadDataFromStorage()] on what localStorage
    holds. *)
Definition reload (w : World) : World :=
  loadDataFromStorage (storedTasks (localStorage w)) (storedGoals (localStorage w))
                      (storedSettings (localStorage w)) w.

(** What localStorage holds reads back to what the session holds. *)
Definition allSaved (w : World) : Prop :=
  parseOr [] (storedTasks (localStorage w)) = Some (tasks w) ∧
  parseOr [] (storedGoals (localStorage w)) = Some (goals w) ∧
  parseOr defaultSettings (storedSettings (localStorage w)) = Some (settings w).

(** Two sessions hold the same tasks, goals and settings. *)
Definition sameMemory (w1 w2 : World) : Prop :=
  tasks w1 = tasks w2 ∧ goals w1 = goals w2 ∧ settings w1 = settings w2.

(** The order of [sortedGoals]: incomplete before completed, then the
    earlier target date. *)
Definition goalOrder (a b : Goal.t) : Prop :=
  (Goal.completed a = false ∧ Goal.completed b = true) ∨
  (Goal.completed a = Goal.completed b ∧
   ∃ da db, Goal.targetDate a = Some da ∧ Goal.targetDate b = Some db ∧ da ≤ db).

Definition hasTargetDate (goal : Goal.t) : Prop := is_Some (Goal.targetDate goal).

Definition performAll (ops : list Operation) (w : World) : World :=
  foldl (λ w op, perform op w) w ops.

(** Three goals: one completed and due late, two open ones listed with
    the later target first. *)
Definition finishedGoal : Goal.t :=
  Goal.mk "g2" "Essay plan" "Writing" "" (Some 19950) 4 4 "pages"
          (Some 1717000000000) true.

Definition mockExamGoal : Goal.t :=
  Goal.mk "g3" "Mock exams" "Maths" "" (Some 19890) 6 1 "papers"
          (Some 1717100000000) false.

Definition threeGoalsWorld : World :=
  mkWorld [] [finishedGoal; readingGoal; mockExamGoal] defaultSettings ∅ true [].

(** A task list with a tie: two problem sheets of the same day and
    priority, with another task between them. *)
Definition nextSheet : Task.t :=
  Task.mk "t4" "Problem sheet 5" "Maths" "" (Some 19884) "14:00" medium false
          (Some 1717850000000) None.

Definition tiesWorld : World :=
  mkWorld [solveSheet; readCh3; nextSheet] [] defaultSettings ∅ true [].

(** [studyWorld] with a localStorage that has run out of quota. *)
Definition fullStorageWorld : World :=
  mkWorld [solveSheet; essayDone; readCh3] [] defaultSettings ∅ false [].

(** Two tasks the comparator of the task list cannot tell apart. *)
Definition sameSortKey (a b : Task.t) : Prop :=
  Task.completed a = Task.completed b ∧ Task.dueDate a = Task.dueDate b ∧
  Task.priority a = Task.priority b.

Global Instance Priority_eq_dec : EqDecision Priority.
Proof. solve_decision. Defined.

Global Instance sameSortKey_dec (a b : Task.t) : Decision (sameSortKey a b).
Proof. unfold sameSortKey. apply _. Defined.

(** * Properties *)

(** Settles a goal about every member of a concrete list, member by
    member. *)
Ltac each_member H :=
  repeat (apply elem_of_cons in H as [-> | H]; [by vm_compute|]);
  by apply elem_of_nil in H.

(** ** The session record under the helpers *)

Lemma tasks_emit e w : tasks (emit e w) = tasks w.
Proof. reflexivity. Qed.

Lemma goals_emit e w : goals (emit e w) = goals w.
Proof. reflexivity. Qed.

Lemma tasks_saveToStorage key data w : tasks (saveToStorage key data w) = tasks w.
Proof. unfold saveToStorage. by destruct (storageAccepts w). Qed.

Lemma goals_saveToStorage key data w : goals (saveToStorage key data w) = goals w.
Proof. unfold saveToStorage. by destruct (storageAccepts w). Qed.

Lemma settings_saveToStorage key data w :
  settings (saveToStorage key data w) = settings w.
Proof. unfold saveToStorage. by destruct (storageAccepts w). Qed.

Lemma accepts_saveToStorage key data w :
  storageAccepts (saveToStorage key data w) = storageAccepts w.
Proof. unfold saveToStorage. by destruct (storageAccepts w) eqn:E. Qed.

Lemma saveToStorage_written key data w :
  storageAccepts w = true →
  localStorage (saveToStorage key data w) = <[key := data]> (localStorage w).
Proof. unfold saveToStorage. by intros ->. Qed.

Lemma tasks_updateTask_found taskId data w i task :
  findTask taskId (tasks w) = Some (i, task) →
  tasks (updateTask taskId data w) = <[i := Task.spread task data]> (tasks w).
Proof.
  intros Hfind. unfold updateTask. rewrite Hfind. cbn.
  by rewrite tasks_saveToStorage.
Qed.

Lemma tasks_toggle_found taskId now w i task :
  findTask taskId (tasks w) = Some (i, task) →
  tasks (toggleTaskCompletion taskId now w) =
  <[i := Task.set_completedAt
           (if negb (Task.completed task) then Some now else None)
           (Task.set_completed (negb (Task.completed task)) task)]> (tasks w).
Proof.
  intros Hfind. unfold toggleTaskCompletion. rewrite Hfind. cbn.
  by rewrite tasks_saveToStorage.
Qed.

Lemma findTask_absent taskId l :
  findTask taskId l = None ↔ ∀ t, t ∈ l → Task.id t ≠ taskId.
Proof.
  unfold findTask. split.
  - intros H%list_find_None. by apply Forall_forall.
  - intros H. by apply list_find_None, Forall_forall.
Qed.

(** Replacing the task found by one of the same id leaves it the first
    of that id. *)
Lemma findTask_insert taskId l i task task' :
  findTask taskId l = Some (i, task) →
  Task.id task' = taskId →
  findTask taskId (<[i := task']> l) = Some (i, task').
Proof.
  unfold findTask. intros (Hi & _ & Hfirst)%list_find_Some Hid.
  apply list_find_Some. split_and!; [|done|].
  - apply list_lookup_insert_eq. by eapply lookup_lt_Some.
  - intros j y Hj Hlt. rewrite list_lookup_insert_ne in Hj by lia. eauto.
Qed.

(** ** C6: a mutation that names no task *)

(** C6, as the code has it: for an id that no task of the collection
    carries, [updateTask] and [toggleTaskCompletion] return without any
    effect and without signalling anything (the session, the storage and
    what the user is shown are all as before); for an id that is present,
    [updateTask] merges the fields of the patch into the first task of
    that id, leaves every other task alone and, when the storage accepts
    the write, stores the collection under the tasks key. *)
Theorem updateTask_toggle_absent_silent_present_merged
    (taskId : string) (data : Task.data) (now : Z) (w : World) :
  ((∀ t, t ∈ tasks w → Task.id t ≠ taskId) →
     updateTask taskId data w = w ∧ toggleTaskCompletion taskId now w = w) ∧
  (∀ i task, findTask taskId (tasks w) = Some (i, task) →
     let w' := updateTask taskId data w in
     tasks w' = <[i := Task.spread task data]> (tasks w) ∧
     tasks w' !! i = Some (Task.spread task data) ∧
     (∀ j, j ≠ i → tasks w' !! j = tasks w !! j) ∧
     goals w' = goals w ∧ settings w' = settings w ∧
     (storageAccepts w = true →
        localStorage w' !! STORAGE_KEYS.TASKS = Some (StoredTasks (tasks w')))).
Proof.
  split.
  - intros Habsent%findTask_absent.
    unfold updateTask, toggleTaskCompletion. by rewrite Habsent.
  - intros i task Hfind w'.
    assert (Htasks : tasks w' = <[i := Task.spread task data]> (tasks w))
      by by apply tasks_updateTask_found.
    pose proof Hfind as (Hi & _)%list_find_Some.
    split_and!; [done| | | | |].
    + rewrite Htasks. apply list_lookup_insert_eq. by eapply lookup_lt_Some.
    + intros j Hj. rewrite Htasks. by apply list_lookup_insert_ne.
    + subst w'. unfold updateTask. rewrite Hfind. cbn.
      by rewrite goals_saveToStorage.
    + subst w'. unfold updateTask. rewrite Hfind. cbn.
      by rewrite settings_saveToStorage.
    + intros Hacc. subst w'. unfold updateTask. rewrite Hfind. cbn.
      rewrite tasks_saveToStorage. cbn.
      rewrite saveToStorage_written by done. cbn.
      apply lookup_insert_eq.
Qed.

(** C6 at a concrete session: the id ["t9"] is absent from [studyWorld]
    and both operations are silent; the id ["t1"] is present and its
    title is replaced. *)
Lemma updateTask_toggle_witness :
  (updateTask "t9" (Task.ofForm "x" "y" None "" low "") studyWorld = studyWorld ∧
   toggleTaskCompletion "t9" 1718000000000 studyWorld = studyWorld) ∧
  Task.title <$> tasks (updateTask "t1" (Task.ofForm "Read Ch.4" "Biology" (Some 19884) "" high "") studyWorld) !! 2%nat
  = Some "Read Ch.4".
Proof.
  split.
  - apply (updateTask_toggle_absent_silent_present_merged
             "t9" (Task.ofForm "x" "y" None "" low "") 1718000000000 studyWorld).
    intros t Ht.
    each_member Ht.
  - destruct (updateTask_toggle_absent_silent_present_merged
                "t1" (Task.ofForm "Read Ch.4" "Biology" (Some 19884) "" high "")
                0 studyWorld) as [_ Hpresent].
    destruct (Hpresent 2%nat readCh3) as (_ & -> & _); [by vm_compute|].
    reflexivity.
Defined.

(** C6 as stated fails: on [studyWorld], which holds no task of id
    ["t9"], [updateTask] and [toggleTaskCompletion] signal nothing; they
    hand back the very session they were given, with no toast and no
    console line added. *)
Lemma updateTask_toggle_absent_not_signalled :
  (∀ t, t ∈ tasks studyWorld → Task.id t ≠ "t9") ∧
  updateTask "t9" (Task.ofForm "x" "y" None "" low "") studyWorld = studyWorld ∧
  toggleTaskCompletion "t9" 1718000000000 studyWorld = studyWorld ∧
  events (updateTask "t9" (Task.ofForm "x" "y" None "" low "") studyWorld) = [] ∧
  events (toggleTaskCompletion "t9" 1718000000000 studyWorld) = [].
Proof.
  split_and!; [|reflexivity..].
  intros t Ht.
  each_member Ht.
Qed.

(** ** C7: toggling twice *)

(** C7, as the code has it: for a task present in the collection, two
    applications of [toggleTaskCompletion] to its id return [completed]
    to its original value and change nothing else but [completedAt],
    which is absent afterwards when the task was not completed at first,
    and is the time of the second toggle when it was. A task that was
    incomplete and had no [completedAt] is therefore restored exactly. *)
Theorem toggleTaskCompletion_twice
    (taskId : string) (now1 now2 : Z) (w : World) (i : nat) (task : Task.t) :
  findTask taskId (tasks w) = Some (i, task) →
  let w2 := toggleTaskCompletion taskId now2 (toggleTaskCompletion taskId now1 w) in
  let after :=
    Task.set_completedAt (if Task.completed task then Some now2 else None) task in
  tasks w2 = <[i := after]> (tasks w) ∧
  findTask taskId (tasks w2) = Some (i, after) ∧
  Task.completed after = Task.completed task ∧
  (Task.completed task = false → Task.completedAt after = None) ∧
  (Task.completed task = false → Task.completedAt task = None → tasks w2 = tasks w).
Proof.
  intros Hfind w2 after.
  pose proof Hfind as (Hi & Hid & _)%list_find_Some.
  pose proof (tasks_toggle_found _ now1 _ _ _ Hfind) as H1.
  set (w1 := toggleTaskCompletion taskId now1 w) in *.
  set (t1 := Task.set_completedAt _ _) in H1.
  assert (Hfind1 : findTask taskId (tasks w1) = Some (i, t1)).
  { rewrite H1. apply (findTask_insert _ _ _ task); [done|]. by subst t1. }
  pose proof (tasks_toggle_found _ now2 _ _ _ Hfind1) as H2.
  fold w2 in H2. rewrite H1, list_insert_insert_eq in H2.
  assert (Hafter :
    Task.set_completedAt (if negb (Task.completed t1) then Some now2 else None)
      (Task.set_completed (negb (Task.completed t1)) t1) = after).
  { subst t1 after. destruct task as [? ? ? ? ? ? ? [] ? ?]; reflexivity. }
  rewrite Hafter in H2.
  split_and!.
  - done.
  - rewrite H2. apply (findTask_insert _ _ _ task); [done|]. by subst after.
  - done.
  - intros Hc. subst after. cbn. by rewrite Hc.
  - intros Hc Hat. rewrite H2. apply list_insert_id.
    rewrite Hi. f_equal. subst after. rewrite Hc.
    destruct task; cbn in *; by subst.
Qed.

(** C7 at a concrete task: ["t1"] of [studyWorld] is incomplete; after
    two toggles the collection is what it was. *)
Lemma toggleTaskCompletion_twice_witness :
  tasks (toggleTaskCompletion "t1" 1718000060000
           (toggleTaskCompletion "t1" 1718000000000 studyWorld))
  = tasks studyWorld.
Proof.
  refine (proj2 (proj2 (proj2 (proj2
    (toggleTaskCompletion_twice "t1" 1718000000000 1718000060000 studyWorld
       2%nat readCh3 _)))) _ _); reflexivity.
Defined.

(** C7 as stated fails: ["t3"] of [studyWorld] was completed at
    1717500000000; toggled twice, it is completed again, but its
    [completedAt] is the time of the second toggle, not the original. *)
Lemma toggleTaskCompletion_twice_restamps :
  findTask "t3" (tasks studyWorld) = Some (1%nat, essayDone) ∧
  Task.completedAt <$>
    tasks (toggleTaskCompletion "t3" 1718000060000
             (toggleTaskCompletion "t3" 1718000000000 studyWorld)) !! 1%nat
  = Some (Some 1718000060000) ∧
  Some 1718000060000 ≠ Task.completedAt essayDone.
Proof. split_and!; [reflexivity..|discriminate]. Qed.

(** ** C5: [completedAt] and [completed] *)

Lemma stampedIffCompleted_toggled now task :
  stampedIffCompleted
    (Task.set_completedAt
       (if negb (Task.completed task) then Some now else None)
       (Task.set_completed (negb (Task.completed task)) task)).
Proof.
  unfold stampedIffCompleted. destruct task as [? ? ? ? ? ? ? [] ? ?]; cbn.
  - split; [intros [? ?]; discriminate | discriminate].
  - split; [done | by eexists].
Qed.

Lemma Forall_insert_found {A} (P : A → Prop) (l : list A) i x :
  Forall P l → P x → Forall P (<[i := x]> l).
Proof.
  intros Hl Hx. apply Forall_forall. intros y Hy.
  apply list_elem_of_lookup in Hy as [j Hj].
  destruct (decide (i = j)) as [-> | Hne].
  - destruct (decide (j < length l)%nat).
    + rewrite list_lookup_insert_eq in Hj by done. by simplify_eq.
    + rewrite list_insert_ge in Hj by lia.
      eapply Forall_forall; [done|]. by eapply list_elem_of_lookup_2.
  - rewrite list_lookup_insert_ne in Hj by done.
    eapply Forall_forall; [done|]. by eapply list_elem_of_lookup_2.
Qed.

(** C5, as the code has it: if [completedAt] is present exactly when
    [completed] is true for every task of the collection, the same holds
    after [toggleTaskCompletion], and after [createTask] or [updateTask]
    whenever the data they are given names neither [completed] nor
    [completedAt] (the data of the task form names neither). *)
Theorem task_mutation_keeps_stampedIffCompleted (m : TaskMutation) (w : World) :
  Forall stampedIffCompleted (tasks w) →
  leavesCompletionAlone m →
  Forall stampedIffCompleted (tasks (applyTaskMutation m w)).
Proof.
  intros Hinv Hm.
  destruct m as [taskData newId now | taskId taskData | taskId now]; cbn in *.
  - unfold createTask. cbn. rewrite tasks_saveToStorage. cbn.
    apply Forall_app. split; [done|]. apply Forall_singleton.
    unfold stampedIffCompleted. cbn. rewrite Hm. cbn.
    split; [intros [? ?]; discriminate | discriminate].
  - destruct (findTask taskId (tasks w)) as [[i task]|] eqn:Hfind.
    + rewrite (tasks_updateTask_found _ _ _ _ _ Hfind).
      apply Forall_insert_found; [done|].
      pose proof Hfind as (Hi%list_elem_of_lookup_2 & _)%list_find_Some.
      pose proof (proj1 (Forall_forall _ _) Hinv _ Hi) as Htask.
      destruct Hm as [Hc Hat]. unfold stampedIffCompleted in *. cbn.
      by rewrite Hc, Hat.
    + unfold updateTask. by rewrite Hfind.
  - destruct (findTask taskId (tasks w)) as [[i task]|] eqn:Hfind.
    + rewrite (tasks_toggle_found _ _ _ _ _ Hfind).
      apply Forall_insert_found; [done|]. apply stampedIffCompleted_toggled.
    + unfold toggleTaskCompletion. by rewrite Hfind.
Qed.

Lemma studyWorld_stamped : Forall stampedIffCompleted (tasks studyWorld).
Proof.
  assert (Hno : ∀ task, Task.completed task = false →
                 Task.completedAt task = None → stampedIffCompleted task).
  { intros task Hc Hat. unfold stampedIffCompleted. rewrite Hc, Hat.
    split; [intros [? ?]; discriminate | discriminate]. }
  assert (Hyes : ∀ task, Task.completed task = true →
                 is_Some (Task.completedAt task) → stampedIffCompleted task).
  { intros task Hc Hat. unfold stampedIffCompleted. by rewrite Hc. }
  apply Forall_cons_2; [by apply Hno|].
  apply Forall_cons_2; [by apply Hyes|].
  apply Forall_cons_2; [by apply Hno|].
  apply Forall_nil_2.
Qed.

(** C5 at a concrete session: an edit of ["t1"] through the task form
    keeps the invariant of [studyWorld]. *)
Lemma task_mutation_witness :
  Forall stampedIffCompleted
    (tasks (updateTask "t1" (Task.ofForm "Read Ch.4" "Biology" (Some 19885) "" low "")
              studyWorld)).
Proof.
  apply (task_mutation_keeps_stampedIffCompleted
           (UpdateTask "t1" (Task.ofForm "Read Ch.4" "Biology" (Some 19885) "" low ""))
           studyWorld).
  - apply studyWorld_stamped.
  - split; reflexivity.
Defined.

(** C5 as stated fails: every task of [studyWorld] satisfies the
    invariant, and [updateTask] with a patch that sets [completed] alone
    leaves ["t1"] completed without a [completedAt]. *)
Lemma updateTask_breaks_stampedIffCompleted :
  Forall stampedIffCompleted (tasks studyWorld) ∧
  ¬ Forall stampedIffCompleted (tasks (updateTask "t1" markCompleted studyWorld)).
Proof.
  split; [apply studyWorld_stamped|].
  intros H. apply Forall_forall with (x := Task.set_completed true readCh3) in H.
  - destruct H as [_ H]. destruct (H eq_refl) as [? ?]. discriminate.
  - vm_compute. do 2 right. left.
Qed.

(** ** C9 and C2: the progress of a goal *)

Lemma findGoal_insert goalId l i goal goal' :
  findGoal goalId l = Some (i, goal) →
  Goal.id goal' = goalId →
  findGoal goalId (<[i := goal']> l) = Some (i, goal').
Proof.
  unfold findGoal. intros (Hi & _ & Hfirst)%list_find_Some Hid.
  apply list_find_Some. split_and!; [|done|].
  - apply list_lookup_insert_eq. by eapply lookup_lt_Some.
  - intros j y Hj Hlt. rewrite list_lookup_insert_ne in Hj by lia. eauto.
Qed.

Lemma goals_updateGoalProgress_found goalId newValue w i goal :
  findGoal goalId (goals w) = Some (i, goal) →
  goals (updateGoalProgress goalId newValue w) =
  <[i := Goal.set_completed
           (bool_decide (Z.max 0 newValue >= Goal.targetValue goal))
           (Goal.set_currentValue (Z.max 0 newValue) goal)]> (goals w).
Proof.
  intros Hfind. unfold updateGoalProgress. rewrite Hfind. cbn.
  case_bool_decide; cbn; by rewrite goals_saveToStorage.
Qed.

(** C9: for a goal present in the collection and every integer
    [newValue], negative ones included, [updateGoalProgress] leaves the
    goal with [currentValue = max(0, newValue)] and with [completed] equal
    to [currentValue >= targetValue]; its target and every other goal are
    untouched. *)
Theorem updateGoalProgress_clamps_and_recomputes
    (goalId : string) (newValue : Z) (w : World) (i : nat) (goal : Goal.t) :
  findGoal goalId (goals w) = Some (i, goal) →
  ∃ goal',
    findGoal goalId (goals (updateGoalProgress goalId newValue w)) = Some (i, goal') ∧
    Goal.currentValue goal' = Z.max 0 newValue ∧
    Goal.completed goal' =
      bool_decide (Goal.currentValue goal' >= Goal.targetValue goal') ∧
    Goal.targetValue goal' = Goal.targetValue goal ∧
    (∀ j, j ≠ i →
       goals (updateGoalProgress goalId newValue w) !! j = goals w !! j).
Proof.
  intros Hfind.
  pose proof Hfind as (_ & Hid & _)%list_find_Some.
  rewrite (goals_updateGoalProgress_found _ newValue _ _ _ Hfind).
  eexists. split_and!.
  - by apply (findGoal_insert _ _ _ goal).
  - reflexivity.
  - reflexivity.
  - reflexivity.
  - intros j Hj. by apply list_lookup_insert_ne.
Qed.

(** C9 at a concrete goal: a progress of -4 on [readingGoal] is stored
    as 0, and the goal is not completed. *)
Lemma updateGoalProgress_witness :
  ∃ goal',
    findGoal "g1" (goals (updateGoalProgress "g1" (-4) goalWorld)) = Some (0%nat, goal') ∧
    Goal.currentValue goal' = 0 ∧
    Goal.completed goal' =
      bool_decide (Goal.currentValue goal' >= Goal.targetValue goal') ∧
    Goal.targetValue goal' = 10 ∧
    (∀ j, j ≠ 0%nat →
       goals (updateGoalProgress "g1" (-4) goalWorld) !! j = goals goalWorld !! j).
Proof.
  apply (updateGoalProgress_clamps_and_recomputes "g1" (-4) goalWorld 0 readingGoal).
  reflexivity.
Defined.

(** [updateGoalProgress] establishes the invariant of the goal it
    updates. *)
Lemma updateGoalProgress_completedIffReached goalId newValue w i goal :
  findGoal goalId (goals w) = Some (i, goal) →
  ∃ goal', goals (updateGoalProgress goalId newValue w) !! i = Some goal' ∧
           completedIffReached goal'.
Proof.
  intros Hfind. pose proof Hfind as (Hi & _)%list_find_Some.
  rewrite (goals_updateGoalProgress_found _ newValue _ _ _ Hfind).
  eexists. split.
  - apply list_lookup_insert_eq. by eapply lookup_lt_Some.
  - reflexivity.
Qed.

(** [updateGoal] keeps the stored [completed] unless the data names it,
    whatever becomes of the target. *)
Lemma updateGoal_keeps_completed goalId goalData w i goal :
  findGoal goalId (goals w) = Some (i, goal) →
  Goal.d_completed goalData = None →
  ∃ goal', goals (updateGoal goalId goalData w) !! i = Some goal' ∧
           Goal.completed goal' = Goal.completed goal ∧
           Goal.targetValue goal' =
             default (Goal.targetValue goal) (Goal.d_targetValue goalData).
Proof.
  intros Hfind Hc. pose proof Hfind as (Hi & _)%list_find_Some.
  unfold updateGoal. rewrite Hfind. cbn. rewrite goals_saveToStorage. cbn.
  eexists. split; [apply list_lookup_insert_eq; by eapply lookup_lt_Some|].
  cbn. by rewrite Hc.
Qed.

(** C2 on the code: [readingGoal] stands at 5 of 10 chapters and is not
    completed, as the invariant wants. Lowering its target to 3 through
    the goal form leaves [completed] false although 5 >= 3: [updateGoal]
    merges the form's fields and does not recompute [completed], which
    [updateGoalProgress] does. *)
Theorem updateGoal_leaves_completed_stale :
  Forall completedIffReached (goals goalWorld) ∧
  ∃ goal',
    findGoal "g1" (goals (updateGoal "g1" lowerTarget goalWorld)) = Some (0%nat, goal') ∧
    Goal.currentValue goal' = 5 ∧ Goal.targetValue goal' = 3 ∧
    Goal.completed goal' = false ∧
    ¬ completedIffReached goal'.
Proof.
  split.
  - apply Forall_singleton. reflexivity.
  - eexists. split_and!; [reflexivity..|]. discriminate.
Qed.

(** ** C10: deleting a task *)

Lemma sublist_into_filter {A} (P : A → Prop) `{!∀ x, Decision (P x)} (k l : list A) :
  k `sublist_of` l → Forall P k → k `sublist_of` filter P l.
Proof.
  induction 1 as [|x k l Hkl IH|x k l Hkl IH]; intros HP.
  - constructor.
  - apply Forall_cons in HP as [Hx Hk].
    rewrite filter_cons_True by done. constructor. auto.
  - rewrite filter_cons. case_decide; [constructor|]; auto.
Qed.

(** C10: once the user has confirmed, [deleteTask] removes exactly the
    tasks of the given id. What remains is a sublist of the collection
    (the same records, in the same relative order), holds a task exactly
    when the collection held it and its id differs, and is the largest
    such sublist: every selection of tasks of other ids that keeps their
    order is still found in it. Goals and settings are untouched; when
    the user declines, nothing changes at all. *)
Theorem deleteTask_removes_exactly (taskId : string) (w : World) :
  let remaining := tasks (deleteTask taskId true w) in
  remaining `sublist_of` tasks w ∧
  (∀ t, t ∈ remaining ↔ t ∈ tasks w ∧ Task.id t ≠ taskId) ∧
  (∀ k, k `sublist_of` tasks w → (∀ t, t ∈ k → Task.id t ≠ taskId) →
        k `sublist_of` remaining) ∧
  goals (deleteTask taskId true w) = goals w ∧
  settings (deleteTask taskId true w) = settings w ∧
  deleteTask taskId false w = w.
Proof.
  intros remaining.
  assert (Hrem : remaining = filter (λ t, Task.id t ≠ taskId) (tasks w)).
  { subst remaining. unfold deleteTask. cbn. by rewrite tasks_saveToStorage. }
  split_and!.
  - rewrite Hrem. apply sublist_filter.
  - intros t. rewrite Hrem, list_elem_of_filter. tauto.
  - intros k Hk Hids. rewrite Hrem. apply sublist_into_filter; [done|].
    by apply Forall_forall.
  - unfold deleteTask. cbn. by rewrite goals_saveToStorage.
  - unfold deleteTask. cbn. by rewrite settings_saveToStorage.
  - reflexivity.
Qed.

(** C10 at a concrete session: the two tasks of [studyWorld] other than
    ["t3"] are still there, in their order, once ["t3"] is deleted. *)
Lemma deleteTask_witness :
  [solveSheet; readCh3] `sublist_of` tasks (deleteTask "t3" true studyWorld).
Proof.
  apply (deleteTask_removes_exactly "t3" studyWorld).
  - repeat constructor.
  - intros t Ht.
    each_member Ht.
Defined.

(** ** C8: importing a backup *)

Lemma ofWorld_emit e w :
  FileImport.ofWorld (emit e w) = FileImport.emit e (FileImport.ofWorld w).
Proof. reflexivity. Qed.

Lemma ofWorld_saveToStorage key data w :
  FileImport.ofWorld (saveToStorage key data w)
  = FileImport.saveToStorage key (FileImport.ofStored data) (FileImport.ofWorld w).
Proof.
  unfold saveToStorage, FileImport.saveToStorage. cbn.
  destruct (storageAccepts w); [|done].
  unfold FileImport.ofWorld, FileImport.emit. cbn. by rewrite fmap_insert.
Qed.

(** On a backup in the planner's own format, with the views redrawn,
    the handler does what [importData] says. *)
Lemma onload_backup parsed confirmed w :
  FileImport.onload (FileImport.ofBackup <$> parsed) confirmed true w
  = FileImport.ofWorld (importData parsed confirmed w).
Proof.
  destruct parsed as [[ts gs st]|]; [|done].
  unfold importData, importTry, FileImport.onload. cbn.
  destruct ts as [| |ts]; try done; destruct gs as [| |gs]; try done.
  destruct confirmed; [|done].
  destruct w as [ts0 gs0 s0 ls acc ev].
  destruct acc, st; cbn; unfold FileImport.ofWorld; cbn;
    by rewrite ?fmap_insert.
Qed.

Section FileImportFacts.
Import FileImport.

Lemma s_tasks_saveToStorage key data s :
  s_tasks (saveToStorage key data s) = s_tasks s.
Proof. unfold saveToStorage. by destruct (s_storageAccepts s). Qed.

Lemma s_goals_saveToStorage key data s :
  s_goals (saveToStorage key data s) = s_goals s.
Proof. unfold saveToStorage. by destruct (s_storageAccepts s). Qed.

Lemma s_settings_saveToStorage key data s :
  s_settings (saveToStorage key data s) = s_settings s.
Proof. unfold saveToStorage. by destruct (s_storageAccepts s). Qed.

Lemma s_accepts_saveToStorage key data s :
  s_storageAccepts (saveToStorage key data s) = s_storageAccepts s.
Proof. unfold saveToStorage. by destruct (s_storageAccepts s) eqn:E. Qed.

Lemma s_saveToStorage_written key data s :
  s_storageAccepts s = true →
  s_localStorage (saveToStorage key data s) = <[key := data]> (s_localStorage s).
Proof. unfold saveToStorage. by intros ->. Qed.

(** What the session holds once the handler has assigned and saved. *)
Lemma onload_assigned data drawn w :
  truthy (p_tasks data) = true → truthy (p_goals data) = true →
  let s := onload (Some data) true drawn w in
  let st := if truthy (p_settings data) then p_settings data
            else Holds emptySettings in
  s_tasks s = p_tasks data ∧ s_goals s = p_goals data ∧ s_settings s = st ∧
  (storageAccepts w = true →
     s_localStorage s !! STORAGE_KEYS.TASKS = Some (SavedTasks (p_tasks data)) ∧
     s_localStorage s !! STORAGE_KEYS.GOALS = Some (SavedGoals (p_goals data)) ∧
     s_localStorage s !! STORAGE_KEYS.SETTINGS = Some (SavedSettings st)) ∧
  last (s_events s)
  = Some (if isHolds (p_tasks data) && drawn
          then Toast "Data imported successfully" t_success
          else Toast "Failed to import data. Please check the file format."
                     t_error).
Proof.
  intros Hts Hgs. cbn. unfold onload. rewrite Hts, Hgs. cbn.
  rewrite !s_tasks_saveToStorage. cbn.
  assert (Hret : updateDashboardStats_returns (p_tasks data) = isHolds (p_tasks data)).
  { unfold updateDashboardStats_returns. by rewrite Hts. }
  rewrite Hret.
  set (st := if truthy (p_settings data) then _ else _).
  set (s3 := saveToStorage STORAGE_KEYS.SETTINGS _ _).
  assert (Hmem : s_tasks s3 = p_tasks data ∧ s_goals s3 = p_goals data ∧
                 s_settings s3 = st).
  { subst s3.
    by rewrite !s_tasks_saveToStorage, !s_goals_saveToStorage,
               !s_settings_saveToStorage. }
  assert (Hst : storageAccepts w = true →
     s_localStorage s3 !! STORAGE_KEYS.TASKS = Some (SavedTasks (p_tasks data)) ∧
     s_localStorage s3 !! STORAGE_KEYS.GOALS = Some (SavedGoals (p_goals data)) ∧
     s_localStorage s3 !! STORAGE_KEYS.SETTINGS = Some (SavedSettings st)).
  { intros Hacc. subst s3.
    rewrite ?s_tasks_saveToStorage, ?s_goals_saveToStorage,
            ?s_settings_saveToStorage. cbn.
    rewrite !s_saveToStorage_written by (by rewrite ?s_accepts_saveToStorage).
    cbn. split_and!.
    - rewrite lookup_insert_ne by done. rewrite lookup_insert_ne by done.
      apply lookup_insert_eq.
    - rewrite lookup_insert_ne by done. apply lookup_insert_eq.
    - apply lookup_insert_eq. }
  destruct Hmem as (H1 & H2 & H3).
  destruct (isHolds (p_tasks data) && drawn); cbn;
    split_and!; try done; by rewrite ?app_assoc, last_snoc.
Qed.

(** C8 on the code: a file whose [tasks] counts as true without being a
    list (and whose [goals] counts as true) passes the validation. Once
    the user has confirmed, [window.tasks] and [window.goals] hold the
    values of the file, the keys of localStorage are overwritten with
    them when it accepts the write, and only then does the import fail:
    [updateDashboardStats] raises on [window.tasks.filter], and the user
    is shown the failure notification over data that has been replaced. *)
Theorem onload_overwrites_before_it_fails
    (data : Payload) (drawn : bool) (w : World) :
  truthy (p_tasks data) = true → isHolds (p_tasks data) = false →
  truthy (p_goals data) = true →
  let s := onload (Some data) true drawn w in
  s_tasks s = p_tasks data ∧ s_tasks s ≠ Holds (tasks w) ∧
  s_goals s = p_goals data ∧
  (storageAccepts w = true →
     s_localStorage s !! STORAGE_KEYS.TASKS = Some (SavedTasks (p_tasks data)) ∧
     s_localStorage s !! STORAGE_KEYS.GOALS = Some (SavedGoals (p_goals data))) ∧
  last (s_events s)
  = Some (Toast "Failed to import data. Please check the file format." t_error).
Proof.
  intros Hts Hlist Hgs s.
  destruct (onload_assigned data drawn w Hts Hgs) as (H1 & H2 & _ & H4 & H5).
  fold s in H1, H2, H4, H5. rewrite Hlist in H5.
  split_and!; [done | | done | | done].
  - rewrite H1. intros Heq. by rewrite Heq in Hlist.
  - intros Hacc. by destruct (H4 Hacc) as (? & ? & _).
Qed.

(** C8 at the file [{"tasks": 5, "goals": []}], imported into
    [studyWorld]: the three tasks are replaced by the number 5, in the
    session and under the key of the tasks, and the import is reported
    as failed. *)
Lemma onload_witness :
  s_tasks (onload (Some payloadTasksFive) true true studyWorld) = Number 5 ∧
  s_localStorage (onload (Some payloadTasksFive) true true studyWorld)
    !! STORAGE_KEYS.TASKS = Some (SavedTasks (Number 5)) ∧
  last (s_events (onload (Some payloadTasksFive) true true studyWorld))
  = Some (Toast "Failed to import data. Please check the file format." t_error).
Proof.
  destruct (onload_overwrites_before_it_fails payloadTasksFive true studyWorld
              eq_refl eq_refl eq_refl) as (H1 & _ & _ & H4 & H5).
  split_and!; [exact H1 | exact (proj1 (H4 eq_refl)) | exact H5].
Defined.

(** X26: what the import handler does with a file of any content. When
    [tasks] or [goals] is missing or counts as false ([null], [false],
    [0], the empty string) the file is rejected before anything is
    assigned: tasks, goals, settings and localStorage are as they were
    and the failure notification is shown. When both count as true and
    the user declines, nothing changes at all. When both count as true
    and the user confirms, the session holds the file's [tasks] and
    [goals], whatever they are, and nothing of the old ones; its
    settings are the file's, or the empty object when those are missing
    or count as false; the three keys are written when localStorage
    accepts it; and the success notification is shown exactly when
    [tasks] is a list and the views were redrawn, the failure
    notification otherwise. *)
Theorem onload_rejects_or_replaces
    (data : Payload) (confirmed drawn : bool) (w : World) :
  let s := onload (Some data) confirmed drawn w in
  let valid := truthy (p_tasks data) && truthy (p_goals data) in
  let st := if truthy (p_settings data) then p_settings data
            else Holds emptySettings in
  (valid = false →
     s_tasks s = Holds (tasks w) ∧ s_goals s = Holds (goals w) ∧
     s_settings s = Holds (settings w) ∧
     s_localStorage s = ofStored <$> localStorage w ∧
     last (s_events s)
     = Some (Toast "Failed to import data. Please check the file format."
                   t_error)) ∧
  (valid = true → confirmed = false → s = ofWorld w) ∧
  (valid = true → confirmed = true →
     s_tasks s = p_tasks data ∧ s_goals s = p_goals data ∧ s_settings s = st ∧
     (storageAccepts w = true →
        s_localStorage s !! STORAGE_KEYS.TASKS = Some (SavedTasks (p_tasks data)) ∧
        s_localStorage s !! STORAGE_KEYS.GOALS = Some (SavedGoals (p_goals data)) ∧
        s_localStorage s !! STORAGE_KEYS.SETTINGS = Some (SavedSettings st)) ∧
     last (s_events s)
     = Some (if isHolds (p_tasks data) && drawn
             then Toast "Data imported successfully" t_success
             else Toast "Failed to import data. Please check the file format."
                        t_error)).
Proof.
  intros s valid st. subst s valid. split_and!.
  - intros Hvalid. unfold onload.
    replace (negb (truthy (p_tasks data)) || negb (truthy (p_goals data)))
      with true by (by destruct (truthy (p_tasks data)), (truthy (p_goals data))).
    cbn. split_and!; try done. apply last_snoc.
  - intros [Hts Hgs]%andb_true_iff ->. unfold onload. by rewrite Hts, Hgs.
  - intros [Hts Hgs]%andb_true_iff ->. by apply onload_assigned.
Qed.

(** X26 at concrete files imported into [studyWorld]: a file without
    [goals] is rejected and the tasks stay; a file of two empty lists
    changes nothing when the user declines, and when the user confirms
    it replaces all tasks and is reported as imported. *)
Lemma onload_rejects_or_replaces_witness :
  s_tasks (onload (Some (ofBackup backupNoGoals)) true true studyWorld)
  = Holds (tasks studyWorld) ∧
  onload (Some (ofBackup backupEmpty)) false true studyWorld
  = ofWorld studyWorld ∧
  s_tasks (onload (Some (ofBackup backupEmpty)) true true studyWorld)
  = Holds [] ∧
  last (s_events (onload (Some (ofBackup backupEmpty)) true true studyWorld))
  = Some (Toast "Data imported successfully" t_success).
Proof.
  split_and!.
  - apply (onload_rejects_or_replaces (ofBackup backupNoGoals) true true
                                      studyWorld).
    reflexivity.
  - by apply (onload_rejects_or_replaces (ofBackup backupEmpty) false true
                                         studyWorld).
  - by apply (onload_rejects_or_replaces (ofBackup backupEmpty) true true
                                         studyWorld).
  - by apply (onload_rejects_or_replaces (ofBackup backupEmpty) true true
                                         studyWorld).
Defined.

End FileImportFacts.

(** ** [Array.prototype.sort] under a consistent comparator *)

Section SortFacts.
Context {A : Type} (cmp : A → A → option Z).

Lemma sort_cons x l : JS.sort cmp (x :: l) = JS.insert cmp x (JS.sort cmp l).
Proof. reflexivity. Qed.

Lemma insert_Permutation x l : JS.insert cmp x l ≡ₚ x :: l.
Proof.
  induction l as [|y l IH]; cbn; [done|].
  destruct (JS.sortCompare cmp x y <=? 0); [done|].
  rewrite IH. apply Permutation_swap.
Qed.

Lemma sort_Permutation l : JS.sort cmp l ≡ₚ l.
Proof.
  induction l as [|x l IH]; [done|].
  rewrite sort_cons, insert_Permutation. by f_equiv.
Qed.

(** The elements the comparator is consistent on. *)
Context (P : A → Prop).
Hypothesis total : ∀ x y, P x → P y → mayPrecede cmp x y ∨ mayPrecede cmp y x.
Hypothesis trans :
  ∀ x y z, P x → P y → P z →
    mayPrecede cmp x y → mayPrecede cmp y z → mayPrecede cmp x z.

Lemma insert_StronglySorted x l :
  P x → Forall P l →
  StronglySorted (mayPrecede cmp) l →
  StronglySorted (mayPrecede cmp) (JS.insert cmp x l).
Proof.
  intros Hx. induction l as [|y l IH]; intros HP Hs; cbn.
  - repeat constructor.
  - apply Forall_cons in HP as [Hy HP].
    apply StronglySorted_inv in Hs as [Hs Hyl].
    destruct (JS.sortCompare cmp x y <=? 0) eqn:Hxy.
    + apply Z.leb_le in Hxy. constructor; [by constructor|].
      constructor; [done|].
      rewrite Forall_forall in Hyl, HP |- *. intros z Hz.
      apply (trans x y z); auto.
    + apply Z.leb_gt in Hxy. constructor; [auto|].
      rewrite insert_Permutation. constructor; [|done].
      destruct (total x y Hx Hy) as [H|H]; [|done].
      unfold mayPrecede in H. lia.
Qed.

Lemma sort_StronglySorted l :
  Forall P l → StronglySorted (mayPrecede cmp) (JS.sort cmp l).
Proof.
  induction l as [|x l IH]; intros HP; [constructor|].
  apply Forall_cons in HP as [Hx HP]. rewrite sort_cons.
  apply insert_StronglySorted; [done| |auto].
  by rewrite sort_Permutation.
Qed.
End SortFacts.

Lemma StronglySorted_weaken {A} (R R' : A → A → Prop) (P : A → Prop) l :
  (∀ x y, P x → P y → R x y → R' x y) →
  Forall P l → StronglySorted R l → StronglySorted R' l.
Proof.
  intros HR. induction l as [|x l IH]; intros HP Hs; [constructor|].
  apply Forall_cons in HP as [Hx HP].
  apply StronglySorted_inv in Hs as [Hs Hxl].
  constructor; [auto|].
  rewrite Forall_forall in Hxl, HP |- *. auto.
Qed.

(** In a sorted list, an element that may not stand after another stands
    before it. *)
Lemma StronglySorted_placedBefore {A} (R : A → A → Prop) l x y :
  StronglySorted R l → x ∈ l → y ∈ l → x ≠ y → ¬ R y x →
  placedBefore x y l.
Proof.
  intros Hs Hx Hy Hne Hyx.
  apply list_elem_of_split in Hx as (l1 & l2 & ->).
  apply StronglySorted_app in Hs as (Hcross & _ & _).
  apply elem_of_app in Hy as [Hy | Hy].
  - exfalso. apply Hyx, Hcross; [done | set_solver].
  - apply elem_of_cons in Hy as [-> | Hy]; [done|].
    apply list_elem_of_split in Hy as (l3 & l4 & ->).
    by exists l1, l3, l4.
Qed.

(** ** C3: the order of the task list *)

Lemma compareTasks_taskOrder a b :
  hasDueDate a → hasDueDate b →
  mayPrecede compareTasks a b ↔ taskOrder a b.
Proof.
  intros [da Ha] [db Hb].
  unfold mayPrecede, JS.sortCompare, compareTasks, taskOrder, dueEarlier.
  rewrite Ha, Hb.
  destruct (Task.completed a), (Task.completed b);
    repeat case_bool_decide; cbn; try done;
    try (change JS.msPerDay with 86400000); simplify_eq;
    try assert (da ≠ db) by congruence;
    (split; [intros ? | intros [[? ?] | [? [(x & y & ? & ? & ?) | [? ?]]]]]);
    simplify_eq; try lia; try done.
  - right. split; [done|]. left. exists da, db. split_and!; [done..|lia].
  - right. split; [done|]. right. split; [done|lia].
  - right. split; [done|]. left. exists da, db. split_and!; [done..|lia].
  - right. split; [done|]. right. split; [done|lia].
Qed.

(** C3: when every task carries a due date, [sortedTasks] lists the
    tasks of the collection, each as often as it occurs, in an order in
    which every task stands before another only if it is incomplete and
    the other completed, or both agree on that and it is due earlier, or
    both are due the same day and its priority rank (high 3, medium 2,
    low 1) is not the lower one. In particular an incomplete task of high
    priority stands before an incomplete task of medium priority due the
    same day. *)
Theorem sortedTasks_order (w : World) :
  Forall hasDueDate (tasks w) →
  sortedTasks w ≡ₚ tasks w ∧
  StronglySorted taskOrder (sortedTasks w) ∧
  (∀ a b, a ∈ tasks w → b ∈ tasks w →
     Task.completed a = false → Task.completed b = false →
     Task.dueDate a = Task.dueDate b →
     Task.priority a = high → Task.priority b = medium →
     placedBefore a b (sortedTasks w)).
Proof.
  intros Hdue. unfold sortedTasks.
  pose proof (sort_Permutation compareTasks (tasks w)) as Hperm.
  assert (Hsorted : StronglySorted taskOrder (JS.sort compareTasks (tasks w))).
  { apply (StronglySorted_weaken (mayPrecede compareTasks) _ hasDueDate).
    - intros x y Hx Hy. by apply compareTasks_taskOrder.
    - by rewrite Hperm.
    - apply (sort_StronglySorted compareTasks hasDueDate); [| |done].
      + intros x y Hx Hy. rewrite !compareTasks_taskOrder by done.
        destruct Hx as [dx Hx], Hy as [dy Hy].
        unfold taskOrder, dueEarlier. rewrite Hx, Hy.
        destruct (Task.completed x), (Task.completed y);
          destruct (Z.lt_trichotomy dx dy) as [?|[->|?]];
          destruct (Z.le_ge_cases (priorityOrder (Task.priority x))
                                  (priorityOrder (Task.priority y)));
          naive_solver.
      + intros x y z Hx Hy Hz. rewrite !compareTasks_taskOrder by done.
        destruct Hx as [dx Hx], Hy as [dy Hy], Hz as [dz Hz].
        unfold taskOrder, dueEarlier. rewrite Hx, Hy, Hz.
        intros [[? ?] | [? [(? & ? & ? & ? & ?) | [? ?]]]]
               [[? ?] | [? [(? & ? & ? & ? & ?) | [? ?]]]];
          simplify_eq; try (left; split; congruence);
          right; (split; [congruence|]);
          try (left; eexists _, _; split_and!; [done..|lia]).
        right. split; [done | lia]. }
  split_and!; [done..|].
  intros a b Ha Hb Hca Hcb Hdate Hpa Hpb.
  apply (StronglySorted_placedBefore taskOrder); [done| | | |].
  - by rewrite Hperm.
  - by rewrite Hperm.
  - intros ->. congruence.
  - unfold taskOrder, dueEarlier. rewrite Hca, Hcb, Hdate, Hpa, Hpb. cbn.
    intros [[? ?] | [_ [(? & ? & ? & ? & ?) | [_ ?]]]];
      [done | simplify_eq; lia | lia].
Qed.

(** C3 at a concrete list: [studyWorld] holds the medium-priority
    problem sheet before the high-priority reading, both due 2024-06-10;
    the sorted list has the reading first. *)
Lemma sortedTasks_witness : placedBefore readCh3 solveSheet (sortedTasks studyWorld).
Proof.
  assert (Hdue : Forall hasDueDate (tasks studyWorld)).
  { repeat (apply Forall_cons_2; [by eexists|]). apply Forall_nil_2. }
  destruct (sortedTasks_order studyWorld Hdue) as (_ & _ & Hhigh).
  apply Hhigh; try reflexivity.
  - do 2 right. left.
  - left.
Defined.

Example sortedTasks_studyWorld :
  sortedTasks studyWorld = [readCh3; solveSheet; essayDone].
Proof. reflexivity. Qed.

(** ** C1: the study streak *)

Lemma localMidnight_diff tz a b :
  (JS.localMidnight tz a - JS.localMidnight tz b) `div` JS.msPerDay = a - b.
Proof.
  unfold JS.localMidnight.
  replace (a * JS.msPerDay - tz - (b * JS.msPerDay - tz))
    with ((a - b) * JS.msPerDay) by lia.
  by apply Z.div_mul.
Qed.

(** Where the clocks never change, any two days are whole days apart. *)
Lemma wholeDaysApart_fixedZone tz today day :
  wholeDaysApart (JS.fixedZone tz) today day.
Proof. apply (localMidnight_diff tz today day). Qed.

(** The days of [tasksByDate] are the days of the tasks filed. *)
Lemma groupByDate_days zone l d :
  is_Some (groupByDate zone l !! d) ↔
  ∃ task, task ∈ l ∧ completionDay zone task = Some d.
Proof.
  unfold groupByDate.
  assert (Hgen : ∀ m : gmap Z (list Task.t),
    is_Some (foldl (λ tasksByDate task,
                      match completionDay zone task with
                      | Some date =>
                          <[date := default [] (tasksByDate !! date) ++ [task]]>
                            tasksByDate
                      | None => tasksByDate
                      end) m l !! d) ↔
    is_Some (m !! d) ∨ ∃ task, task ∈ l ∧ completionDay zone task = Some d).
  { induction l as [|x l IH]; intros m; cbn.
    - split; [by left|]. intros [?|(? & []%elem_of_nil & _)]; done.
    - rewrite IH. destruct (completionDay zone x) as [dx|] eqn:Hx.
      + rewrite lookup_insert_is_Some'. split.
        * intros [[<- | ?] | (task & ? & ?)]; [|by left|].
          -- right. exists x. split; [left | done].
          -- right. exists task. split; [by right | done].
        * intros [? | (task & [-> | ?]%elem_of_cons & Htask)].
          -- left. by right.
          -- left. left. congruence.
          -- right. by exists task.
      + split.
        * intros [? | (task & ? & ?)]; [by left|].
          right. exists task. split; [by right | done].
        * intros [? | (task & [-> | ?]%elem_of_cons & Htask)];
            [by left | congruence | right; by exists task]. }
  rewrite Hgen. split; [|by right].
  intros [[]%lookup_empty_is_Some | ?]; done.
Qed.

Lemma keys_groupByDate zone l d :
  d ∈ (map_to_list (groupByDate zone l)).*1 ↔
  ∃ task, task ∈ l ∧ completionDay zone task = Some d.
Proof.
  rewrite <- groupByDate_days, list_elem_of_fmap. split.
  - intros ([k v] & -> & Hkv%elem_of_map_to_list). by exists v.
  - intros [v Hv]. exists (d, v). split; [done|]. by apply elem_of_map_to_list.
Qed.

(** The days filed are the days with a completion. *)
Lemma completedOn_filed zone l d :
  (∃ task,
     task ∈ filter (λ task, Task.completed task = true ∧
                            is_Some (Task.completedAt task)) l ∧
     completionDay zone task = Some d) ↔
  completedOn zone l d.
Proof.
  unfold completedOn, completionDay. split.
  - intros (task & ((Hc & _) & Hin)%list_elem_of_filter & Hday).
    destruct (Task.completedAt task) as [stamp|] eqn:Hat; [|done].
    exists task, stamp. cbn in Hday. by simplify_eq.
  - intros (task & stamp & Hin & Hc & Hat & Hday). exists task. split.
    + apply list_elem_of_filter. rewrite Hat. split_and!; [done| by eexists |done].
    + rewrite Hat. cbn. by rewrite Hday.
Qed.

(** The sort of the days puts the later midnight first. *)
Lemma byMidnight_sorted zone (keys : list Z) :
  StronglySorted (λ a b, JS.midnightIn zone b ≤ JS.midnightIn zone a)
                 (JS.sort (byMidnight zone) keys).
Proof.
  apply (StronglySorted_weaken (mayPrecede (byMidnight zone)) _ (λ _, True)).
  - intros x y _ _. unfold mayPrecede, JS.sortCompare, byMidnight. cbn. lia.
  - by apply Forall_true.
  - apply (sort_StronglySorted (byMidnight zone) (λ _, True));
      [| |by apply Forall_true].
    + intros x y _ _. unfold mayPrecede, JS.sortCompare, byMidnight. cbn. lia.
    + intros x y z _ _ _. unfold mayPrecede, JS.sortCompare, byMidnight. cbn. lia.
Qed.

(** Among days that are whole days from [today], the later midnight is
    the later day. *)
Lemma wholeDaysApart_order zone today a b :
  wholeDaysApart zone today a → wholeDaysApart zone today b →
  JS.midnightIn zone b ≤ JS.midnightIn zone a → b ≤ a.
Proof.
  unfold wholeDaysApart. intros Ha Hb Hle.
  assert ((JS.midnightIn zone today - JS.midnightIn zone a) `div` JS.msPerDay
          ≤ (JS.midnightIn zone today - JS.midnightIn zone b) `div` JS.msPerDay).
  { apply Z.div_le_mono; [done | lia]. }
  lia.
Qed.

(** The loop, from any point it has reached: [seen] holds the days it
    has passed, all more recent than [today - streak]; the days ahead are
    in descending order. *)
Lemma streakLoop_spec zone today (ahead seen : list Z) (streak : Z) :
  0 ≤ streak →
  Forall (wholeDaysApart zone today) ahead →
  StronglySorted (λ a b, b ≤ a) ahead →
  Forall (λ d, today - streak < d) seen →
  (∀ i, 0 ≤ i < streak → today - i ∈ seen ++ ahead) →
  let n := streakLoop zone (JS.midnightIn zone today) ahead streak in
  0 ≤ n ∧
  (∀ i, 0 ≤ i < n → today - i ∈ seen ++ ahead) ∧
  today - n ∉ seen ++ ahead.
Proof.
  revert seen streak.
  induction ahead as [|d ahead IH]; intros seen streak Hpos Hwhole Hs Hseen Hrun; cbn.
  - split_and!; [done..|]. rewrite app_nil_r.
    intros Hin. rewrite Forall_forall in Hseen. apply Hseen in Hin. lia.
  - apply Forall_cons in Hwhole as [Hd0 Hwhole].
    unfold wholeDaysApart in Hd0. rewrite Hd0.
    apply StronglySorted_inv in Hs as [Hs Hd].
    assert (Hcons : ∀ x, x ∈ seen ++ d :: ahead ↔ x ∈ (seen ++ [d]) ++ ahead).
    { intros x. by rewrite <- app_assoc. }
    destruct (today - d =? streak) eqn:Heq; [|destruct (today - d >? streak) eqn:Hgt].
    + apply Z.eqb_eq in Heq.
      destruct (IH (seen ++ [d]) (streak + 1)) as (Hn & Hrun' & Hstop).
      * lia.
      * done.
      * done.
      * apply Forall_app. split; [|apply Forall_singleton; lia].
        eapply Forall_impl; [done|]. intros x Hx. cbn in *. lia.
      * intros i Hi. apply Hcons.
        destruct (decide (i = streak)) as [Hlast | ?]; [|apply Hrun; lia].
        assert (today - i = d) as -> by lia.
        apply elem_of_app. right. left.
      * split_and!; [done| |].
        -- intros i Hi. by apply Hcons, Hrun'.
        -- intros Hin. by apply Hstop, Hcons.
    + apply Z.gtb_lt in Hgt.
      split_and!; [done..|].
      intros [Hin | [Hhere | Hin]%elem_of_cons]%elem_of_app.
      * rewrite Forall_forall in Hseen. apply Hseen in Hin. lia.
      * lia.
      * rewrite Forall_forall in Hd. apply Hd in Hin. lia.
    + apply Z.eqb_neq in Heq.
      assert (today - d < streak).
      { destruct (Z.gtb_spec (today - d) streak); [done | lia]. }
      destruct (IH (seen ++ [d]) streak) as (Hn & Hrun' & Hstop).
      * done.
      * done.
      * done.
      * apply Forall_app. split; [done | apply Forall_singleton; lia].
      * intros i Hi. by apply Hcons, Hrun.
      * split_and!; [done| |].
        -- intros i Hi. by apply Hcons, Hrun'.
        -- intros Hin. by apply Hstop, Hcons.
Qed.

Lemma longestRunFrom_unique zone today l n k :
  longestRunFrom zone today l n → longestRunFrom zone today l k → k = n.
Proof.
  intros (Hn & Hrun & Hstop) (Hk & Hrun' & Hstop').
  destruct (Z.lt_trichotomy k n) as [? | [? | ?]]; [|done|].
  - destruct Hstop'. apply Hrun. lia.
  - destruct Hstop. apply Hrun'. lia.
Qed.

(** The days the loop walks through are the days with a completion. *)
Lemma completionDates_days zone (l : list Task.t) d :
  d ∈ JS.sort (byMidnight zone)
        (map_to_list
           (groupByDate zone
              (filter (λ task, Task.completed task = true ∧
                               is_Some (Task.completedAt task)) l))).*1
  ↔ completedOn zone l d.
Proof.
  rewrite (sort_Permutation (byMidnight zone)), keys_groupByDate.
  apply completedOn_filed.
Qed.

Lemma calculateStudyStreak_run zone now w :
  (∀ day, completedOn zone (tasks w) day →
          wholeDaysApart zone (JS.dayIn zone now) day) →
  longestRunFrom zone (JS.dayIn zone now) (tasks w)
                 (calculateStudyStreak zone now w).
Proof.
  intros Hwhole. unfold calculateStudyStreak.
  set (completedTasks := filter _ (tasks w)).
  assert (Hnone : completedTasks = [] →
                  longestRunFrom zone (JS.dayIn zone now) (tasks w) 0).
  { intros Hempty. split_and!; [done | intros; lia |].
    intros (task & Hin & _)%completedOn_filed.
    fold completedTasks in Hin. rewrite Hempty in Hin. by apply elem_of_nil in Hin. }
  case_bool_decide as Hlen.
  { apply Hnone. subst completedTasks.
    apply nil_length_inv in Hlen. by rewrite Hlen. }
  case_bool_decide as Hlen'.
  { apply Hnone. by apply nil_length_inv. }
  set (keys := (map_to_list (groupByDate zone completedTasks)).*1).
  assert (Hmem : ∀ d, d ∈ [] ++ JS.sort (byMidnight zone) keys ↔
                      completedOn zone (tasks w) d).
  { intros d. apply completionDates_days. }
  assert (Hall : Forall (wholeDaysApart zone (JS.dayIn zone now))
                        (JS.sort (byMidnight zone) keys)).
  { apply Forall_forall. intros d Hd. by apply Hwhole, Hmem. }
  assert (Hdesc : StronglySorted (λ a b, b ≤ a) (JS.sort (byMidnight zone) keys)).
  { apply (StronglySorted_weaken _ _ (wholeDaysApart zone (JS.dayIn zone now))
             _ (λ x y Hx Hy, wholeDaysApart_order zone _ x y Hx Hy) Hall).
    apply byMidnight_sorted. }
  destruct (streakLoop_spec zone (JS.dayIn zone now)
              (JS.sort (byMidnight zone) keys) [] 0)
    as (Hn & Hrun & Hstop); [done | done | done | constructor | intros; lia |].
  split_and!; [done| |].
  - intros i Hi. by apply Hmem, Hrun.
  - intros Hin. by apply Hstop, Hmem.
Qed.

(** The loop never lowers the streak it has reached. *)
Lemma streakLoop_ge zone currentDate l streak :
  streak ≤ streakLoop zone currentDate l streak.
Proof.
  revert streak. induction l as [|d l IH]; intros streak; cbn; [done|].
  repeat case_match; [|done|done]. specialize (IH (streak + 1)). lia.
Qed.

(** With today among the days, in descending order of their midnights,
    the loop counts it. *)
Lemma streakLoop_today zone today l :
  StronglySorted (λ a b, JS.midnightIn zone b ≤ JS.midnightIn zone a) l →
  today ∈ l →
  1 ≤ streakLoop zone (JS.midnightIn zone today) l 0.
Proof.
  induction l as [|d l IH]; intros Hs Hin; [by apply elem_of_nil in Hin|].
  apply StronglySorted_inv in Hs as [Hs Hd]. cbn.
  destruct (_ =? 0) eqn:Heq.
  { apply (streakLoop_ge zone _ l 1). }
  apply Z.eqb_neq in Heq.
  assert (Htail : today ∈ l).
  { apply elem_of_cons in Hin as [-> | ?]; [|done].
    by rewrite Z.sub_diag, Z.div_0_l in Heq. }
  destruct (_ >? 0) eqn:Hgt; [|auto].
  apply Z.gtb_lt in Hgt. rewrite Forall_forall in Hd. apply Hd in Htail.
  assert (0 < JS.midnightIn zone today - JS.midnightIn zone d).
  { destruct (Z.le_gt_cases (JS.midnightIn zone today - JS.midnightIn zone d) 0)
      as [Hle|]; [|lia].
    apply (Z.div_le_mono _ _ JS.msPerDay) in Hle; [|done].
    change (0 `div` JS.msPerDay) with 0 in Hle. lia. }
  lia.
Qed.

(** C1 on the code: in New York, Sunday 2024-03-10 has 23 hours. With
    completions on the Saturday before and the Monday after and none on
    that Sunday, at noon on the Monday the longest run of consecutive
    days with a completion, counted backward from today, has length 1;
    [calculateStudyStreak] returns 2. The 47 hours from midnight of the
    Saturday to midnight of the Monday make one whole span of 24 hours,
    which the loop takes for yesterday. *)
Theorem calculateStudyStreak_short_day :
  let today := JS.dayIn newYork mondayNoonNewYork in
  let streak := calculateStudyStreak newYork mondayNoonNewYork springWorld in
  today = 19793 ∧
  longestRunFrom newYork today (tasks springWorld) 1 ∧
  streak = 2 ∧
  ¬ longestRunFrom newYork today (tasks springWorld) streak.
Proof.
  assert (Hrun : longestRunFrom newYork (JS.dayIn newYork mondayNoonNewYork)
                                (tasks springWorld) 1).
  { split_and!; [done | |].
    - intros i Hi. replace i with 0 by lia.
      exists (completedTask "mon" 1710165600000), 1710165600000.
      split_and!; [right; left | reflexivity..].
    - intros (task & stamp & Hin & Hc & Hat & Hday). cbn in Hin.
      repeat (apply elem_of_cons in Hin as [-> | Hin];
              [cbn in Hat; simplify_eq; vm_compute in Hday; discriminate|]).
      by apply elem_of_nil in Hin. }
  assert (Hstreak : calculateStudyStreak newYork mondayNoonNewYork springWorld = 2)
    by by vm_compute.
  split_and!; [reflexivity | done | done |].
  cbn zeta. rewrite Hstreak. intros Htwo.
  by pose proof (longestRunFrom_unique _ _ _ _ _ Hrun Htwo).
Qed.

(** ** The streak where no day was shortened *)

(** X25: when every day with a completion is whole days from today (as
    it is in a zone whose clocks never change, and wherever no change of
    the clocks shortened a day in between), [calculateStudyStreak]
    returns the length of the longest run of consecutive days, counted
    backward from today, on each of which some task with
    [completed = true] has its [completedAt]: that many days from today
    down each have one, the day before them has none, and no other
    number has this property. In particular it returns 0 when no task is
    completed, 1 when there is a completion today and none yesterday, and
    3 when there are completions today, yesterday and the day before and
    none on the day before those. *)
Theorem calculateStudyStreak_longest_run_whole_days
    (zone : JS.Zone) (now : Z) (w : World) :
  let today := JS.dayIn zone now in
  let streak := calculateStudyStreak zone now w in
  let done_on := completedOn zone (tasks w) in
  (∀ day, done_on day → wholeDaysApart zone today day) →
  longestRunFrom zone today (tasks w) streak ∧
  (∀ k, longestRunFrom zone today (tasks w) k → k = streak) ∧
  ((∀ task, task ∈ tasks w → Task.completed task = false) → streak = 0) ∧
  (done_on today → ¬ done_on (today - 1) → streak = 1) ∧
  (done_on today → done_on (today - 1) → done_on (today - 2) →
   ¬ done_on (today - 3) → streak = 3).
Proof.
  intros today streak done_on Hwhole.
  pose proof (calculateStudyStreak_run zone now w Hwhole) as Hrun.
  fold today streak in Hrun.
  assert (Huniq : ∀ k, longestRunFrom zone today (tasks w) k → k = streak).
  { intros k. by apply longestRunFrom_unique. }
  split_and!; [done | done | | |].
  - intros Hnone. symmetry. apply Huniq. split_and!; [done | intros; lia |].
    intros (task & stamp & Hin & Hc & _). apply Hnone in Hin. congruence.
  - intros H0 H1. symmetry. apply Huniq. split_and!; [done | | done].
    intros i Hi. by replace i with 0 by lia; rewrite Z.sub_0_r.
  - intros H0 H1 H2 H3. symmetry. apply Huniq. split_and!; [done | | done].
    intros i Hi.
    assert (i = 0 ∨ i = 1 ∨ i = 2) as [-> | [-> | ->]] by lia;
      [by rewrite Z.sub_0_r | done | done].
Qed.

(** X25 at a concrete session, five and a half hours ahead of UTC all
    year: [streakWorld] has completions on the 10th, 9th and 8th of June
    2024 and none on the 7th; on the evening of the 10th the streak is 3. *)
Lemma calculateStudyStreak_longest_run_witness :
  calculateStudyStreak (JS.fixedZone istOffset) mondayEvening streakWorld = 3.
Proof.
  apply (calculateStudyStreak_longest_run_whole_days
           (JS.fixedZone istOffset) mondayEvening streakWorld).
  - intros day _. apply wholeDaysApart_fixedZone.
  - exists (completedTask "b" 1718020800000), 1718020800000.
    split_and!; [right; left | reflexivity..].
  - exists (completedTask "d" 1717927200000), 1717927200000.
    split_and!; [do 3 right; left | reflexivity..].
  - exists (completedTask "a" 1717851600000), 1717851600000.
    split_and!; [left | reflexivity..].
  - intros (task & stamp & Hin & Hc & Hat & Hday). cbn in Hin.
    repeat (apply elem_of_cons in Hin as [-> | Hin];
            [cbn in Hat; simplify_eq; vm_compute in Hday; discriminate|]).
    by apply elem_of_nil in Hin.
Defined.

Example calculateStudyStreak_three :
  calculateStudyStreak (JS.fixedZone istOffset) mondayEvening streakWorld = 3.
Proof. vm_compute. reflexivity. Qed.

Example calculateStudyStreak_nothing_completed :
  calculateStudyStreak (JS.fixedZone istOffset) mondayEvening
    (mkWorld [readCh3; solveSheet] [] defaultSettings ∅ true []) = 0.
Proof. vm_compute. reflexivity. Qed.

(** In New York in June 2024 no day of the week before was shortened:
    a streak of two days is counted as it is. *)
Example calculateStudyStreak_new_york_june :
  calculateStudyStreak newYork 1718031600000
    (mkWorld [ completedTask "a" 1717945200000;    (* 2024-06-09 11:00 there *)
               completedTask "b" 1718028000000 ]   (* 2024-06-10 10:00 there *)
             [] defaultSettings ∅ true []) = 2.
Proof. vm_compute. reflexivity. Qed.

(** ** C4: the weekly progress *)

Lemma getDay_range day : 0 ≤ JS.getDay day < 7.
Proof. unfold JS.getDay. apply Z.mod_pos_bound. lia. Qed.

(** [getWeekStart(0)] is local midnight of the Monday on or before
    today. *)
Lemma getWeekStart_monday tz now :
  getWeekStart tz now 0 =
  JS.localMidnight tz (weekStartDay 1 (JS.localDay tz now)).
Proof.
  unfold getWeekStart, weekStartDay. f_equal.
  pose proof (getDay_range (JS.localDay tz now)) as Hrange.
  destruct (JS.getDay (JS.localDay tz now) =? 0) eqn:Hsun.
  - apply Z.eqb_eq in Hsun. rewrite Hsun.
    change ((0 - 1) `mod` 7) with 6. lia.
  - apply Z.eqb_neq in Hsun.
    rewrite (Z.mod_small (JS.getDay (JS.localDay tz now) - 1) 7) by lia. lia.
Qed.

Lemma localDay_localMidnight tz day : JS.localDay tz (JS.localMidnight tz day) = day.
Proof.
  unfold JS.localDay, JS.localMidnight.
  replace (day * JS.msPerDay - tz + tz) with (day * JS.msPerDay) by lia.
  by apply Z.div_mul.
Qed.

(** In a zone at or ahead of UTC the tasks counted are those due from
    that Monday to the Sunday after it. *)
Lemma weekTasks_dueInWeek tz now l :
  0 ≤ tz < JS.msPerDay →
  weekTasks tz now l = dueInWeek 1 (JS.localDay tz now) l.
Proof.
  intros Htz. unfold weekTasks, dueInWeek.
  rewrite getWeekStart_monday, localDay_localMidnight.
  set (monday := weekStartDay 1 (JS.localDay tz now)).
  apply list_filter_iff. intros task.
  destruct (Task.dueDate task) as [d|]; cbn; [|done].
  unfold JS.localMidnight. change JS.msPerDay with 86400000 in *.
  rewrite !andb_True, !Is_true_true, !Z.leb_le. lia.
Qed.

Lemma percent_of_counts (c t : nat) :
  (0 < t)%nat →
  (inject_Z (Z.of_nat c) / inject_Z (Z.of_nat t) * inject_Z 100
   == 100 * Z.of_nat c # Pos.of_nat t)%Q.
Proof.
  intros Ht. destruct t as [|t]; [lia|].
  rewrite <- Pos.of_nat_succ.
  change (Z.of_nat (S t)) with (Z.pos (Pos.of_succ_nat t)).
  unfold Qeq, Qdiv, Qmult, Qinv, inject_Z. cbn [Qnum Qden]. lia.
Qed.

Lemma updateWeeklyProgress_percent tz now w :
  (updateWeeklyProgress tz now w == percentCompleted (weekTasks tz now (tasks w)))%Q.
Proof.
  unfold updateWeeklyProgress, percentCompleted.
  destruct (weekTasks tz now (tasks w)) as [|x l] eqn:Hweek.
  - reflexivity.
  - rewrite bool_decide_eq_true_2 by (cbn; lia).
    apply percent_of_counts. cbn. lia.
Qed.

Lemma percentCompleted_range l : (0 <= percentCompleted l <= 100)%Q.
Proof.
  unfold percentCompleted. destruct l as [|x l]; [split; discriminate|].
  set (k := x :: l).
  pose proof (length_filter (λ t, Task.completed t = true) k) as Hle.
  assert (Hpos : Z.pos (Pos.of_nat (length k)) = Z.of_nat (length k)).
  { subst k. cbn [length]. rewrite <- Pos.of_nat_succ. reflexivity. }
  unfold Qle. cbn [Qnum Qden]. rewrite Hpos. split; nia.
Qed.

(** C4, as the code has it: in a time zone at or ahead of UTC,
    [updateWeeklyProgress] is the percentage, from 0 to 100, of completed
    tasks among those whose due date falls in the seven days from the
    Monday on or before today to the following Sunday, and is 0 when no
    task is due in that week. The week starts on Monday whatever
    [weekStartsOn] says: the value does not depend on the settings. *)
Theorem updateWeeklyProgress_monday_week (tz now : Z) (w : World) :
  0 ≤ tz < JS.msPerDay →
  let today := JS.localDay tz now in
  let progress := updateWeeklyProgress tz now w in
  (progress == percentCompleted (dueInWeek 1 today (tasks w)))%Q ∧
  (progress ==
   specWeeklyProgress (mkSettings (theme (settings w)) (notifications (settings w))
                                  (Some 1%Z)) today (tasks w))%Q ∧
  (0 <= progress <= 100)%Q ∧
  (dueInWeek 1 today (tasks w) = [] → progress = 0%Q) ∧
  (∀ s, updateWeeklyProgress tz now (set_settings s w) = progress).
Proof.
  intros Htz today progress.
  assert (Heq : (progress == percentCompleted (dueInWeek 1 today (tasks w)))%Q).
  { subst progress today. rewrite <- (weekTasks_dueInWeek tz now) by done.
    apply updateWeeklyProgress_percent. }
  split_and!; [done | done | | | | done].
  - rewrite Heq. apply percentCompleted_range.
  - rewrite Heq. apply percentCompleted_range.
  - intros Hnone. subst progress today. unfold updateWeeklyProgress.
    rewrite (weekTasks_dueInWeek tz now) by done. by rewrite Hnone.
Qed.

(** C4 at a concrete session: in the zone of [streakWorld], on Monday
    2024-06-10, all six tasks are due that day and five are completed. *)
Lemma updateWeeklyProgress_witness :
  (updateWeeklyProgress istOffset mondayEvening streakWorld
   == percentCompleted (dueInWeek 1 19884 (tasks streakWorld)))%Q.
Proof.
  apply (updateWeeklyProgress_monday_week istOffset mondayEvening streakWorld).
  by vm_compute.
Defined.

Example updateWeeklyProgress_streakWorld :
  (updateWeeklyProgress istOffset mondayEvening streakWorld == 500 # 6)%Q.
Proof. by vm_compute. Qed.

(** C4 as stated fails: with [weekStartsOn] set to Sunday, on Wednesday
    2024-06-12 the week of the specification runs from Sunday the 9th and
    holds the completed task due that day, which makes 100; the code
    counts from Monday the 10th, finds no task and shows 0. *)
Lemma updateWeeklyProgress_ignores_weekStartsOn :
  weekStartsOn (settings sundayWorld) = Some 0 ∧
  updateWeeklyProgress 0 wednesdayNoon sundayWorld = 0%Q ∧
  specWeeklyProgress (settings sundayWorld) (JS.localDay 0 wednesdayNoon)
                     (tasks sundayWorld) = (100 # 1)%Q ∧
  ¬ (updateWeeklyProgress 0 wednesdayNoon sundayWorld
     == specWeeklyProgress (settings sundayWorld) (JS.localDay 0 wednesdayNoon)
                           (tasks sundayWorld))%Q.
Proof. split_and!; [by vm_compute..|]. by vm_compute. Qed.

(** Behind UTC the window slips by a day: at noon of Monday 2024-06-10,
    five hours behind UTC, a task due that Monday is read as Sunday
    evening and is not counted. *)
Example weekTasks_behind_UTC :
  JS.localDay estOffset mondayNoonEst = 19884 ∧
  weekTasks estOffset mondayNoonEst [readCh3] = [] ∧
  dueInWeek 1 19884 [readCh3] = [readCh3].
Proof. split_and!; by vm_compute. Qed.

(** * The rest of the data layer: properties *)

(** ** Creating and deleting *)

Lemma localStorage_saveToStorage_refused key data w :
  storageAccepts w = false →
  localStorage (saveToStorage key data w) = localStorage w.
Proof. unfold saveToStorage. by intros ->. Qed.

Lemma tasks_createTask taskData newId now w :
  tasks (createTask taskData newId now w) =
  tasks w ++ [Task.set_completed false
                (Task.set_createdAt (Some now)
                   (Task.set_id newId (Task.spread TASK_TEMPLATE taskData)))].
Proof. unfold createTask. cbn. by rewrite tasks_saveToStorage. Qed.

Lemma tasks_deleteTask taskId w :
  tasks (deleteTask taskId true w) = filter (λ t, Task.id t ≠ taskId) (tasks w).
Proof. unfold deleteTask. cbn. by rewrite tasks_saveToStorage. Qed.

Lemma findTask_app_fresh taskId l task :
  (∀ t, t ∈ l → Task.id t ≠ taskId) → Task.id task = taskId →
  findTask taskId (l ++ [task]) = Some (length l, task).
Proof.
  intros Hfresh Hid. unfold findTask. apply list_find_Some. split_and!.
  - rewrite lookup_app_r by lia. by rewrite Nat.sub_diag.
  - done.
  - intros j y Hj Hlt. rewrite lookup_app_l in Hj by done.
    apply Hfresh. by eapply list_elem_of_lookup_2.
Qed.

Lemma filter_none_removed {A} (P : A → Prop) `{!∀ x, Decision (P x)} (l : list A) :
  Forall P l → filter P l = l.
Proof.
  induction 1 as [|x l Hx Hl IH]; [done|].
  by rewrite filter_cons_True, IH.
Qed.

(** [createTask] adds exactly one task, at the end, and leaves the
    tasks before it as they were. The new task carries the id and the
    time it was handed and is not completed, whatever the data says about
    [id], [createdAt] and [completed]. When no task had that id, it is
    the task then found under it. *)
Theorem createTask_appends_one
    (taskData : Task.data) (newId : string) (now : Z) (w : World) :
  ∃ task,
    tasks (createTask taskData newId now w) = tasks w ++ [task] ∧
    Task.id task = newId ∧ Task.createdAt task = Some now ∧
    Task.completed task = false ∧
    Task.title task = default "" (Task.d_title taskData) ∧
    Task.priority task = default medium (Task.d_priority taskData) ∧
    ((∀ t, t ∈ tasks w → Task.id t ≠ newId) →
     findTask newId (tasks (createTask taskData newId now w))
     = Some (length (tasks w), task)).
Proof.
  rewrite tasks_createTask. eexists. split_and!; try reflexivity.
  intros Hfresh. by apply findTask_app_fresh.
Qed.

(** X1: creating a task under an id no task carries and deleting that id
    again gives back the collection as it was. *)
Theorem createTask_deleteTask_restores
    (taskData : Task.data) (newId : string) (now : Z) (w : World) :
  (∀ t, t ∈ tasks w → Task.id t ≠ newId) →
  tasks (deleteTask newId true (createTask taskData newId now w)) = tasks w.
Proof.
  intros Hfresh. rewrite tasks_deleteTask, tasks_createTask, filter_app.
  rewrite filter_none_removed by by apply Forall_forall.
  rewrite filter_cons_False by (cbn; naive_solver).
  by rewrite filter_nil, app_nil_r.
Qed.

Lemma createTask_deleteTask_witness :
  tasks (deleteTask "t9" true
           (createTask (Task.ofForm "Quiz" "Maths" (Some 19885) "" low "")
                       "t9" 1718000000000 studyWorld))
  = tasks studyWorld.
Proof.
  apply (createTask_deleteTask_restores
           (Task.ofForm "Quiz" "Maths" (Some 19885) "" low "")
           "t9" 1718000000000 studyWorld).
  intros t Ht. each_member Ht.
Defined.

(** X2: after a confirmed [deleteTask] no task of that id is found, and
    deleting the id once more changes no task. An id that no task carries
    leaves the collection as it is, and the deletion is still announced
    as a success. *)
Theorem deleteTask_idempotent_and_always_announced (taskId : string) (w : World) :
  let w' := deleteTask taskId true w in
  findTask taskId (tasks w') = None ∧
  tasks (deleteTask taskId true w') = tasks w' ∧
  ((∀ t, t ∈ tasks w → Task.id t ≠ taskId) → tasks w' = tasks w) ∧
  last (events w') = Some (Toast "Task deleted successfully" t_success).
Proof.
  intros w'. subst w'. split_and!.
  - apply findTask_absent. intros t. rewrite tasks_deleteTask.
    by intros [? _]%list_elem_of_filter.
  - rewrite !tasks_deleteTask. apply filter_none_removed, Forall_forall.
    by intros t [? _]%list_elem_of_filter.
  - intros Habsent. rewrite tasks_deleteTask.
    by apply filter_none_removed, Forall_forall.
  - unfold deleteTask, showNotification, emit. cbn. apply last_snoc.
Qed.

Lemma goals_deleteGoal goalId w :
  goals (deleteGoal goalId true w) = filter (λ g, Goal.id g ≠ goalId) (goals w).
Proof. unfold deleteGoal. cbn. by rewrite goals_saveToStorage. Qed.

(** X3: once the user has confirmed, [deleteGoal] removes exactly the
    goals of the given id: what remains is a sublist of the collection,
    holds a goal exactly when the collection held it and its id differs,
    and contains every order-keeping selection of goals of other ids.
    The tasks are untouched; when the user declines, nothing changes. *)
Theorem deleteGoal_removes_exactly (goalId : string) (w : World) :
  let remaining := goals (deleteGoal goalId true w) in
  remaining `sublist_of` goals w ∧
  (∀ g, g ∈ remaining ↔ g ∈ goals w ∧ Goal.id g ≠ goalId) ∧
  (∀ k, k `sublist_of` goals w → (∀ g, g ∈ k → Goal.id g ≠ goalId) →
        k `sublist_of` remaining) ∧
  findGoal goalId remaining = None ∧
  tasks (deleteGoal goalId true w) = tasks w ∧
  deleteGoal goalId false w = w.
Proof.
  intros remaining. subst remaining. rewrite goals_deleteGoal. split_and!.
  - apply sublist_filter.
  - intros g. rewrite list_elem_of_filter. tauto.
  - intros k Hk Hids. apply sublist_into_filter; [done|]. by apply Forall_forall.
  - apply list_find_None, Forall_forall.
    intros g [Hne _]%list_elem_of_filter. by intros ?.
  - unfold deleteGoal. cbn. by rewrite tasks_saveToStorage.
  - reflexivity.
Qed.

(** ** Storage and memory *)

Lemma allSaved_emit e w : allSaved w → allSaved (emit e w).
Proof. done. Qed.

Lemma allSaved_commit_tasks l w :
  storageAccepts w = true → allSaved w →
  allSaved (saveToStorage STORAGE_KEYS.TASKS (StoredTasks l) (set_tasks l w)).
Proof.
  destruct w as [ts gs s ls acc ev]. cbn. intros -> (Hts & Hgs & Hs).
  unfold allSaved, storedTasks, storedGoals, storedSettings, saveToStorage in *.
  cbn in *. rewrite lookup_insert_eq, !lookup_insert_ne by done. done.
Qed.

Lemma allSaved_commit_goals l w :
  storageAccepts w = true → allSaved w →
  allSaved (saveToStorage STORAGE_KEYS.GOALS (StoredGoals l) (set_goals l w)).
Proof.
  destruct w as [ts gs s ls acc ev]. cbn. intros -> (Hts & Hgs & Hs).
  unfold allSaved, storedTasks, storedGoals, storedSettings, saveToStorage in *.
  cbn in *. rewrite lookup_insert_eq, !lookup_insert_ne by done. done.
Qed.

Lemma stored_commit_all ts gs s w :
  storageAccepts w = true →
  let w' :=
    saveToStorage STORAGE_KEYS.SETTINGS (StoredSettings s)
      (saveToStorage STORAGE_KEYS.GOALS (StoredGoals gs)
         (saveToStorage STORAGE_KEYS.TASKS (StoredTasks ts)
            (set_settings s (set_goals gs (set_tasks ts w))))) in
  storedTasks (localStorage w') = Parses ts ∧
  storedGoals (localStorage w') = Parses gs ∧
  storedSettings (localStorage w') = Parses s ∧
  tasks w' = ts ∧ goals w' = gs ∧ settings w' = s.
Proof.
  destruct w as [ts0 gs0 s0 ls acc ev]. cbn. intros ->.
  unfold storedTasks, storedGoals, storedSettings, saveToStorage.
  cbn. rewrite !lookup_insert_eq.
  rewrite (lookup_insert_ne _ STORAGE_KEYS.SETTINGS STORAGE_KEYS.TASKS) by done.
  rewrite (lookup_insert_ne _ STORAGE_KEYS.GOALS STORAGE_KEYS.TASKS) by done.
  rewrite (lookup_insert_ne _ STORAGE_KEYS.SETTINGS STORAGE_KEYS.GOALS) by done.
  by rewrite !lookup_insert_eq.
Qed.

Lemma allSaved_commit_all ts gs s w :
  storageAccepts w = true →
  allSaved
    (saveToStorage STORAGE_KEYS.SETTINGS (StoredSettings s)
       (saveToStorage STORAGE_KEYS.GOALS (StoredGoals gs)
          (saveToStorage STORAGE_KEYS.TASKS (StoredTasks ts)
             (set_settings s (set_goals gs (set_tasks ts w)))))).
Proof.
  intros Hacc.
  destruct (stored_commit_all ts gs s w Hacc) as (Hts & Hgs & Hs & Ht & Hg & Hse).
  unfold allSaved. by rewrite Hts, Hgs, Hs, Ht, Hg, Hse.
Qed.

Lemma allSaved_updateTask taskId taskData w :
  storageAccepts w = true → allSaved w → allSaved (updateTask taskId taskData w).
Proof.
  intros Hacc Hsaved. unfold updateTask.
  destruct (findTask taskId (tasks w)) as [[i task]|]; [|done].
  by apply allSaved_emit, allSaved_commit_tasks.
Qed.

Lemma allSaved_createTask taskData newId now w :
  storageAccepts w = true → allSaved w → allSaved (createTask taskData newId now w).
Proof. intros. by apply allSaved_emit, allSaved_commit_tasks. Qed.

Lemma allSaved_updateGoal goalId goalData w :
  storageAccepts w = true → allSaved w → allSaved (updateGoal goalId goalData w).
Proof.
  intros Hacc Hsaved. unfold updateGoal.
  destruct (findGoal goalId (goals w)) as [[i goal]|]; [|done].
  by apply allSaved_emit, allSaved_commit_goals.
Qed.

Lemma allSaved_createGoal goalData newId now w :
  storageAccepts w = true → allSaved w → allSaved (createGoal goalData newId now w).
Proof. intros. by apply allSaved_emit, allSaved_commit_goals. Qed.

Lemma allSaved_perform op w :
  storageAccepts w = true → allSaved w → allSaved (perform op w).
Proof.
  intros Hacc Hsaved.
  destruct op as [[taskData newId now|taskId taskData|taskId now]
                 |taskId [] |values editingId newId now
                 |goalData newId now|goalId goalData|goalId newValue
                 |goalId []|values editingId newId now
                 |[data|] confirmed|now|]; cbn [perform applyTaskMutation].
  - by apply allSaved_createTask.
  - by apply allSaved_updateTask.
  - unfold toggleTaskCompletion.
    destruct (findTask taskId (tasks w)) as [[i task]|]; [|done].
    by apply allSaved_emit, allSaved_commit_tasks.
  - by apply allSaved_emit, allSaved_commit_tasks.
  - done.
  - unfold handleTaskSubmit.
    destruct (_ || _); [by apply allSaved_emit|].
    destruct (truthyId editingId); apply allSaved_emit;
      by first [apply allSaved_updateTask | apply allSaved_createTask].
  - by apply allSaved_createGoal.
  - by apply allSaved_updateGoal.
  - unfold updateGoalProgress.
    destruct (findGoal goalId (goals w)) as [[i goal]|]; [|done].
    cbn zeta. destruct (Goal.completed _);
      [apply allSaved_emit|]; by apply allSaved_commit_goals.
  - by apply allSaved_emit, allSaved_commit_goals.
  - done.
  - unfold handleGoalSubmit.
    destruct (g_targetValue values); [|by apply allSaved_emit].
    destruct (_ || _); [by apply allSaved_emit|].
    destruct (truthyId editingId); apply allSaved_emit;
      by first [apply allSaved_updateGoal | apply allSaved_createGoal].
  - unfold importData, importTry.
    destruct (b_tasks data) as [| |ts]; try by apply allSaved_emit.
    destruct (b_goals data) as [| |gs]; try by apply allSaved_emit.
    destruct confirmed; [|done]. cbn [negb].
    rewrite ?goals_saveToStorage, ?settings_saveToStorage.
    by apply allSaved_emit, allSaved_commit_all.
  - by apply allSaved_emit.
  - unfold checkOverdueTasks. destruct (negb _); [done|].
    case_bool_decide; [by apply allSaved_emit | done].
  - unfold beforeUnload. cbn zeta.
    rewrite ?goals_saveToStorage, ?settings_saveToStorage.
    pose proof (allSaved_commit_all (tasks w) (goals w) (settings w) w Hacc) as H.
    by destruct w.
Qed.

Lemma accepts_perform op w : storageAccepts (perform op w) = storageAccepts w.
Proof.
  destruct op as [[taskData newId now|taskId taskData|taskId now]
                 |taskId [] |values editingId newId now
                 |goalData newId now|goalId goalData|goalId newValue
                 |goalId []|values editingId newId now
                 |[data|] confirmed|now|]; cbn [perform applyTaskMutation];
    unfold createTask, updateTask, toggleTaskCompletion, deleteTask,
      handleTaskSubmit, createGoal, updateGoal, updateGoalProgress, deleteGoal,
      handleGoalSubmit, importData, importTry, checkOverdueTasks, beforeUnload,
      createTask, updateTask, updateGoal, createGoal;
    repeat case_match; simplify_eq;
    repeat (cbn -[saveToStorage]; rewrite ?accepts_saveToStorage); done.
Qed.

Ltac memory :=
  unfold sameMemory;
  repeat (progress (cbn -[saveToStorage];
                    rewrite ?tasks_saveToStorage, ?goals_saveToStorage,
                            ?settings_saveToStorage)).

Lemma sameMemory_perform op w1 w2 :
  sameMemory w1 w2 → sameMemory (perform op w1) (perform op w2).
Proof.
  destruct w1 as [ts gs s ls1 acc1 ev1], w2 as [ts2 gs2 s2 ls2 acc2 ev2].
  intros (Hts & Hgs & Hs). cbn in Hts, Hgs, Hs. subst ts2 gs2 s2.
  destruct op as [[taskData newId now|taskId taskData|taskId now]
                 |taskId [] |values editingId newId now
                 |goalData newId now|goalId goalData|goalId newValue
                 |goalId []|values editingId newId now
                 |[data|] confirmed|now|]; cbn [perform applyTaskMutation];
    unfold createTask, updateTask, toggleTaskCompletion, deleteTask,
      handleTaskSubmit, createGoal, updateGoal, updateGoalProgress, deleteGoal,
      handleGoalSubmit, importData, importTry, checkOverdueTasks, beforeUnload,
      createTask, updateTask, updateGoal, createGoal;
    cbn [tasks goals settings];
    repeat case_match; simplify_eq; memory; done.
Qed.

Lemma localStorage_perform_refused op w :
  storageAccepts w = false → localStorage (perform op w) = localStorage w.
Proof.
  destruct w as [ts gs s ls acc ev]. cbn. intros ->.
  destruct op as [[taskData newId now|taskId taskData|taskId now]
                 |taskId [] |values editingId newId now
                 |goalData newId now|goalId goalData|goalId newValue
                 |goalId []|values editingId newId now
                 |[data|] confirmed|now|]; cbn [perform applyTaskMutation];
    unfold createTask, updateTask, toggleTaskCompletion, deleteTask,
      handleTaskSubmit, createGoal, updateGoal, updateGoalProgress, deleteGoal,
      handleGoalSubmit, importData, importTry, checkOverdueTasks, beforeUnload,
      createTask, updateTask, updateGoal, createGoal, saveToStorage;
    cbn; repeat case_match; simplify_eq; done.
Qed.

Lemma allSaved_performAll ops w :
  storageAccepts w = true → allSaved w → allSaved (performAll ops w).
Proof.
  revert w. induction ops as [|op ops IH]; intros w Hacc Hsaved; [done|].
  cbn. apply IH; [by rewrite accepts_perform | by apply allSaved_perform].
Qed.

(** X4: when localStorage accepts the writes and holds what the session
    holds, it still does after any sequence of the operations of
    [Operation]: task and goal mutations, deletions, form submissions,
    goal progress set to a number, the import of a backup in the
    planner's own format, the reminder, unload. Reloading the page then
    gives back exactly the tasks, goals and settings of the session.
    Progress set to [NaN] (a blank answer to the progress prompt, stored
    as [null]) and the import of a file whose [tasks] or [goals] is no
    list are not among these operations. *)
Theorem reload_restores_session (ops : list Operation) (w : World) :
  storageAccepts w = true → allSaved w →
  allSaved (performAll ops w) ∧
  sameMemory (reload (performAll ops w)) (performAll ops w).
Proof.
  intros Hacc Hsaved.
  pose proof (allSaved_performAll ops w Hacc Hsaved) as Hkeep.
  split; [done|]. destruct Hkeep as (Hts & Hgs & Hs).
  unfold sameMemory, reload, loadDataFromStorage. by rewrite Hts, Hgs, Hs.
Qed.

Lemma reload_restores_witness :
  sameMemory
    (reload (performAll
               [OnTasks (CreateTask (Task.ofForm "Quiz" "Maths" (Some 19885) "" low "")
                                    "t9" 1718000000000);
                OnTasks (ToggleTaskCompletion "t9" 1718000050000);
                CreateGoal lowerTarget "g7" 1718000060000;
                UpdateGoalProgress "g7" 2]
               emptyWorld))
    (performAll
       [OnTasks (CreateTask (Task.ofForm "Quiz" "Maths" (Some 19885) "" low "")
                            "t9" 1718000000000);
        OnTasks (ToggleTaskCompletion "t9" 1718000050000);
        CreateGoal lowerTarget "g7" 1718000060000;
        UpdateGoalProgress "g7" 2]
       emptyWorld).
Proof.
  apply (reload_restores_session
           [OnTasks (CreateTask (Task.ofForm "Quiz" "Maths" (Some 19885) "" low "")
                                "t9" 1718000000000);
            OnTasks (ToggleTaskCompletion "t9" 1718000050000);
            CreateGoal lowerTarget "g7" 1718000060000;
            UpdateGoalProgress "g7" 2]
           emptyWorld).
  - reflexivity.
  - by split_and!.
Defined.

(** X5: what an operation does to the tasks, goals and settings of the
    session depends on nothing but these: neither on what localStorage
    holds nor on whether it accepts the write. When it refuses, the
    operation goes through in memory all the same, and what localStorage
    holds stays as it was. *)
Theorem memory_independent_of_storage (op : Operation) (w1 w2 : World) :
  sameMemory w1 w2 →
  sameMemory (perform op w1) (perform op w2) ∧
  (storageAccepts w1 = false →
   localStorage (perform op w1) = localStorage w1 ∧
   storageAccepts (perform op w1) = false).
Proof.
  intros Hsame. split; [by apply sameMemory_perform|].
  intros Hrefused. split; [by apply localStorage_perform_refused|].
  by rewrite accepts_perform.
Qed.

Lemma memory_independent_witness :
  sameMemory (perform (DeleteTask "t3" true) fullStorageWorld)
             (perform (DeleteTask "t3" true) studyWorld).
Proof.
  apply (memory_independent_of_storage (DeleteTask "t3" true)
                                       fullStorageWorld studyWorld).
  by split_and!.
Defined.

(** ** Loading and exporting *)

(** X6: [loadDataFromStorage] is all or nothing. When none of the three
    texts is malformed, each collection is what its text parses to, or
    empty (default settings) without a text. When any one of them is
    malformed, the session starts with no tasks, no goals and the default
    settings, also for the texts that do parse; localStorage itself is
    left alone by the load, but the next unload writes the empty
    collections over what it held. *)
Theorem loadDataFromStorage_all_or_nothing
    (tasksData : Item (list Task.t)) (goalsData : Item (list Goal.t))
    (settingsData : Item Settings) (w : World) :
  let w' := loadDataFromStorage tasksData goalsData settingsData w in
  localStorage w' = localStorage w ∧
  (∀ ts gs s,
     parseOr [] tasksData = Some ts → parseOr [] goalsData = Some gs →
     parseOr defaultSettings settingsData = Some s →
     tasks w' = ts ∧ goals w' = gs ∧ settings w' = s) ∧
  (tasksData = Malformed ∨ goalsData = Malformed ∨ settingsData = Malformed →
   tasks w' = [] ∧ goals w' = [] ∧ settings w' = defaultSettings ∧
   (storageAccepts w = true →
    storedTasks (localStorage (beforeUnload w')) = Parses [] ∧
    storedGoals (localStorage (beforeUnload w')) = Parses [] ∧
    storedSettings (localStorage (beforeUnload w')) = Parses defaultSettings)).
Proof.
  intros w'. subst w'. split_and!.
  - unfold loadDataFromStorage. by repeat case_match.
  - intros ts gs s Hts Hgs Hs. unfold loadDataFromStorage.
    by rewrite Hts, Hgs, Hs.
  - intros Hbad.
    assert (Hnone :
      (ts ← parseOr [] tasksData; gs ← parseOr [] goalsData;
       s ← parseOr defaultSettings settingsData; Some (ts, gs, s)) = None).
    { destruct Hbad as [-> | [-> | ->]]; [done| |].
      - by destruct (parseOr [] tasksData).
      - by destruct (parseOr [] tasksData), (parseOr [] goalsData). }
    unfold loadDataFromStorage. rewrite Hnone. split_and!; [done..|].
    intros Hacc.
    pose proof (stored_commit_all [] [] defaultSettings
                  (emit (ConsoleError "Error loading data from localStorage:") w)
                  Hacc) as (Hts & Hgs & Hs & _).
    unfold beforeUnload. cbn zeta.
    rewrite ?goals_saveToStorage, ?settings_saveToStorage.
    cbn [tasks goals settings set_tasks set_goals set_settings] in *.
    by split_and!.
Qed.

(** A file written by [exportData] and imported again, into any
    session and with the import confirmed, puts back exactly the tasks,
    goals and settings of the session that exported it; the export itself
    changes none of them. *)
Theorem exportData_importData_round_trip (now : Z) (w other : World) :
  let file := (exportData now w).1 in
  sameMemory (importData (Some (readExport file)) true other) w ∧
  sameMemory (exportData now w).2 w ∧
  version file = "1.0" ∧ exportDate file = now.
Proof.
  cbn. split_and!; [|done..]. unfold importData, importTry. cbn. by memory.
Qed.

(** ** The dashboard numbers *)

Lemma length_filter_complement {A} (P : A → Prop) `{!∀ x, Decision (P x)} (l : list A) :
  (length (filter P l) + length (filter (λ x, ¬ P x) l) = length l)%nat.
Proof.
  induction l as [|x l IH]; [done|].
  rewrite !filter_cons. destruct (decide (P x)), (decide (¬ P x)); cbn; try lia; tauto.
Qed.

Lemma filter_not_completed (l : list Task.t) :
  filter (λ task, ¬ Task.completed task = true) l
  = filter (λ task, Task.completed task = false) l.
Proof.
  apply list_filter_iff. intros task. by destruct (Task.completed task).
Qed.

(** X7: of the numbers [updateDashboardStats] shows, the pending count
    is the number of tasks that are not completed; completed and pending
    tasks add up to the total, and none of the three is negative. *)
Theorem updateDashboardStats_counts (zone : JS.Zone) (now : Z) (w : World) :
  let stats := updateDashboardStats zone now w in
  pendingTasks stats
  = Z.of_nat (length (filter (λ task, Task.completed task = false) (tasks w))) ∧
  completedTasks stats + pendingTasks stats = totalTasks stats ∧
  0 ≤ completedTasks stats ≤ totalTasks stats ∧
  0 ≤ pendingTasks stats.
Proof.
  cbn.
  pose proof (length_filter_complement (λ task, Task.completed task = true) (tasks w)) as H.
  rewrite filter_not_completed in H. lia.
Qed.

Lemma length_filter_insert {A} (P : A → Prop) `{!∀ x, Decision (P x)}
    (l : list A) i x y :
  l !! i = Some x →
  (length (filter P (<[i := y]> l)) + (if decide (P x) then 1 else 0)
   = length (filter P l) + (if decide (P y) then 1 else 0))%nat.
Proof.
  intros Hi.
  rewrite insert_take_drop by by eapply lookup_lt_Some.
  rewrite <- (take_drop_middle l i x Hi) at 3.
  rewrite !filter_app, !filter_cons, !length_app.
  destruct (decide (P x)), (decide (P y)); cbn; lia.
Qed.

(** X8: toggling a task that is present keeps the total and moves
    exactly one task between completed and pending: towards completed
    when the task was not completed, back when it was. *)
Theorem toggleTaskCompletion_moves_one_task
    (zone : JS.Zone) (now at_ : Z) (taskId : string) (w : World) (i : nat)
    (task : Task.t) :
  findTask taskId (tasks w) = Some (i, task) →
  let before := updateDashboardStats zone now w in
  let after := updateDashboardStats zone now (toggleTaskCompletion taskId at_ w) in
  let step := if Task.completed task then -1 else 1 in
  totalTasks after = totalTasks before ∧
  completedTasks after = completedTasks before + step ∧
  pendingTasks after = pendingTasks before - step.
Proof.
  intros Hfind. cbn.
  pose proof Hfind as (Hi & _)%list_find_Some.
  rewrite (tasks_toggle_found _ at_ _ _ _ Hfind), length_insert.
  pose proof (length_filter_insert (λ t, Task.completed t = true) (tasks w) i task
    (Task.set_completedAt (if negb (Task.completed task) then Some at_ else None)
       (Task.set_completed (negb (Task.completed task)) task)) Hi) as H.
  cbn in H. destruct (Task.completed task); cbn in H |- *;
    repeat case_decide; try done; lia.
Qed.

Lemma toggleTaskCompletion_moves_witness :
  completedTasks (updateDashboardStats (JS.fixedZone istOffset) mondayEvening
                    (toggleTaskCompletion "t1" 1718000000000 studyWorld))
  = completedTasks (updateDashboardStats (JS.fixedZone istOffset) mondayEvening
                      studyWorld) + 1.
Proof.
  apply (toggleTaskCompletion_moves_one_task (JS.fixedZone istOffset) mondayEvening
           1718000000000 "t1" studyWorld 2%nat readCh3).
  reflexivity.
Defined.

(** ** Tasks of a day and the weekly calendar *)

Lemma weekStartDay_monday today :
  JS.getDay (weekStartDay 1 today) = 1 ∧
  weekStartDay 1 today ≤ today ≤ weekStartDay 1 today + 6.
Proof.
  unfold weekStartDay, JS.getDay.
  pose proof (Z.mod_pos_bound ((today + 4) `mod` 7 - 1) 7 ltac:(lia)) as Hr.
  pose proof (Z.mod_pos_bound (today + 4) 7 ltac:(lia)) as Hd.
  split; [|lia].
  set (d := (today + 4) `mod` 7) in *.
  assert (Hm : (d - 1) `mod` 7 = if decide (d = 0) then 6 else d - 1).
  { case_decide as Hd0; [by rewrite Hd0|]. apply Z.mod_small. lia. }
  rewrite Hm.
  pose proof (Z.div_mod (today + 4) 7 ltac:(lia)) as Hdm. fold d in Hdm.
  case_decide as Hd0.
  - replace (today - 6 + 4) with (1 + (((today + 4) `div` 7) - 1) * 7) by lia.
    by rewrite Z.mod_add.
  - replace (today - (d - 1) + 4) with (1 + ((today + 4) `div` 7) * 7) by lia.
    by rewrite Z.mod_add.
Qed.

Lemma getWeekStart_offset tz now offset :
  getWeekStart tz now offset =
  JS.localMidnight tz (weekStartDay 1 (JS.localDay tz now) + offset * 7).
Proof.
  unfold getWeekStart. f_equal.
  pose proof (getWeekStart_monday tz now) as H0.
  unfold getWeekStart, JS.localMidnight in H0.
  change JS.msPerDay with 86400000 in H0. lia.
Qed.

(** X9: [getWeekStart(offset)] is local midnight of a Monday: the
    Monday on or before today, at most six days back, moved by [offset]
    whole weeks. *)
Theorem getWeekStart_is_a_monday (tz now offset : Z) :
  let today := JS.localDay tz now in
  let start := JS.localDay tz (getWeekStart tz now offset) in
  getWeekStart tz now offset = JS.localMidnight tz start ∧
  JS.getDay start = 1 ∧
  today - 6 + offset * 7 ≤ start ≤ today + offset * 7.
Proof.
  cbn. rewrite getWeekStart_offset, localDay_localMidnight.
  pose proof (weekStartDay_monday (JS.localDay tz now)) as [Hmon Hrange].
  split_and!; [done| |lia|lia].
  unfold JS.getDay in *.
  replace (weekStartDay 1 (JS.localDay tz now) + offset * 7 + 4)
    with (weekStartDay 1 (JS.localDay tz now) + 4 + offset * 7) by lia.
  by rewrite Z.mod_add.
Qed.

Lemma formatDateForInput_localMidnight tz day :
  (0 < tz ≤ JS.msPerDay → formatDateForInput (JS.localMidnight tz day) = day - 1) ∧
  (- JS.msPerDay < tz ≤ 0 → formatDateForInput (JS.localMidnight tz day) = day).
Proof.
  unfold formatDateForInput, JS.localMidnight. change JS.msPerDay with 86400000.
  split; intros Htz.
  - symmetry. apply (Z.div_unique _ _ _ (86400000 - tz)); lia.
  - symmetry. apply (Z.div_unique _ _ _ (- tz)); lia.
Qed.

(** X10: column [i] of the weekly calendar is headed with the day [i]
    days after the Monday of the week shown. In a zone ahead of UTC its
    tasks are those due the day before the day in its header; in a zone
    at or behind UTC they are those due on that day. *)
Theorem calendar_column_tasks (tz now currentWeekOffset i : Z) (w : World) :
  let day :=
    weekStartDay 1 (JS.localDay tz now) + currentWeekOffset * 7 + i in
  Calendar.headerDay tz now currentWeekOffset i = day ∧
  (0 < tz ≤ JS.msPerDay →
   Calendar.dayTasks tz now currentWeekOffset i w
   = filter (λ task, Task.dueDate task = Some (day - 1)) (tasks w)) ∧
  (- JS.msPerDay < tz ≤ 0 →
   Calendar.dayTasks tz now currentWeekOffset i w
   = filter (λ task, Task.dueDate task = Some day) (tasks w)).
Proof.
  cbn. unfold Calendar.headerDay, Calendar.dayTasks, Calendar.currentDay,
    getTasksForDate.
  rewrite getWeekStart_offset, !localDay_localMidnight.
  split_and!; [done| |]; intros Htz.
  - by rewrite (proj1 (formatDateForInput_localMidnight tz _) Htz).
  - by rewrite (proj2 (formatDateForInput_localMidnight tz _) Htz).
Qed.

Lemma calendar_column_witness :
  Calendar.dayTasks istOffset mondayEvening 0 1 studyWorld
  = filter (λ task, Task.dueDate task = Some 19884) (tasks studyWorld).
Proof.
  apply (calendar_column_tasks istOffset mondayEvening 0 1 studyWorld).
  by vm_compute.
Defined.

(** X11: in a zone ahead of UTC (or in UTC), [getTasksForDate] asked for
    the present moment lists the tasks due today only once the local
    time of day has reached the offset of the zone; earlier in the day it
    lists the tasks due yesterday. *)
Theorem getTasksForDate_now (tz now : Z) (w : World) :
  0 ≤ tz < JS.msPerDay →
  let today := JS.localDay tz now in
  let timeOfDay := (now + tz) `mod` JS.msPerDay in
  getTasksForDate now w
  = filter (λ task, Task.dueDate task
                    = Some (if bool_decide (timeOfDay < tz) then today - 1 else today))
           (tasks w).
Proof.
  intros Htz. cbn. unfold getTasksForDate.
  assert (Hday : formatDateForInput now
                 = if bool_decide ((now + tz) `mod` JS.msPerDay < tz)
                   then JS.localDay tz now - 1 else JS.localDay tz now).
  { unfold formatDateForInput, JS.localDay in *.
    change JS.msPerDay with 86400000 in *.
    pose proof (Z.div_mod (now + tz) 86400000 ltac:(lia)) as Hdm.
    pose proof (Z.mod_pos_bound (now + tz) 86400000 ltac:(lia)) as Hr.
    case_bool_decide.
    - symmetry.
      apply (Z.div_unique _ _ _ (86400000 + (now + tz) `mod` 86400000 - tz)); lia.
    - symmetry. apply (Z.div_unique _ _ _ ((now + tz) `mod` 86400000 - tz)); lia. }
  by rewrite Hday.
Qed.

Lemma getTasksForDate_now_witness :
  getTasksForDate 1718044200000 studyWorld
  = filter (λ task, Task.dueDate task = Some 19884) (tasks studyWorld).
Proof.
  apply (getTasksForDate_now istOffset 1718044200000 studyWorld).
  by vm_compute.
Defined.


(** ** The labels of the cards *)

(** X12: for a task that is due today and not completed, in a zone
    ahead of UTC (or in UTC), the card reads [Today] only until the local
    time of day reaches the offset of the zone; from then on it reads
    [Overdue], which takes precedence. A completed task due today always
    reads [Today]. *)
Theorem dueDateText_of_task_due_today (tz now : Z) (task : Task.t) :
  0 ≤ tz < JS.msPerDay →
  Task.dueDate task = Some (JS.localDay tz now) →
  let timeOfDay := (now + tz) `mod` JS.msPerDay in
  TaskHTML.dueDateText tz now task =
  if Task.completed task then TaskHTML.Today
  else if bool_decide (tz < timeOfDay) then TaskHTML.Overdue
  else TaskHTML.Today.
Proof.
  intros Htz Hdue. cbn.
  unfold TaskHTML.dueDateText, TaskHTML.isOverdue, TaskHTML.isToday.
  rewrite Hdue. cbn.
  assert (Hsame : JS.localDay tz (JS.localDay tz now * JS.msPerDay)
                  = JS.localDay tz now).
  { unfold JS.localDay at 1. change JS.msPerDay with 86400000 in *.
    symmetry. apply (Z.div_unique _ _ _ tz); lia. }
  rewrite Hsame, Z.eqb_refl.
  destruct (Task.completed task); cbn; [by rewrite andb_false_r|].
  rewrite andb_true_r.
  unfold JS.localDay. change JS.msPerDay with 86400000 in *.
  pose proof (Z.div_mod (now + tz) 86400000 ltac:(lia)) as Hdm.
  case_bool_decide.
  - rewrite (proj2 (Z.ltb_lt _ _)); [done | lia].
  - rewrite (proj2 (Z.ltb_ge _ _)); [done | lia].
Qed.

Lemma dueDateText_witness :
  TaskHTML.dueDateText istOffset mondayEvening readCh3 = TaskHTML.Overdue.
Proof.
  apply (dueDateText_of_task_due_today istOffset mondayEvening readCh3).
  - by vm_compute.
  - by vm_compute.
Defined.

Lemma ceilDiv_day target now :
  GoalHTML.ceilDiv (target * JS.msPerDay - now) JS.msPerDay
  = target - formatDateForInput now.
Proof.
  unfold GoalHTML.ceilDiv, formatDateForInput. change JS.msPerDay with 86400000.
  replace (- (target * 86400000 - now)) with (now + (- target) * 86400000) by lia.
  rewrite Z.div_add by lia. lia.
Qed.

(** X13: [daysRemaining] of a goal with a target date is the number of
    days from the present day in UTC to the target day, whatever the time
    of day. The status of a goal that is not completed is therefore
    [Overdue] once that day lies after the target, [Due Today] on the
    target day, and the count of days before it; a completed goal reads
    [Completed] whatever its date. *)
Theorem dateStatus_counts_utc_days (now : Z) (goal : Goal.t) (target : Z) :
  Goal.targetDate goal = Some target →
  let today := formatDateForInput now in
  GoalHTML.daysRemaining now goal = Some (target - today) ∧
  GoalHTML.dateStatus now goal =
    if Goal.completed goal then GoalHTML.Completed
    else if bool_decide (target < today) then GoalHTML.Overdue
    else if bool_decide (target = today) then GoalHTML.DueToday
    else GoalHTML.DaysLeft (Some (target - today)).
Proof.
  intros Htarget. cbn.
  assert (Hdays : GoalHTML.daysRemaining now goal
                  = Some (target - formatDateForInput now)).
  { unfold GoalHTML.daysRemaining. rewrite Htarget. cbn. by rewrite ceilDiv_day. }
  split; [done|]. unfold GoalHTML.dateStatus. rewrite Hdays.
  destruct (Goal.completed goal); [done|].
  repeat case_bool_decide;
    destruct (Z.ltb_spec (target - formatDateForInput now) 0);
    destruct (Z.eqb_spec (target - formatDateForInput now) 0); done || lia.
Qed.

Lemma dateStatus_witness :
  GoalHTML.dateStatus mondayEvening readingGoal = GoalHTML.DaysLeft (Some 16).
Proof.
  apply (dateStatus_counts_utc_days mondayEvening readingGoal 19900).
  reflexivity.
Defined.

(** ** The order of the goal list, and sorting twice *)

Lemma compareGoals_goalOrder a b :
  hasTargetDate a → hasTargetDate b →
  mayPrecede compareGoals a b ↔ goalOrder a b.
Proof.
  intros [da Ha] [db Hb].
  unfold mayPrecede, JS.sortCompare, compareGoals, goalOrder.
  rewrite Ha, Hb.
  destruct (Goal.completed a), (Goal.completed b);
    repeat case_bool_decide; cbn; try done;
    try (change JS.msPerDay with 86400000);
    (split; [intros ? | intros [[? ?] | [? (x & y & ? & ? & ?)]]]);
    simplify_eq; try lia; try done.
  - right. split; [done|]. exists da, db. split_and!; [done..|lia].
  - right. split; [done|]. exists da, db. split_and!; [done..|lia].
Qed.

(** X14: when every goal carries a target date, [sortedGoals] lists the
    goals of the collection, each as often as it occurs, with the goals
    that are not completed before the completed ones and, within each
    group, in the order of their target dates. *)
Theorem sortedGoals_order (w : World) :
  Forall hasTargetDate (goals w) →
  sortedGoals w ≡ₚ goals w ∧ StronglySorted goalOrder (sortedGoals w).
Proof.
  intros Hdue. unfold sortedGoals.
  pose proof (sort_Permutation compareGoals (goals w)) as Hperm.
  split; [done|].
  apply (StronglySorted_weaken (mayPrecede compareGoals) _ hasTargetDate).
  - intros x y Hx Hy. by apply compareGoals_goalOrder.
  - by rewrite Hperm.
  - apply (sort_StronglySorted compareGoals hasTargetDate); [| |done].
    + intros x y Hx Hy. rewrite !compareGoals_goalOrder by done.
      destruct Hx as [dx Hx], Hy as [dy Hy].
      unfold goalOrder. rewrite Hx, Hy.
      destruct (Goal.completed x), (Goal.completed y);
        destruct (Z.le_ge_cases dx dy); naive_solver.
    + intros x y z Hx Hy Hz. rewrite !compareGoals_goalOrder by done.
      unfold goalOrder.
      intros [[? ?] | [? (? & ? & ? & ? & ?)]]
             [[? ?] | [? (? & ? & ? & ? & ?)]];
        simplify_eq; try (left; split; congruence).
      right. split; [congruence|]. eexists _, _. split_and!; [done..|lia].
Qed.

(** X14 at a concrete session: of the three goals of [threeGoalsWorld],
    listed as completed, open and due on day 19900, open and due on day
    19890, the open ones come first, the earlier target before the
    later, and the completed one last. *)
Lemma sortedGoals_witness :
  sortedGoals threeGoalsWorld ≡ₚ [finishedGoal; readingGoal; mockExamGoal] ∧
  StronglySorted goalOrder (sortedGoals threeGoalsWorld) ∧
  sortedGoals threeGoalsWorld = [mockExamGoal; readingGoal; finishedGoal].
Proof.
  split_and!; [| |reflexivity].
  - apply (sortedGoals_order threeGoalsWorld).
    repeat (apply Forall_cons_2; [by eexists|]). apply Forall_nil_2.
  - apply (sortedGoals_order threeGoalsWorld).
    repeat (apply Forall_cons_2; [by eexists|]). apply Forall_nil_2.
Defined.

Lemma sort_of_sorted {A} (cmp : A → A → option Z) (l : list A) :
  StronglySorted (mayPrecede cmp) l → JS.sort cmp l = l.
Proof.
  induction 1 as [|x l Hs IH Hx]; [done|].
  rewrite sort_cons, IH. destruct l as [|y l]; [done|].
  cbn. apply Forall_cons in Hx as [Hxy _].
  unfold mayPrecede in Hxy. by rewrite (proj2 (Z.leb_le _ _) Hxy).
Qed.

(** X15: sorting is idempotent: when every task carries a due date, the
    task list sorted once is left as it is by sorting it again. *)
Theorem sortedTasks_idempotent (w : World) :
  Forall hasDueDate (tasks w) →
  sortedTasks (set_tasks (sortedTasks w) w) = sortedTasks w.
Proof.
  intros Hdue. unfold sortedTasks. cbn.
  apply sort_of_sorted.
  apply (sort_StronglySorted compareTasks hasDueDate); [| |done].
  - intros x y Hx Hy. rewrite !compareTasks_taskOrder by done.
    destruct Hx as [dx Hx], Hy as [dy Hy].
    unfold taskOrder, dueEarlier. rewrite Hx, Hy.
    destruct (Task.completed x), (Task.completed y);
      destruct (Z.lt_trichotomy dx dy) as [?|[->|?]];
      destruct (Z.le_ge_cases (priorityOrder (Task.priority x))
                              (priorityOrder (Task.priority y)));
      naive_solver.
  - intros x y z Hx Hy Hz. rewrite !compareTasks_taskOrder by done.
    destruct Hx as [dx Hx], Hy as [dy Hy], Hz as [dz Hz].
    unfold taskOrder, dueEarlier. rewrite Hx, Hy, Hz.
    intros [[? ?] | [? [(? & ? & ? & ? & ?) | [? ?]]]]
           [[? ?] | [? [(? & ? & ? & ? & ?) | [? ?]]]];
      simplify_eq; try (left; split; congruence);
      right; (split; [congruence|]);
      try (left; eexists _, _; split_and!; [done..|lia]).
    right. split; [done | lia].
Qed.

Lemma sortedTasks_idempotent_witness :
  sortedTasks (set_tasks (sortedTasks studyWorld) studyWorld) = sortedTasks studyWorld.
Proof.
  apply (sortedTasks_idempotent studyWorld).
  repeat (apply Forall_cons_2; [by eexists|]). apply Forall_nil_2.
Defined.

(** ** The reminder of overdue tasks *)

Lemma overdue_filter_as_card now (l : list Task.t) :
  filter (λ task,
            Is_true
              (negb (Task.completed task) &&
               match JS.parseDateOnly (Task.dueDate task) with
               | Some dueDate => dueDate <? now
               | None => false
               end)) l
  = filter (λ task, TaskHTML.isOverdue now task = true) l.
Proof.
  apply list_filter_iff. intros task. unfold TaskHTML.isOverdue.
  destruct (JS.parseDateOnly (Task.dueDate task)) as [dueDate|],
    (Task.completed task); cbn; try destruct (dueDate <? now); cbn;
    naive_solver.
Qed.

(** X16: [checkOverdueTasks] never changes tasks, goals or settings. It
    shows a warning exactly when the settings have [notifications] true
    and some task is overdue, and the number in the warning is the number
    of tasks whose card reads [Overdue]. *)
Theorem checkOverdueTasks_counts_overdue_cards (now : Z) (w : World) :
  let n := length (filter (λ task, TaskHTML.isOverdue now task = true) (tasks w)) in
  sameMemory (checkOverdueTasks now w) w ∧
  localStorage (checkOverdueTasks now w) = localStorage w ∧
  (notifications (settings w) = Some true ∧ (0 < n)%nat →
   events (checkOverdueTasks now w)
   = events w ++ [Toast ("You have " +:+ pretty n +:+ " overdue task(s)") t_warning]) ∧
  (¬ (notifications (settings w) = Some true ∧ (0 < n)%nat) →
   checkOverdueTasks now w = w).
Proof.
  cbn. unfold checkOverdueTasks. rewrite overdue_filter_as_card.
  destruct (notifications (settings w)) as [[]|]; cbn.
  - case_bool_decide; cbn; split_and!; try done.
    + intros []. by split.
    + intros [_ ?]. lia.
  - split_and!; try done. by intros [? _].
  - split_and!; try done. by intros [? _].
Qed.

Lemma checkOverdueTasks_witness :
  events (checkOverdueTasks mondayEvening studyWorld)
  = [Toast "You have 2 overdue task(s)" t_warning].
Proof.
  apply (checkOverdueTasks_counts_overdue_cards mondayEvening studyWorld).
  split; [reflexivity | vm_compute; lia].
Defined.

(** X17: after the import of a backup file that has its tasks and goals
    but no settings, the settings are the empty object, and the reminder
    of overdue tasks does nothing from then on, however many tasks are
    overdue. *)
Theorem importData_without_settings_silences_reminder
    (data : Backup) (w : World) (ts : list Task.t) (gs : list Goal.t) (now : Z) :
  b_tasks data = Present ts → b_goals data = Present gs →
  b_settings data = Missing ∨ b_settings data = Null →
  let w' := importData (Some data) true w in
  settings w' = emptySettings ∧ checkOverdueTasks now w' = w'.
Proof.
  intros Hts Hgs Hs. cbn.
  assert (Hset : settings (importData (Some data) true w) = emptySettings).
  { unfold importData, importTry. rewrite Hts, Hgs. cbn.
    rewrite !settings_saveToStorage. cbn. by destruct Hs as [-> | ->]. }
  split; [done|]. unfold checkOverdueTasks. by rewrite Hset.
Qed.

Lemma importData_without_settings_witness :
  checkOverdueTasks mondayEvening
    (importData (Some (mkBackup (Present [readCh3]) (Present []) Missing)) true studyWorld)
  = importData (Some (mkBackup (Present [readCh3]) (Present []) Missing)) true studyWorld.
Proof.
  apply (importData_without_settings_silences_reminder
           (mkBackup (Present [readCh3]) (Present []) Missing) studyWorld
           [readCh3] [] mondayEvening); [reflexivity | reflexivity | by left].
Defined.

(** ** Escaping of HTML *)

Section Escaping.
Import Html.

Lemma append_cons (a : ascii) (s1 s2 : string) :
  String a s1 +:+ s2 = String a (s1 +:+ s2).
Proof. reflexivity. Qed.

Lemma append_assoc (s1 s2 s3 : string) : (s1 +:+ s2) +:+ s3 = s1 +:+ s2 +:+ s3.
Proof.
  induction s1 as [|a s1 IH]; [done|]. by rewrite !append_cons, IH.
Qed.

Lemma replaceAll_app c by_ s1 s2 :
  replaceAll c by_ (s1 +:+ s2) = replaceAll c by_ s1 +:+ replaceAll c by_ s2.
Proof.
  induction s1 as [|a s1 IH]; [done|].
  change (replaceAll c by_ (String a s1 +:+ s2))
    with (if Ascii.eqb a c then by_ +:+ replaceAll c by_ (s1 +:+ s2)
          else String a (replaceAll c by_ (s1 +:+ s2))).
  change (replaceAll c by_ (String a s1))
    with (if Ascii.eqb a c then by_ +:+ replaceAll c by_ s1
          else String a (replaceAll c by_ s1)).
  rewrite IH. destruct (Ascii.eqb a c); [|done].
  by rewrite append_assoc.
Qed.

(** The five replacements in a row amount to one pass that replaces each
    character by its entity. *)
Lemma escapeHtml_cons a s :
  escapeHtml (Some (String a s)) = escaped a +:+ escapeHtml (Some s).
Proof.
  unfold escapeHtml, escaped, entity.
  cbn [replaceAll].
  destruct (Ascii.eqb a "&") eqn:Hamp.
  { apply Ascii.eqb_eq in Hamp as ->. by rewrite !replaceAll_app. }
  cbn [replaceAll].
  destruct (Ascii.eqb a "<") eqn:Hlt.
  { apply Ascii.eqb_eq in Hlt as ->. by rewrite !replaceAll_app. }
  cbn [replaceAll].
  destruct (Ascii.eqb a ">") eqn:Hgt.
  { apply Ascii.eqb_eq in Hgt as ->. by rewrite !replaceAll_app. }
  cbn [replaceAll].
  destruct (Ascii.eqb a quot) eqn:Hquot.
  { apply Ascii.eqb_eq in Hquot as ->. by rewrite !replaceAll_app. }
  cbn [replaceAll].
  destruct (Ascii.eqb a "'") eqn:Hapos.
  { apply Ascii.eqb_eq in Hapos as ->. done. }
  done.
Qed.

Lemma chars_app s1 s2 : chars (s1 +:+ s2) = chars s1 ++ chars s2.
Proof.
  induction s1 as [|a s1 IH]; [done|]. rewrite append_cons. cbn. by rewrite IH.
Qed.

Lemma escaped_cases a :
  (a = "&"%char ∧ escaped a = "&amp;") ∨ (a = "<"%char ∧ escaped a = "&lt;") ∨
  (a = ">"%char ∧ escaped a = "&gt;") ∨ (a = quot ∧ escaped a = "&quot;") ∨
  (a = "'"%char ∧ escaped a = "&#039;") ∨
  (a ≠ "&"%char ∧ (a ∉ markup) ∧ escaped a = String a EmptyString).
Proof.
  unfold escaped, entity.
  destruct (Ascii.eqb_spec a "&"); [by left|].
  destruct (Ascii.eqb_spec a "<"); [right; by left|].
  destruct (Ascii.eqb_spec a ">"); [do 2 right; by left|].
  destruct (Ascii.eqb_spec a quot); [do 3 right; by left|].
  destruct (Ascii.eqb_spec a "'"); [do 4 right; by left|].
  do 5 right. split_and!; [done| |done].
  unfold markup. rewrite !elem_of_cons, elem_of_nil. tauto.
Qed.

Lemma escaped_no_markup a : Forall (λ c, c ∉ markup) (chars (escaped a)).
Proof.
  assert (Hconcrete : ∀ s : string,
            forallb (λ c, bool_decide (c ∉ markup)) (chars s) = true →
            Forall (λ c, c ∉ markup) (chars s)).
  { intros s Hs. apply Forall_forall. intros c Hc.
    apply list_elem_of_In in Hc.
    rewrite forallb_forall in Hs. by apply (Hs c) in Hc as ?%bool_decide_eq_true. }
  destruct (escaped_cases a)
    as [[_ ->] | [[_ ->] | [[_ ->] | [[_ ->] | [[_ ->] | (_ & Ha & ->)]]]]];
    [by apply Hconcrete; vm_compute..|].
  by apply Forall_singleton.
Qed.

(** X18: the text [escapeHtml] returns for a string contains none of the
    characters [<], [>], the double quote and the single quote; a string
    that has none of these and no [&] is returned as it is; a value that
    is not a string gives the empty string. *)
Theorem escapeHtml_leaves_no_markup (unsafe : string) :
  Forall (λ c, c ∉ markup) (chars (escapeHtml (Some unsafe))) ∧
  (Forall (λ c, c ≠ "&"%char ∧ c ∉ markup) (chars unsafe) →
   escapeHtml (Some unsafe) = unsafe) ∧
  escapeHtml None = "".
Proof.
  split_and!; [| |done].
  - induction unsafe as [|a s IH]; [constructor|].
    rewrite escapeHtml_cons, chars_app. apply Forall_app. split; [|done].
    apply escaped_no_markup.
  - induction unsafe as [|a s IH]; [done|].
    cbn [chars]. intros [[Hamp Ha] Hs]%Forall_cons.
    rewrite escapeHtml_cons, IH by done.
    destruct (escaped_cases a)
      as [[-> _] | [[-> _] | [[-> _] | [[-> _] | [[-> _] | (_ & _ & ->)]]]]];
      [done| | | | |done];
      exfalso; apply Ha; unfold markup; rewrite !elem_of_cons; tauto.
Qed.

Lemma unescape_escaped a rest fuel :
  unescape (S fuel) (escaped a +:+ rest) = String a (unescape fuel rest).
Proof.
  assert (Hsub : ∀ s, String.substring 0 (String.length s) s = s).
  { induction s as [|c s IH]; [done|]. cbn. by rewrite IH. }
  assert (Hnil : ∀ s, String.prefix "" s = true) by by intros [].
  destruct (escaped_cases a)
    as [[-> ->] | [[-> ->] | [[-> ->] | [[-> ->] | [[-> ->] | (Hamp & _ & ->)]]]]];
    rewrite ?append_cons; change ("" +:+ rest) with rest; cbn;
    rewrite ?Hnil, ?Nat.sub_0_r, ?Hsub; try done.
  destruct (Ascii.eqb_spec a "&"); done.
Qed.

Lemma unescape_escapeHtml s fuel :
  (String.length s ≤ fuel)%nat → unescape fuel (escapeHtml (Some s)) = s.
Proof.
  revert fuel. induction s as [|a s IH]; intros fuel Hfuel.
  - by destruct fuel.
  - destruct fuel as [|fuel]; [cbn in Hfuel; lia|].
    rewrite escapeHtml_cons, unescape_escaped, IH; [done|]. cbn in Hfuel. lia.
Qed.

(** X19: escaping loses nothing: the text [escapeHtml] returns reads
    back, entity by entity, to the string it was given, so two different
    strings are never escaped to the same text. *)
Theorem escapeHtml_reads_back (s1 s2 : string) :
  unescape (String.length s1) (escapeHtml (Some s1)) = s1 ∧
  (escapeHtml (Some s1) = escapeHtml (Some s2) → s1 = s2).
Proof.
  split; [by apply unescape_escapeHtml|]. intros Heq.
  pose (fuel := (String.length s1 `max` String.length s2)%nat).
  pose proof (unescape_escapeHtml s1 fuel ltac:(lia)) as H1.
  pose proof (unescape_escapeHtml s2 fuel ltac:(lia)) as H2.
  rewrite Heq in H1. congruence.
Qed.

Example escapeHtml_script :
  escapeHtml (Some "<b onclick='x'>Tom & Jerry</b>")
  = "&lt;b onclick=&#039;x&#039;&gt;Tom &amp; Jerry&lt;/b&gt;".
Proof. reflexivity. Qed.

End Escaping.

(** ** The task and goal forms *)

Lemma length_updateTask taskId taskData w :
  length (tasks (updateTask taskId taskData w)) = length (tasks w).
Proof.
  destruct (findTask taskId (tasks w)) as [[i task]|] eqn:Hfind.
  - by rewrite (tasks_updateTask_found _ _ _ _ _ Hfind), length_insert.
  - unfold updateTask. by rewrite Hfind.
Qed.

Lemma length_submit_while_editing values editingId newId now w :
  is_Some (truthyId editingId) →
  length (tasks (handleTaskSubmit values editingId newId now w)) = length (tasks w).
Proof.
  intros [id Hid]. unfold handleTaskSubmit. rewrite Hid.
  destruct (_ || _); [done|]. cbn. apply length_updateTask.
Qed.

Lemma truthyId_openTaskModal taskId w editingId :
  is_Some (truthyId editingId) →
  is_Some (truthyId (openTaskModal taskId w editingId)).
Proof.
  intros Hediting. unfold openTaskModal.
  destruct (truthyId taskId) as [id|] eqn:Hid; [|done].
  destruct (findTask id (tasks w)) as [[i task]|] eqn:Hfind; [|done].
  apply list_find_Some in Hfind as (_ & -> & _).
  unfold truthyId in Hid. destruct taskId as [s|]; [|done].
  case_bool_decide; simplify_eq. cbn. by rewrite bool_decide_eq_false_2.
Qed.

Lemma formRun_cons a actions s :
  formRun (a :: actions) s = formRun actions (formStep a s).
Proof. reflexivity. Qed.

Lemma formRun_while_editing actions w editingId :
  is_Some (truthyId editingId) →
  length (tasks (formRun actions (w, editingId)).1) = length (tasks w) ∧
  is_Some (truthyId (formRun actions (w, editingId)).2).
Proof.
  revert w editingId.
  induction actions as [|a actions IH]; intros w editingId Hediting; [done|].
  rewrite formRun_cons.
  destruct a as [| taskId | | values newId now]; cbn [formStep].
  - by apply IH, truthyId_openTaskModal.
  - by apply IH, truthyId_openTaskModal.
  - by apply IH.
  - destruct (IH (handleTaskSubmit values editingId newId now w) editingId Hediting)
      as [Hlen Hid].
    split; [|done]. etransitivity; [exact Hlen|].
    by apply length_submit_while_editing.
Qed.

(** X20: the editing id of the task form is never cleared. Once a task
    that exists has been opened for editing, whatever the user then does
    with the form (open it for a new task or for another one, close it,
    submit it, any number of times) never adds a task: every later
    submission is applied as an update under an editing id. *)
Theorem task_form_never_creates_after_an_edit
    (taskId : string) (actions : list FormAction) (w : World)
    (editingId : option string) :
  taskId ≠ "" → is_Some (findTask taskId (tasks w)) →
  let after := formRun (OpenEdit taskId :: actions) (w, editingId) in
  length (tasks after.1) = length (tasks w) ∧ is_Some (truthyId after.2).
Proof.
  intros Hid [[i task] Hfind]. cbn zeta.
  rewrite formRun_cons. cbn [formStep].
  apply formRun_while_editing.
  unfold openTaskModal, truthyId at 2. rewrite bool_decide_eq_false_2 by done.
  rewrite Hfind. apply list_find_Some in Hfind as (_ & -> & _).
  cbn. by rewrite bool_decide_eq_false_2.
Qed.

Lemma task_form_witness :
  length (tasks (formRun [OpenEdit "t1"; Close; OpenNew;
                          Submit (mkTaskForm "Quiz" "Maths" (Some 19885) "" low "")
                                 "t9" 1718000000000]
                         (studyWorld, None)).1)
  = length (tasks studyWorld).
Proof.
  apply (task_form_never_creates_after_an_edit "t1"
           [Close; OpenNew;
            Submit (mkTaskForm "Quiz" "Maths" (Some 19885) "" low "")
                   "t9" 1718000000000]
           studyWorld None).
  - done.
  - by eexists.
Defined.

(** [handleTaskSubmit] rejects a form whose title, subject or due date
    is empty: it shows the error and changes nothing else. A form with
    all three, submitted while the form carries no editing id, adds
    exactly one task holding the values of the form, not completed and
    without completion time. *)
Lemma handleTaskSubmit_validates
    (values : TaskFormValues) (editingId : option string) (newId : string)
    (now : Z) (w : World) :
  let w' := handleTaskSubmit values editingId newId now w in
  (v_title values = "" ∨ v_subject values = "" ∨ v_dueDate values = None →
   w' = showNotification "Please fill in all required fields" t_error w) ∧
  (v_title values ≠ "" → v_subject values ≠ "" → v_dueDate values ≠ None →
   truthyId editingId = None →
   tasks w' = tasks w ++
     [Task.mk newId (v_title values) (v_subject values) (v_description values)
              (v_dueDate values) (v_dueTime values) (v_priority values) false
              (Some now) None]).
Proof.
  cbn zeta. unfold handleTaskSubmit. split.
  - intros Hempty.
    assert (bool_decide (v_title values = "") || bool_decide (v_subject values = "")
            || bool_decide (v_dueDate values = None) = true) as ->; [|done].
    destruct Hempty as [-> | [-> | ->]]; cbn;
      rewrite ?orb_true_r; done.
  - intros Ht Hs Hd Hnew.
    rewrite !bool_decide_eq_false_2 by done. cbn [orb]. rewrite Hnew.
    unfold showNotification. by rewrite tasks_emit, tasks_createTask.
Qed.

(** X21: [handleGoalSubmit] rejects a target that is not a number or is
    0, but not a negative one. The goal a valid form creates has the
    target of the form, no progress and is not completed; so it satisfies
    "completed exactly when the progress reaches the target" exactly when
    its target is positive. *)
Theorem handleGoalSubmit_accepts_negative_target
    (values : GoalFormValues) (newId : string) (now : Z) (w : World) (target : Z) :
  g_title values ≠ "" → g_category values ≠ "" → g_targetDate values ≠ None →
  g_targetValue values = Some target → target ≠ 0 →
  ∃ goal,
    goals (handleGoalSubmit values None newId now w) = goals w ++ [goal] ∧
    Goal.id goal = newId ∧ Goal.targetValue goal = target ∧
    Goal.currentValue goal = 0 ∧ Goal.completed goal = false ∧
    (completedIffReached goal ↔ 0 < target).
Proof.
  intros Ht Hc Hd Htarget Hnz. unfold handleGoalSubmit. rewrite Htarget.
  rewrite !bool_decide_eq_false_2 by done. cbn [orb truthyId].
  unfold createGoal. cbn. rewrite goals_saveToStorage. cbn.
  eexists. split_and!; try reflexivity.
  unfold completedIffReached. cbn. case_bool_decide; split; intros; done || lia.
Qed.

Lemma handleGoalSubmit_witness :
  ∃ goal,
    goals (handleGoalSubmit
             (mkGoalForm "Lose weight" "Health" (Some 19900) (Some (-5)) "kg" "")
             None "g9" 1718000000000 goalWorld)
    = goals goalWorld ++ [goal] ∧
    Goal.id goal = "g9" ∧ Goal.targetValue goal = -5 ∧
    Goal.currentValue goal = 0 ∧ Goal.completed goal = false ∧
    (completedIffReached goal ↔ 0 < -5).
Proof.
  apply (handleGoalSubmit_accepts_negative_target
           (mkGoalForm "Lose weight" "Health" (Some 19900) (Some (-5)) "kg" "")
           "g9" 1718000000000 goalWorld (-5)); done.
Defined.

(** ** The streak and the day's completions *)

(** X22: in every time zone, a completion today (on the local day of the
    moment the streak is computed for) makes the streak at least 1; in
    particular it is at least 1 right after [toggleTaskCompletion] has
    completed a task. Conversely, when every day with a completion is
    whole days from today, a positive streak needs a completion today: a
    run that ended yesterday counts for nothing. *)
Theorem calculateStudyStreak_positive_when_completed_today
    (zone : JS.Zone) (now : Z) (w : World) :
  let today := JS.dayIn zone now in
  (completedOn zone (tasks w) today → 1 ≤ calculateStudyStreak zone now w) ∧
  (∀ taskId i task,
     findTask taskId (tasks w) = Some (i, task) → Task.completed task = false →
     1 ≤ calculateStudyStreak zone now (toggleTaskCompletion taskId now w)) ∧
  ((∀ day, completedOn zone (tasks w) day → wholeDaysApart zone today day) →
   0 < calculateStudyStreak zone now w → completedOn zone (tasks w) today).
Proof.
  intros today.
  assert (Hpos : ∀ w', completedOn zone (tasks w') today →
                       1 ≤ calculateStudyStreak zone now w').
  { intros w' Hdone. unfold calculateStudyStreak.
    pose proof (proj2 (completionDates_days zone (tasks w') today) Hdone) as Hin.
    set (completedTasks := filter _ (tasks w')) in *.
    assert (Hne : completedTasks ≠ []).
    { intros Hempty. rewrite Hempty in Hin. by apply elem_of_nil in Hin. }
    rewrite bool_decide_eq_false_2.
    2:{ intros Hlen%nil_length_inv. apply Hne. subst completedTasks.
        by rewrite Hlen. }
    rewrite bool_decide_eq_false_2 by (by intros ?%nil_length_inv).
    apply streakLoop_today; [apply byMidnight_sorted | done]. }
  split_and!.
  - apply Hpos.
  - intros taskId i task Hfind Hc. apply Hpos.
    rewrite (tasks_toggle_found _ _ _ _ _ Hfind), Hc. cbn.
    pose proof Hfind as (Hi & _)%list_find_Some.
    exists (Task.set_completedAt (Some now) (Task.set_completed true task)), now.
    split_and!; [|reflexivity..].
    eapply list_elem_of_lookup_2, list_lookup_insert_eq. by eapply lookup_lt_Some.
  - intros Hwhole Hlt.
    destruct (calculateStudyStreak_run zone now w Hwhole) as (_ & Hrun & _).
    specialize (Hrun 0 ltac:(lia)). by rewrite Z.sub_0_r in Hrun.
Qed.

(** X22 at concrete sessions, five and a half hours ahead of UTC: on
    the evening of 2024-06-10 [streakWorld], with a completion that day,
    has a streak of at least 1; completing ["t1"] of [studyWorld] then
    brings its streak to at least 1; and the positive streak of
    [streakWorld] shows a completion on that day. *)
Lemma calculateStudyStreak_positive_witness :
  1 ≤ calculateStudyStreak (JS.fixedZone istOffset) mondayEvening streakWorld ∧
  1 ≤ calculateStudyStreak (JS.fixedZone istOffset) mondayEvening
        (toggleTaskCompletion "t1" mondayEvening studyWorld) ∧
  completedOn (JS.fixedZone istOffset) (tasks streakWorld)
              (JS.dayIn (JS.fixedZone istOffset) mondayEvening).
Proof.
  destruct (calculateStudyStreak_positive_when_completed_today
              (JS.fixedZone istOffset) mondayEvening streakWorld)
    as (Hdone & _ & Hconverse).
  destruct (calculateStudyStreak_positive_when_completed_today
              (JS.fixedZone istOffset) mondayEvening studyWorld)
    as (_ & Htoggle & _).
  split_and!.
  - apply Hdone.
    exists (completedTask "b" 1718020800000), 1718020800000.
    split_and!; [right; left | reflexivity..].
  - by apply (Htoggle "t1" 2%nat readCh3).
  - apply Hconverse; [|by vm_compute].
    intros day _. apply wholeDaysApart_fixedZone.
Defined.

(** Where a day was shortened the converse fails: in New York, at noon
    of Monday 2024-03-11, a single completion on the Sunday before, 23
    hours long, counts as today's. *)
Example calculateStudyStreak_after_short_day :
  calculateStudyStreak newYork mondayNoonNewYork sundayOnlyWorld = 1 ∧
  JS.dayIn newYork 1710093600000 = JS.dayIn newYork mondayNoonNewYork - 1.
Proof. by vm_compute. Qed.

(** ** Ties in the task list, and edits through the form *)

Lemma filter_insert_class {A} (cmp : A → A → option Z) (C : A → Prop)
    `{!∀ x, Decision (C x)} (x : A) (l : list A) :
  (∀ x y, C x → C y → JS.sortCompare cmp x y ≤ 0) →
  filter C (JS.insert cmp x l) = filter C (x :: l).
Proof.
  intros Htie. induction l as [|y l IH]; [done|]. cbn [JS.insert].
  destruct (JS.sortCompare cmp x y <=? 0) eqn:Hxy; [done|].
  apply Z.leb_gt in Hxy.
  rewrite (filter_cons _ y), IH, !(filter_cons _ x), (filter_cons _ y).
  destruct (decide (C x)) as [Hx|Hx], (decide (C y)) as [Hy|Hy]; try done.
  specialize (Htie x y Hx Hy). lia.
Qed.

Lemma filter_sort_class {A} (cmp : A → A → option Z) (C : A → Prop)
    `{!∀ x, Decision (C x)} (l : list A) :
  (∀ x y, C x → C y → JS.sortCompare cmp x y ≤ 0) →
  filter C (JS.sort cmp l) = filter C l.
Proof.
  intros Htie. induction l as [|x l IH]; [done|].
  rewrite sort_cons, filter_insert_class by done.
  by rewrite !(filter_cons _ x), IH.
Qed.

(** X23: when every task carries a due date, the sort of the task list
    keeps ties in place: tasks that agree on completion, due date and
    priority come in the sorted list in the order they have in the
    collection. *)
Theorem sortedTasks_keeps_order_of_ties (a : Task.t) (w : World) :
  Forall hasDueDate (tasks w) →
  filter (sameSortKey a) (sortedTasks w) = filter (sameSortKey a) (tasks w).
Proof.
  intros _. apply filter_sort_class. intros x y (Hcx & Hdx & Hpx) (Hcy & Hdy & Hpy).
  unfold JS.sortCompare, compareTasks.
  rewrite bool_decide_eq_false_2 by (intros ?; congruence).
  rewrite bool_decide_eq_false_2 by (intros ?; congruence).
  cbn. replace (Task.priority y) with (Task.priority x) by congruence. lia.
Qed.

(** X23 at a concrete session: the two problem sheets of [tiesWorld]
    tie; the sort moves the high-priority task of the day before both
    and leaves the sheets in the order of the collection. *)
Lemma sortedTasks_ties_witness :
  sortedTasks tiesWorld = [readCh3; solveSheet; nextSheet] ∧
  filter (sameSortKey solveSheet) (sortedTasks tiesWorld) = [solveSheet; nextSheet].
Proof.
  split; [reflexivity|].
  rewrite (sortedTasks_keeps_order_of_ties solveSheet tiesWorld); [reflexivity|].
  repeat (apply Forall_cons_2; [by eexists|]). apply Forall_nil_2.
Defined.

(** X24: an edit through the task form never touches the identity or
    the completion of a task: after [updateTask] with the data of the
    form the collection has the same ids in the same order, and the
    edited task keeps its [id], [createdAt], [completed] and
    [completedAt] while its six form fields are those submitted. *)
Theorem updateTask_from_form_keeps_identity
    (taskId title subject : string) (dueDate : option Z) (dueTime : string)
    (priority : Priority) (description : string) (w : World)
    (i : nat) (task : Task.t) :
  findTask taskId (tasks w) = Some (i, task) →
  let w' :=
    updateTask taskId
      (Task.ofForm title subject dueDate dueTime priority description) w in
  Task.id <$> tasks w' = Task.id <$> tasks w ∧
  tasks w' !! i =
    Some (Task.mk (Task.id task) title subject description dueDate dueTime
                  priority (Task.completed task) (Task.createdAt task)
                  (Task.completedAt task)).
Proof.
  intros Hfind. cbn zeta.
  pose proof Hfind as (Hi & _)%list_find_Some.
  rewrite (tasks_updateTask_found _ _ _ _ _ Hfind). split.
  - rewrite list_fmap_insert. apply list_insert_id.
    by rewrite list_lookup_fmap, Hi.
  - rewrite list_lookup_insert_eq by by eapply lookup_lt_Some. done.
Qed.

Lemma updateTask_from_form_witness :
  Task.id <$> tasks (updateTask "t1"
                       (Task.ofForm "Read Ch.4" "Biology" (Some 19885) "" low "")
                       studyWorld)
  = Task.id <$> tasks studyWorld.
Proof.
  apply (updateTask_from_form_keeps_identity "t1" "Read Ch.4" "Biology"
           (Some 19885) "" low "" studyWorld 2%nat readCh3).
  reflexivity.
Defined.
